(** * AI Fitness Coach: the nutrition pipeline and its daily aggregator

    A shallow embedding of
    - [src/lib/ai/openai-vision.ts]: the OpenAI client singleton,
      [getOpenAIClient], [analyzeImageWithOpenAI] and the Inngest function
      [updateNutritionData] with its two steps;
    - the AI integration rules: [analyzeFoodImage] and
      [processNutritionAnalysis];
    - [src/utils/supabase/middleware.ts]: [updateSession], and of the
      rules that follow it [generateRecommendationWithRetry] with
      [generateFallbackRecommendation], [logAIOperation], the [POST]
      route for weight logs and the handler of [analyzeWeeklyProgress];
    together with the parts of the JavaScript runtime these functions lean
    on: IEEE binary64 numbers, exceptions, the [Date] arithmetic of ECMA-262
    and [JSON.parse].

    Conventions of the model:
    - an [async] function is its completion: the value it resolves to, or
      what it rejects with;
    - external collaborators (the model provider, the two [generateObject]
      calls) are parameters that return a completion; the store is a list of
      rows or a failure;
    - instants are integers, milliseconds since the epoch; the time zone of
      the process is a constant offset from UTC;
    - where the order of what a function does matters (calls issued,
      console lines, pauses), it is a computation of [Eff.M] that appends
      events to a trace;
    - calls of the logger do not throw and are not modelled, except that the
      evaluation of their arguments is, and that the lines logged at start-up
      are kept. *)

From Stdlib Require Import ZArith List String Ascii Bool Lia Floats.
Import ListNotations.

Set Warnings "-inexact-float".

(** ** JavaScript runtime: completions, numbers, truthiness *)

Module Js.

(** What a [throw] (or a rejected promise) carries.  [Error m] is
    [new Error(m)]; [TypeError p] is the engine's error on reading property
    [p] of [null] or [undefined]; [SyntaxError] is what [JSON.parse] throws;
    [Foreign d] is whatever an external
    collaborator rejects with (an OpenAI SDK error, a PostgrestError). *)
Inductive thrown : Type :=
| Error (message : string)
| TypeError (property : string)
| SyntaxError
| Foreign (detail : string).

(** The outcome of running a function body: it returns or it throws. *)
Inductive completion (A : Type) : Type :=
| Return (a : A)
| Throw (e : thrown).
Arguments Return {A} a.
Arguments Throw {A} e.

Definition bind {A B : Type} (c : completion A) (k : A -> completion B)
  : completion B :=
  match c with
  | Return a => k a
  | Throw e => Throw e
  end.

(** [try { body } catch (e) { handler e }]. *)
Definition try_catch {A : Type} (body : completion A)
           (handler : thrown -> completion A) : completion A :=
  match body with
  | Return a => Return a
  | Throw e => handler e
  end.

(** A JavaScript number is an IEEE 754 binary64 value. *)
Definition number : Set := float.

(** Truthiness of a number: [0], [-0] and [NaN] are falsy. *)
Definition number_truthy (x : number) : bool :=
  negb (PrimFloat.is_zero x || PrimFloat.is_nan x).

(** Truthiness of a string: only the empty string is falsy. *)
Definition string_truthy (s : string) : bool :=
  match s with
  | EmptyString => false
  | String _ _ => true
  end.

(** Truthiness of [string | null | undefined]. *)
Definition opt_string_truthy (s : option string) : bool :=
  match s with
  | Some s => string_truthy s
  | None => false
  end.

End Js.

Declare Scope js_scope.
Delimit Scope js_scope with js.
Notation "x <- c ;; k" := (Js.bind c (fun x => k))
  (at level 61, c at next level, right associativity) : js_scope.

(** ** Date arithmetic (ECMA-262, section 21.4.1)

    Time values are integers: milliseconds since the epoch, in UTC. *)

Module EcmaDate.
Local Open Scope Z_scope.

Definition msPerDay : Z := 86400000.
Definition msPerHour : Z := 3600000.
Definition msPerMinute : Z := 60000.
Definition msPerSecond : Z := 1000.

Definition Day (t : Z) : Z := t / msPerDay.
Definition TimeWithinDay (t : Z) : Z := t mod msPerDay.

Definition DaysInYear (y : Z) : Z :=
  if negb (y mod 4 =? 0) then 365
  else if negb (y mod 100 =? 0) then 366
  else if negb (y mod 400 =? 0) then 365
  else 366.

Definition DayFromYear (y : Z) : Z :=
  365 * (y - 1970) + (y - 1969) / 4 - (y - 1901) / 100 + (y - 1601) / 400.

Definition TimeFromYear (y : Z) : Z := msPerDay * DayFromYear y.

(** The largest [y] with [TimeFromYear y <= t]: an estimate from the mean
    length of a Gregorian year, then one correction step. *)
Definition YearFromTime (t : Z) : Z :=
  let y0 := 1970 + (Day t * 400) / 146097 in
  if t <? TimeFromYear y0 then y0 - 1
  else if TimeFromYear (y0 + 1) <=? t then y0 + 1
  else y0.

Definition InLeapYear (t : Z) : Z :=
  if DaysInYear (YearFromTime t) =? 366 then 1 else 0.

Definition DayWithinYear (t : Z) : Z := Day t - DayFromYear (YearFromTime t).

(** The first day-within-year of month [m] (0 = January), given the leap
    flag: the lower bounds of the table of [MonthFromTime]. *)
Definition monthStart (leap m : Z) : Z :=
  match m with
  | 0 => 0
  | 1 => 31
  | 2 => 59 + leap
  | 3 => 90 + leap
  | 4 => 120 + leap
  | 5 => 151 + leap
  | 6 => 181 + leap
  | 7 => 212 + leap
  | 8 => 243 + leap
  | 9 => 273 + leap
  | 10 => 304 + leap
  | _ => 334 + leap
  end.

Definition MonthFromTime (t : Z) : Z :=
  let d := DayWithinYear t in
  let leap := InLeapYear t in
  if d <? 31 then 0
  else if d <? 59 + leap then 1
  else if d <? 90 + leap then 2
  else if d <? 120 + leap then 3
  else if d <? 151 + leap then 4
  else if d <? 181 + leap then 5
  else if d <? 212 + leap then 6
  else if d <? 243 + leap then 7
  else if d <? 273 + leap then 8
  else if d <? 304 + leap then 9
  else if d <? 334 + leap then 10
  else 11.

Definition DateFromTime (t : Z) : Z :=
  DayWithinYear t - monthStart (InLeapYear t) (MonthFromTime t) + 1.

Definition MakeTime (hour min sec ms : Z) : Z :=
  hour * msPerHour + min * msPerMinute + sec * msPerSecond + ms.

(** [MakeDay]: the day number of the first of month [mn] of year [ym],
    plus [date - 1]. *)
Definition MakeDay (year month date : Z) : Z :=
  let ym := year + month / 12 in
  let mn := month mod 12 in
  let leap := if DaysInYear ym =? 366 then 1 else 0 in
  DayFromYear ym + monthStart leap mn + date - 1.

Definition MakeDate (day time : Z) : Z := day * msPerDay + time.

(** Two-digit years of the [Date] constructor mean 19xx. *)
Definition MakeFullYear (y : Z) : Z :=
  if (0 <=? y) && (y <=? 99) then 1900 + y else y.

Section LocalTime.
(** The offset of the process's time zone from UTC, in milliseconds,
    taken as constant (no daylight-saving transition). *)
Variable LocalTZA : Z.

Definition LocalTime (t : Z) : Z := t + LocalTZA.
Definition UTC (t : Z) : Z := t - LocalTZA.

Definition getFullYear (tv : Z) : Z := YearFromTime (LocalTime tv).
Definition getMonth (tv : Z) : Z := MonthFromTime (LocalTime tv).
Definition getDate (tv : Z) : Z := DateFromTime (LocalTime tv).

(** [new Date(year, month, date, hours, minutes, seconds, ms)]; the
    shorter call [new Date(year, month, date)] passes zeros. *)
Definition newDate (year month date hours minutes seconds ms : Z) : Z :=
  UTC (MakeDate (MakeDay (MakeFullYear year) month date)
                (MakeTime hours minutes seconds ms)).
End LocalTime.

End EcmaDate.

(** ** [JSON.parse] (ECMA-404) and property reads on its results *)

Module Json.
Local Open Scope string_scope.

(** A parsed JSON text.  Strings are held as bytes; an object keeps its
    members in source order, duplicates included. *)
#[warnings="-register-all"]
Inductive value : Type :=
| Null
| Bool (b : bool)
| Number (n : Js.number)
| Str (s : string)
| Array (elements : list value)
| Object (members : list (string * value)).

(** What a parsing function yields: a value and the unread input, a
    syntax error, or exhaustion of the recursion budget. *)
Inductive parse_result (A : Type) : Type :=
| Parsed (a : A) (rest : string)
| Malformed
| OutOfFuel.
Arguments Parsed {A} a rest.
Arguments Malformed {A}.
Arguments OutOfFuel {A}.

(** The double quote, character 34. *)
Definition dquote : ascii := "034"%char.

(** Sample texts are written with ['] where JSON has the double quote. *)
Fixpoint requote (s : string) : string :=
  match s with
  | EmptyString => EmptyString
  | String c r => String (if (c =? "'")%char then dquote else c) (requote r)
  end.

Definition code (c : ascii) : Z := Z.of_N (N_of_ascii c).
Definition char (n : Z) : ascii := ascii_of_N (Z.to_N n).

Definition is_ws (c : ascii) : bool :=
  let n := code c in
  (n =? 32)%Z || (n =? 9)%Z || (n =? 10)%Z || (n =? 13)%Z.

Fixpoint skip_ws (s : string) : string :=
  match s with
  | String c r => if is_ws c then skip_ws r else s
  | EmptyString => s
  end.

Definition digit (c : ascii) : option Z :=
  let n := code c in
  if (48 <=? n)%Z && (n <=? 57)%Z then Some (n - 48)%Z else None.

Definition hex_digit (c : ascii) : option Z :=
  let n := code c in
  if (48 <=? n)%Z && (n <=? 57)%Z then Some (n - 48)%Z
  else if (65 <=? n)%Z && (n <=? 70)%Z then Some (n - 55)%Z
  else if (97 <=? n)%Z && (n <=? 102)%Z then Some (n - 87)%Z
  else None.

(** A UTF-16 code unit as the bytes of its UTF-8 form. *)
Definition code_unit_bytes (u : Z) (tail : string) : string :=
  if (u <? 128)%Z then String (char u) tail
  else if (u <? 2048)%Z then
    String (char (192 + u / 64)) (String (char (128 + u mod 64)) tail)
  else
    String (char (224 + u / 4096))
      (String (char (128 + (u / 64) mod 64))
         (String (char (128 + u mod 64)) tail)).

Definition simple_escape (c : ascii) : option ascii :=
  match c with
  | "034"%char => Some dquote
  | "\"%char => Some "\"%char
  | "/"%char => Some "/"%char
  | "b"%char => Some (char 8)
  | "f"%char => Some (char 12)
  | "n"%char => Some (char 10)
  | "r"%char => Some (char 13)
  | "t"%char => Some (char 9)
  | _ => None
  end.

(** The characters of a string literal after its opening quote. *)
Fixpoint parse_chars (s : string) : parse_result string :=
  match s with
  | EmptyString => Malformed
  | String "034"%char r => Parsed EmptyString r
  | String "\"%char (String "u"%char (String a (String b (String c (String d r))))) =>
      match hex_digit a, hex_digit b, hex_digit c, hex_digit d with
      | Some a, Some b, Some c, Some d =>
          match parse_chars r with
          | Parsed t r' =>
              Parsed (code_unit_bytes (((a * 16 + b) * 16 + c) * 16 + d)%Z t) r'
          | e => e
          end
      | _, _, _, _ => Malformed
      end
  | String "\"%char (String e r) =>
      match simple_escape e with
      | Some c =>
          match parse_chars r with
          | Parsed t r' => Parsed (String c t) r'
          | e => e
          end
      | None => Malformed
      end
  | String "\"%char EmptyString => Malformed
  | String c r =>
      if (code c <? 32)%Z then Malformed
      else match parse_chars r with
           | Parsed t r' => Parsed (String c t) r'
           | e => e
           end
  end.

(** A run of decimal digits, folded into [acc]; also their count. *)
Fixpoint digits (s : string) (acc : Z) (count : Z) : Z * Z * string :=
  match s with
  | String c r =>
      match digit c with
      | Some d => digits r (acc * 10 + d)%Z (count + 1)%Z
      | None => (acc, count, s)
      end
  | EmptyString => (acc, count, s)
  end.

(** The binary64 value nearest to [(-1)^neg * m * 10^e] (ties to even). *)
Definition decimal_to_number (neg : bool) (m e : Z) : Js.number :=
  match m with
  | Zpos p =>
      let x := S754_finite neg p 0 in
      SF2Prim
        (if (0 <=? e)%Z
         then SFmul prec emax x (S754_finite false (Z.to_pos (10 ^ e)) 0)
         else SFdiv prec emax x (S754_finite false (Z.to_pos (10 ^ (- e))) 0))
  | _ => if neg then neg_zero else zero
  end.

Definition parse_exponent (s : string) : option (Z * string) :=
  match s with
  | String c r =>
      if (c =? "e")%char || (c =? "E")%char then
        let '(sign, r1) :=
          match r with
          | String "-"%char r1 => ((-1)%Z, r1)
          | String "+"%char r1 => (1%Z, r1)
          | _ => (1%Z, r)
          end in
        let '(e, n, r2) := digits r1 0%Z 0%Z in
        if (n =? 0)%Z then None else Some ((sign * e)%Z, r2)
      else Some (0%Z, s)
  | EmptyString => Some (0%Z, s)
  end.

Definition parse_fraction (s : string) (m : Z) : option (Z * Z * string) :=
  match s with
  | String "."%char r =>
      let '(m', n, r') := digits r m 0%Z in
      if (n =? 0)%Z then None else Some (m', n, r')
  | _ => Some (m, 0%Z, s)
  end.

Definition parse_sign (s : string) : bool * string :=
  match s with
  | String "-"%char r => (true, r)
  | _ => (false, s)
  end.

(** The integer part: a lone [0], or digits that start with 1 to 9. *)
Definition parse_int (s : string) : option (Z * string) :=
  match s with
  | String "0"%char r => Some (0%Z, r)
  | String c r =>
      match digit c with
      | Some d => let '(m, _, r') := digits r d 1%Z in Some (m, r')
      | None => None
      end
  | EmptyString => None
  end.

Definition parse_number (s : string) : parse_result Js.number :=
  let '(neg, s1) := parse_sign s in
  match parse_int s1 with
  | None => Malformed
  | Some (m, s2) =>
      match parse_fraction s2 m with
      | None => Malformed
      | Some (m', nfrac, s3) =>
          match parse_exponent s3 with
          | None => Malformed
          | Some (e, s4) => Parsed (decimal_to_number neg m' (e - nfrac)%Z) s4
          end
      end
  end.

(** [strip_prefix word s] is what follows [word] at the head of [s]. *)
Fixpoint strip_prefix (word s : string) : option string :=
  match word with
  | EmptyString => Some s
  | String w word' =>
      match s with
      | String c r => if (c =? w)%char then strip_prefix word' r else None
      | EmptyString => None
      end
  end.

Definition literal (word : string) (v : value) (s : string)
  : parse_result value :=
  match strip_prefix word s with
  | Some r => Parsed v r
  | None => Malformed
  end.

(** What follows the character [c] at the head of [s]. *)
Definition after (c : ascii) (s : string) : option string :=
  match s with
  | String d r => if (d =? c)%char then Some r else None
  | EmptyString => None
  end.

(** Recursive descent.  [parse_elements] reads an array after its
    opening bracket, [parse_members] an object after its opening brace;
    both carry what they have read so far, in reverse. *)
Fixpoint parse_value (fuel : nat) (s : string) : parse_result value :=
  match fuel with
  | O => OutOfFuel
  | S fuel =>
      match skip_ws s with
      | EmptyString => Malformed
      | String c r as s' =>
          if (c =? "{")%char then
            match after "}" (skip_ws r) with
            | Some r' => Parsed (Object []) r'
            | None => parse_members fuel r []
            end
          else if (c =? "[")%char then
            match after "]" (skip_ws r) with
            | Some r' => Parsed (Array []) r'
            | None => parse_elements fuel r []
            end
          else if (c =? dquote)%char then
            match parse_chars r with
            | Parsed t r' => Parsed (Str t) r'
            | Malformed => Malformed
            | OutOfFuel => OutOfFuel
            end
          else if (c =? "t")%char then literal "true" (Bool true) s'
          else if (c =? "f")%char then literal "false" (Bool false) s'
          else if (c =? "n")%char then literal "null" Null s'
          else
            match parse_number s' with
            | Parsed n r' => Parsed (Number n) r'
            | Malformed => Malformed
            | OutOfFuel => OutOfFuel
            end
      end
  end
with parse_elements (fuel : nat) (s : string) (acc : list value)
     : parse_result value :=
  match fuel with
  | O => OutOfFuel
  | S fuel =>
      match parse_value fuel s with
      | Parsed v r =>
          match skip_ws r with
          | EmptyString => Malformed
          | String c r' =>
              if (c =? ",")%char then parse_elements fuel r' (v :: acc)
              else if (c =? "]")%char then Parsed (Array (rev (v :: acc))) r'
              else Malformed
          end
      | e => e
      end
  end
with parse_members (fuel : nat) (s : string) (acc : list (string * value))
     : parse_result value :=
  match fuel with
  | O => OutOfFuel
  | S fuel =>
      match skip_ws s with
      | EmptyString => Malformed
      | String q r =>
          if (q =? dquote)%char then
            match parse_chars r with
            | Parsed key r1 =>
                match skip_ws r1 with
                | EmptyString => Malformed
                | String c r2 =>
                    if (c =? ":")%char then
                      match parse_value fuel r2 with
                      | Parsed v r3 =>
                          match skip_ws r3 with
                          | EmptyString => Malformed
                          | String d r4 =>
                              if (d =? ",")%char
                              then parse_members fuel r4 ((key, v) :: acc)
                              else if (d =? "}")%char
                              then Parsed (Object (rev ((key, v) :: acc))) r4
                              else Malformed
                          end
                      | e => e
                      end
                    else Malformed
                end
            | Malformed => Malformed
            | OutOfFuel => OutOfFuel
            end
          else Malformed
      end
  end.

(** Recursion budget: two units per character always suffice (see
    [parse_fuel_enough]). *)
Definition parse_fuel (text : string) : nat := 2 * length text + 2.

(** [JSON.parse(text)]: the value, or a thrown [SyntaxError]. *)
Definition JSON_parse (text : string) : Js.completion value :=
  match parse_value (parse_fuel text) text with
  | Parsed v rest =>
      match skip_ws rest with
      | EmptyString => Js.Return v
      | String _ _ => Js.Throw Js.SyntaxError
      end
  | _ => Js.Throw Js.SyntaxError
  end.

(** The own data property [key] of a parsed object: the last member of
    that name, as [JSON.parse] lets a later duplicate overwrite. *)
Fixpoint lookup (key : string) (members : list (string * value))
  : option value :=
  match members with
  | [] => None
  | (k, v) :: rest =>
      match lookup key rest with
      | Some v' => Some v'
      | None => if (k =? key)%string then Some v else None
      end
  end.

(** [v.key] for a property name that no prototype defines: reading from
    [null] throws, an object yields its own member or [undefined]
    ([None]), any other value yields [undefined]. *)
Definition get (v : value) (key : string) : Js.completion (option value) :=
  match v with
  | Null => Js.Throw (Js.TypeError key)
  | Object members => Js.Return (lookup key members)
  | _ => Js.Return None
  end.

(** [x.length] where [x] is the outcome of a property read: it throws on
    [undefined] and [null]; the length itself is only logged. *)
Definition read_length (x : option value) : Js.completion unit :=
  match x with
  | None | Some Null => Js.Throw (Js.TypeError "length")
  | Some _ => Js.Return tt
  end.
End Json.

(** ** [src/lib/ai/openai-vision.ts]: the client and the vision estimator *)

Module OpenAIVision.
Import Js.
Local Open Scope string_scope.
Local Open Scope js_scope.

(** The configured SDK client. *)
Record OpenAI : Type := {
  apiKey : string;
  maxRetries : Z;
  timeout : Z
}.

Inductive level : Type := info | warn | error.

(** A line given to the logger at start-up: a level and a message, or the
    status line, [logger.info('OpenAI client initialization status:',
    { initialized, hasApiKey })]. *)
Inductive log_line : Type :=
| Line (at_level : level) (message : string)
| Status (initialized hasApiKey : bool).

(** What loading the module leaves behind: the singleton [openai] and the
    lines it logged. *)
Record module_state : Type := {
  openai : option OpenAI;
  logged : list log_line
}.

Definition missing_key_warning : string :=
  "OPENAI_API_KEY environment variable is missing"
  ++ " - OpenAI functionality will be disabled".

(** [process.env.NODE_ENV !== 'production']; an unset variable is
    [undefined]. *)
Definition not_production (env_NODE_ENV : option string) : bool :=
  match env_NODE_ENV with
  | Some mode => negb (mode =? "production")%string
  | None => true
  end.

(** [!!openai]. *)
Definition is_initialized (openai : option OpenAI) : bool :=
  match openai with
  | Some _ => true
  | None => false
  end.

(** The top-level statements of the module, run once at import, given
    [process.env.OPENAI_API_KEY] and [process.env.NODE_ENV]: the client is
    made when the key is truthy, with one line logged either way, and
    outside production the status line follows. *)
Definition initialize (env_OPENAI_API_KEY env_NODE_ENV : option string)
  : completion module_state :=
  let apiKey := env_OPENAI_API_KEY in
  let st :=
    match apiKey with
    | Some key =>
        if string_truthy key then
          {| openai := Some {| apiKey := key; maxRetries := 3;
                               timeout := 60000 |};
             logged := [Line info "OpenAI client initialized successfully"] |}
        else
          {| openai := None; logged := [Line warn missing_key_warning] |}
    | None =>
        {| openai := None; logged := [Line warn missing_key_warning] |}
    end in
  if not_production env_NODE_ENV then
    Return {| openai := openai st;
              logged := logged st
                        ++ [Status (is_initialized (openai st))
                                   (opt_string_truthy apiKey)] |}
  else Return st.

Definition getOpenAIClient (openai : option OpenAI) : completion OpenAI :=
  match openai with
  | None => Throw (Error "OPENAI_API_KEY environment variable is required")
  | Some client => Return client
  end.

(** The chat completion as far as the function reads it:
    [response.choices[0]?.message?.content]. *)
Record Message : Type := { content : option string }.
Record Choice : Type := { message : option Message }.
Record ChatCompletion : Type := { choices : list Choice }.

Definition first_content (response : ChatCompletion) : option string :=
  match choices response with
  | [] => None
  | choice :: _ =>
      match message choice with
      | None => None
      | Some m => content m
      end
  end.

Section Estimator.
(** The singleton left by [initialize], and the provider:
    [client.chat.completions.create] with the fixed prompt and the image,
    which resolves to a completion or rejects. *)
Variable openai : option OpenAI.
Variable create : OpenAI -> string -> completion ChatCompletion.

Definition analyzeImageWithOpenAI (imageBase64 : string)
  : completion Json.value :=
  try_catch
    (client <- getOpenAIClient openai ;;
     response <- create client imageBase64 ;;
     match first_content response with
     | None => Throw (Error "No response from OpenAI")
     | Some content =>
         if negb (string_truthy content)
         then Throw (Error "No response from OpenAI")
         else
           analysis <- try_catch (Json.JSON_parse content)
                         (fun parseError =>
                            Throw (Error "Invalid JSON response from OpenAI")) ;;
           (* the arguments of the [logger.info] call *)
           _ <- Json.get analysis "totalCalories" ;;
           _ <- Json.get analysis "confidenceScore" ;;
           foodItems <- Json.get analysis "foodItems" ;;
           _ <- Json.read_length foodItems ;;
           Return analysis
     end)
    (fun error => Throw error).
End Estimator.

(** The interface [NutritionAnalysis] read off a parsed reply: a numeric
    field, and the sum of a numeric field over [foodItems]. *)
Definition number_field (v : Json.value) (key : string) : option number :=
  match v with
  | Json.Object members =>
      match Json.lookup key members with
      | Some (Json.Number n) => Some n
      | _ => None
      end
  | _ => None
  end.

Fixpoint sum_field (key : string) (items : list Json.value) (acc : number)
  : option number :=
  match items with
  | [] => Some acc
  | item :: rest =>
      match number_field item key with
      | Some n => sum_field key rest (acc + n)%float
      | None => None
      end
  end.

Definition items_total (analysis : Json.value) (key : string) : option number :=
  match analysis with
  | Json.Object members =>
      match Json.lookup "foodItems" members with
      | Some (Json.Array items) => sum_field key items 0%float
      | _ => None
      end
  | _ => None
  end.

(** The required fields of [NutritionAnalysis]. *)
Definition required_fields : list string :=
  ["foodItems"; "totalCalories"; "totalProtein"; "totalCarbs"; "totalFat";
   "totalFiber"; "confidenceScore"; "analysisNotes"].

Definition has_field (v : Json.value) (key : string) : bool :=
  match v with
  | Json.Object members =>
      match Json.lookup key members with
      | Some _ => true
      | None => false
      end
  | _ => false
  end.

Definition has_required_fields (v : Json.value) : bool :=
  forallb (has_field v) required_fields.

End OpenAIVision.

(** ** The Inngest function [updateNutritionData] *)

Module NutritionJob.
Import Js EcmaDate.
Local Open Scope string_scope.
Local Open Scope js_scope.

(** A row of the table [nutrition_logs].  [created_at] is an instant
    (milliseconds since the epoch); a numeric column may be null. *)
Record nutrition_log : Type := {
  id : string;
  user_id : string;
  created_at : Z;
  total_calories : option number;
  total_protein_g : option number;
  total_carbs_g : option number;
  total_fat_g : option number;
  total_fiber_g : option number
}.

(** The hosted store: reachable with its rows, or failing every query. *)
Inductive database : Type :=
| Rows (nutrition_logs : list nutrition_log)
| Failing (fetchError : thrown).

(** What [await supabase.from(...).select(...)...] resolves to. *)
Record response : Type := {
  data : option (list nutrition_log);
  error : option thrown
}.

(** The query of the step: rows of [userId] with
    [gte] <= [created_at] < [lt], in table order.  The bounds arrive as
    [toISOString()] texts, which name the same instants. *)
Definition select_logs (db : database) (userId : string) (gte lt : Z)
  : response :=
  match db with
  | Rows logs =>
      {| data := Some (filter (fun log =>
                                 (user_id log =? userId)%string
                                 && (gte <=? created_at log)%Z
                                 && (created_at log <? lt)%Z) logs);
         error := None |}
  | Failing e => {| data := None; error := Some e |}
  end.

Record daily_totals : Type := {
  calories : number;
  protein : number;
  carbs : number;
  fat : number;
  fiber : number
}.

(** [x || 0] for a nullable numeric column. *)
Definition or_zero (x : option number) : number :=
  match x with
  | Some n => if number_truthy n then n else 0%float
  | None => 0%float
  end.

(** The callback of [todayLogs.reduce]. *)
Definition add_log (acc : daily_totals) (log : nutrition_log) : daily_totals :=
  {| calories := (calories acc + or_zero (total_calories log))%float;
     protein := (protein acc + or_zero (total_protein_g log))%float;
     carbs := (carbs acc + or_zero (total_carbs_g log))%float;
     fat := (fat acc + or_zero (total_fat_g log))%float;
     fiber := (fiber acc + or_zero (total_fiber_g log))%float |}.

Definition zero_totals : daily_totals :=
  {| calories := 0%float; protein := 0%float; carbs := 0%float;
     fat := 0%float; fiber := 0%float |}.

Definition dailyTotals (todayLogs : list nutrition_log) : daily_totals :=
  fold_left add_log todayLogs zero_totals.

(** The payload of both events. *)
Record event_data : Type := {
  logId : string;
  userId : string;
  confidenceScore : number
}.

Record sent_event : Type := {
  name : string;
  payload : event_data
}.

Record outcome : Type := { success : bool }.

Section Handler.
Variable LocalTZA : Z.

Definition startOfDay (now : Z) : Z :=
  newDate LocalTZA (getFullYear LocalTZA now) (getMonth LocalTZA now)
          (getDate LocalTZA now) 0 0 0 0.

Definition endOfDay (now : Z) : Z :=
  newDate LocalTZA (getFullYear LocalTZA now) (getMonth LocalTZA now)
          (getDate LocalTZA now) 23 59 59 999.

(** Step 'update-daily-summary', run when the clock reads [now]. *)
Definition update_daily_summary (now : Z) (db : database) (userId : string)
  : completion daily_totals :=
  let r := select_logs db userId (startOfDay now) (endOfDay now) in
  match error r with
  | Some fetchError => Throw fetchError
  | None =>
      match data r with
      | Some todayLogs => Return (dailyTotals todayLogs)
      | None => Throw (TypeError "reduce")
      end
  end.

(** Step 'check-insights-trigger': the events it sends. *)
Definition check_insights_trigger (data : event_data) : list sent_event :=
  if (confidenceScore data <? 0.7)%float then
    [ {| name := "nutrition/low-confidence";
         payload := {| logId := logId data;
                       userId := userId data;
                       confidenceScore := confidenceScore data |} |} ]
  else [].

(** One run of the handler on an event: its result and the events
    sent.  A throwing first step ends the run before the second. *)
Definition updateNutritionData (now : Z) (db : database) (data : event_data)
  : completion outcome * list sent_event :=
  match update_daily_summary now db (userId data) with
  | Throw e => (Throw e, [])
  | Return _ => (Return {| success := true |}, check_insights_trigger data)
  end.

(** The world the step executor runs steps in: the clock and the store.
    A run of the first step reads both and writes neither. *)
Record world : Type := {
  clock : Z;
  store : database
}.

Definition run_update_daily_summary (userId : string) (w : world)
  : completion daily_totals * world :=
  (update_daily_summary (clock w) (store w) userId, w).

(** Time passing between two deliveries of the event. *)
Definition tick (later : Z) (w : world) : world :=
  {| clock := later; store := store w |}.

(** The step run at [clock w], then again when the clock reads
    [later]. *)
Definition run_twice (userId : string) (later : Z) (w : world)
  : completion daily_totals * completion daily_totals * world :=
  let '(first, w1) := run_update_daily_summary userId w in
  let '(second, w2) := run_update_daily_summary userId (tick later w1) in
  (first, second, w2).
End Handler.

(** The spec's reading of the totals: each column summed on its own over
    the rows, a present value counting as itself and a null or missing one
    as 0. *)
Definition present_or_zero (x : option number) : number :=
  match x with
  | Some n => n
  | None => 0%float
  end.

Definition sum_column (column : nutrition_log -> option number)
           (logs : list nutrition_log) : number :=
  fold_left (fun acc log => (acc + present_or_zero (column log))%float)
            logs 0%float.

Definition field_sums (logs : list nutrition_log) : daily_totals :=
  {| calories := sum_column total_calories logs;
     protein := sum_column total_protein_g logs;
     carbs := sum_column total_carbs_g logs;
     fat := sum_column total_fat_g logs;
     fiber := sum_column total_fiber_g logs |}.

(** A value that came as JSON: null, or a number, which is never [NaN]. *)
Definition json_number (x : option number) : bool :=
  match x with
  | Some n => negb (PrimFloat.is_nan n)
  | None => true
  end.

Definition fetched_as_json (log : nutrition_log) : bool :=
  json_number (total_calories log)
  && json_number (total_protein_g log)
  && json_number (total_carbs_g log)
  && json_number (total_fat_g log)
  && json_number (total_fiber_g log).

End NutritionJob.

(** ** The AI integration rules: two-stage analysis and the confidence gate *)

Module AiRules.
Import Js.
Local Open Scope string_scope.
Local Open Scope js_scope.

Record FoodItem : Type := {
  name : string;
  estimatedQuantity : string;
  item_confidence : number
}.

(** The object of the first [generateObject] call, as its schema fixes it. *)
Module Initial.
Record t : Type := {
  foodItems : list FoodItem;
  totalCaloriesEstimate : number;
  confidence : number
}.
End Initial.

(** The object of the validation call. *)
Record Validation : Type := {
  isReasonable : bool;
  adjustedCalories : number;
  reasoning : string
}.

(** [{ ...initialAnalysis.object, finalCalories, validationNotes }]. *)
Record NutritionEstimate : Type := {
  foodItems : list FoodItem;
  totalCaloriesEstimate : number;
  confidence : number;
  finalCalories : number;
  validationNotes : string
}.

Section Pipeline.
(** The two model calls: each resolves to a schema-conforming object or
    rejects.  The second is prompted with the first one's object. *)
Variable generateInitial : string -> completion Initial.t.
Variable generateValidation : Initial.t -> completion Validation.

Definition analyzeFoodImage (imageBase64 : string)
  : completion NutritionEstimate :=
  initialAnalysis <- generateInitial imageBase64 ;;
  validation <- generateValidation initialAnalysis ;;
  Return {| foodItems := Initial.foodItems initialAnalysis;
            totalCaloriesEstimate := Initial.totalCaloriesEstimate initialAnalysis;
            confidence := Initial.confidence initialAnalysis;
            finalCalories := adjustedCalories validation;
            validationNotes := reasoning validation |}.
End Pipeline.

(** [{ ...result, requiresUserConfirmation, message }]. *)
Record Reviewed : Type := {
  result : NutritionEstimate;
  requiresUserConfirmation : bool;
  message : string
}.

Definition processNutritionAnalysis (result : NutritionEstimate) : Reviewed :=
  if (confidence result <? 0.7)%float then
    {| result := result;
       requiresUserConfirmation := true;
       message := "I'm not entirely sure about this estimate."
                  ++ " Please review and adjust if needed." |}
  else
    {| result := result;
       requiresUserConfirmation := false;
       message := "Nutrition estimate looks good!" |}.

End AiRules.

(** ** Sample inputs used by the examples below *)

Module Samples.
Import Js EcmaDate.
Local Open Scope string_scope.

Definition client : OpenAIVision.OpenAI :=
  {| OpenAIVision.apiKey := "sk-test";
     OpenAIVision.maxRetries := 3;
     OpenAIVision.timeout := 60000 |}.

(** The first bytes of a JPEG file, in base64. *)
Definition image : string := "/9j/4AAQSkZJRgABAQ==".

(** A provider that answers every request with the text [content]. *)
Definition replying (content : option string)
  : OpenAIVision.OpenAI -> string -> completion OpenAIVision.ChatCompletion :=
  fun _ _ =>
    Return {| OpenAIVision.choices :=
                [ {| OpenAIVision.message :=
                       Some {| OpenAIVision.content := content |} |} ] |}.

(** A well-formed reply whose [totalCalories] (500) is not the sum of
    its items' [calories] (95). *)
Definition mismatched_reply : string :=
  Json.requote
    ("{'foodItems':[{'name':'apple','quantity':'1 medium','calories':95,"
     ++ "'protein_g':0.5,'carbs_g':25,'fat_g':0.3,'fiber_g':4.4}],"
     ++ "'totalCalories':500,'totalProtein':0.5,'totalCarbs':25,"
     ++ "'totalFat':0.3,'totalFiber':4.4,'confidenceScore':0.85,"
     ++ "'analysisNotes':'one apple'}").

Definition mismatched_analysis : Json.value :=
  Json.Object
    [("foodItems",
      Json.Array
        [Json.Object
           [("name", Json.Str "apple"); ("quantity", Json.Str "1 medium");
            ("calories", Json.Number 95%float);
            ("protein_g", Json.Number 0.5%float);
            ("carbs_g", Json.Number 25%float);
            ("fat_g", Json.Number 0.3%float);
            ("fiber_g", Json.Number 4.4%float)]]);
     ("totalCalories", Json.Number 500%float);
     ("totalProtein", Json.Number 0.5%float);
     ("totalCarbs", Json.Number 25%float);
     ("totalFat", Json.Number 0.3%float);
     ("totalFiber", Json.Number 4.4%float);
     ("confidenceScore", Json.Number 0.85%float);
     ("analysisNotes", Json.Str "one apple")].

(** A JSON reply with one required field out of eight. *)
Definition incomplete_reply : string := Json.requote "{'foodItems':[]}".

(** 10 March 2024, UTC, at the given time of day. *)
Definition march_10 (hour min sec ms : Z) : Z :=
  MakeDate (MakeDay 2024 2 10) (MakeTime hour min sec ms).

Definition meal (created_at : Z) : NutritionJob.nutrition_log :=
  {| NutritionJob.id := "log-1";
     NutritionJob.user_id := "user-1";
     NutritionJob.created_at := created_at;
     NutritionJob.total_calories := Some 500%float;
     NutritionJob.total_protein_g := Some 30%float;
     NutritionJob.total_carbs_g := Some 60%float;
     NutritionJob.total_fat_g := Some 15%float;
     NutritionJob.total_fiber_g := None |}.

Definition estimate (confidence : number) : AiRules.NutritionEstimate :=
  {| AiRules.foodItems :=
       [ {| AiRules.name := "apple"; AiRules.estimatedQuantity := "1 medium";
            AiRules.item_confidence := 0.9%float |} ];
     AiRules.totalCaloriesEstimate := 95%float;
     AiRules.confidence := confidence;
     AiRules.finalCalories := 95%float;
     AiRules.validationNotes := "plausible" |}.

Definition noon : Z := march_10 12 0 0 0.
Definition nine_pm : Z := march_10 21 0 0 0.
(** 01:00 on 11 March. *)
Definition after_midnight : Z := (march_10 23 0 0 0 + 2 * msPerHour)%Z.
Definition lunch : NutritionJob.nutrition_log := meal (march_10 12 30 0 0).
Definition late_snack : NutritionJob.nutrition_log :=
  meal (march_10 23 59 59 999).

Definition morning : NutritionJob.world :=
  {| NutritionJob.clock := march_10 9 0 0 0;
     NutritionJob.store := NutritionJob.Rows [lunch] |}.
Definition evening : NutritionJob.world :=
  {| NutritionJob.clock := march_10 23 0 0 0;
     NutritionJob.store := NutritionJob.Rows [lunch] |}.

(** A completion without choices, and one whose text is not JSON. *)
Definition no_choice : OpenAIVision.ChatCompletion :=
  {| OpenAIVision.choices := [] |}.
Definition apology : string := "Sorry, I cannot analyze this image.".
Definition apologetic : OpenAIVision.ChatCompletion :=
  {| OpenAIVision.choices :=
       [ {| OpenAIVision.message :=
              Some {| OpenAIVision.content := Some apology |} |} ] |}.

End Samples.

(** ** Further readings of the estimator's replies *)

Module ReplyShape.
Local Open Scope string_scope.

(** The characters a JSON value can begin with. *)
Definition starts_json_value (c : ascii) : bool :=
  (c =? "{")%char || (c =? "[")%char || (c =? Json.dquote)%char
  || (c =? "t")%char || (c =? "f")%char || (c =? "n")%char
  || (c =? "-")%char
  || match Json.digit c with Some _ => true | None => false end.

(** A reply in a Markdown fence, as chat models are fond of. *)
Definition fenced_reply : string :=
  "```json" ++ Json.requote "{'foodItems':[]}" ++ "```".

End ReplyShape.

(** ** Further sample rows *)

Module MoreSamples.
Import EcmaDate.
Local Open Scope string_scope.

(** Breakfast of another user, the same day. *)
Definition strangers_breakfast : NutritionJob.nutrition_log :=
  {| NutritionJob.id := "log-7";
     NutritionJob.user_id := "user-2";
     NutritionJob.created_at := Samples.march_10 8 0 0 0;
     NutritionJob.total_calories := Some 320%float;
     NutritionJob.total_protein_g := Some 12%float;
     NutritionJob.total_carbs_g := Some 40%float;
     NutritionJob.total_fat_g := Some 9%float;
     NutritionJob.total_fiber_g := Some 3%float |}.

(** A meal logged on the stroke of midnight that opens 10 March. *)
Definition midnight_snack : NutritionJob.nutrition_log :=
  Samples.meal (Samples.march_10 0 0 0 0).

(** Noon of the day after. *)
Definition next_noon : Z := (Samples.noon + msPerDay)%Z.

(** Dinner of user-1 at 19:00, carbs not recorded. *)
Definition dinner : NutritionJob.nutrition_log :=
  {| NutritionJob.id := "log-3";
     NutritionJob.user_id := "user-1";
     NutritionJob.created_at := Samples.march_10 19 0 0 0;
     NutritionJob.total_calories := Some 250.5%float;
     NutritionJob.total_protein_g := Some 12%float;
     NutritionJob.total_carbs_g := None;
     NutritionJob.total_fat_g := Some 8%float;
     NutritionJob.total_fiber_g := Some 4%float |}.

(** A nibble of user-1 at [hour], of [kcal] calories and nothing else. *)
Definition nibble (hour : Z) (kcal : Js.number) : NutritionJob.nutrition_log :=
  {| NutritionJob.id := "log-n";
     NutritionJob.user_id := "user-1";
     NutritionJob.created_at := Samples.march_10 hour 0 0 0;
     NutritionJob.total_calories := Some kcal;
     NutritionJob.total_protein_g := None;
     NutritionJob.total_carbs_g := None;
     NutritionJob.total_fat_g := None;
     NutritionJob.total_fiber_g := None |}.

Definition tenth : NutritionJob.nutrition_log := nibble 9 0.1%float.
Definition fifth : NutritionJob.nutrition_log := nibble 10 0.2%float.
Definition three_tenths : NutritionJob.nutrition_log := nibble 11 0.3%float.

End MoreSamples.

(** ** [Date.prototype.toISOString] and the date logged with the summary *)

Module IsoDate.
Import EcmaDate.
Local Open Scope Z_scope.

Definition HourFromTime (t : Z) : Z := (t / msPerHour) mod 24.
Definition MinFromTime (t : Z) : Z := (t / msPerMinute) mod 60.
Definition SecFromTime (t : Z) : Z := (t / msPerSecond) mod 60.
Definition msFromTime (t : Z) : Z := t mod msPerSecond.

Definition digit_char (n : Z) : ascii := ascii_of_N (Z.to_N (48 + n)).

(** The last [width] decimal digits of [n], zero-padded, before [tail]. *)
Fixpoint pad (width : nat) (n : Z) (tail : string) : string :=
  match width with
  | O => tail
  | S w => pad w (n / 10) (String (digit_char (n mod 10)) tail)
  end.

(** Four digits for the years 0 to 9999, else a sign and six digits. *)
Definition year_text (y : Z) (tail : string) : string :=
  if (0 <=? y) && (y <=? 9999) then pad 4 y tail
  else String (if y <? 0 then "-"%char else "+"%char) (pad 6 (Z.abs y) tail).

(** [HH:mm:ss.sss] before [tail]. *)
Definition time_text (t : Z) (tail : string) : string :=
  pad 2 (HourFromTime t)
    (String ":" (pad 2 (MinFromTime t)
       (String ":" (pad 2 (SecFromTime t)
          (String "." (pad 3 (msFromTime t) tail)))))).

(** [YYYY-MM-DDTHH:mm:ss.sssZ], from the UTC fields of the time value. *)
Definition toISOString (t : Z) : string :=
  year_text (YearFromTime t)
    (String "-" (pad 2 (MonthFromTime t + 1)
       (String "-" (pad 2 (DateFromTime t)
          (String "T" (time_text t "Z")))))).

(** [s.split('T')[0]]: what precedes the first ['T'] of [s]. *)
Fixpoint before_T (s : string) : string :=
  match s with
  | EmptyString => EmptyString
  | String c r => if (c =? "T")%char then EmptyString else String c (before_T r)
  end.

(** [YYYY-MM-DD] for a year of four digits, month counted from 0. *)
Definition date_text (year month date : Z) : string :=
  pad 4 year (String "-" (pad 2 (month + 1) (String "-" (pad 2 date "")))).

Section Logged.
Variable LocalTZA : Z.

(** The [date] field of the line the step logs:
    [startOfDay.toISOString().split('T')[0]]. *)
Definition summary_date (now : Z) : string :=
  before_T (toISOString (NutritionJob.startOfDay LocalTZA now)).
End Logged.

End IsoDate.

(** ** Effects: a function that leaves a trace and returns or throws *)

Module Eff.
Import Js.

(** A computation appends to the trace of what has happened so far and
    ends in a completion. *)
Definition M (T A : Type) : Type := list T -> completion A * list T.

Definition ret {T A : Type} (a : A) : M T A := fun tr => (Return a, tr).

Definition throw {T A : Type} (e : thrown) : M T A := fun tr => (Throw e, tr).

Definition bind {T A B : Type} (m : M T A) (k : A -> M T B) : M T B :=
  fun tr =>
    match m tr with
    | (Return a, tr') => k a tr'
    | (Throw e, tr') => (Throw e, tr')
    end.

(** Record that [t] happened. *)
Definition emit {T : Type} (t : T) : M T unit :=
  fun tr => (Return tt, tr ++ [t]).

(** Await a collaborator whose outcome is [c]. *)
Definition await {T A : Type} (c : completion A) : M T A := fun tr => (c, tr).

(** [try { body } catch (e) { handler e }]. *)
Definition try_catch {T A : Type} (body : M T A) (handler : thrown -> M T A)
  : M T A :=
  fun tr =>
    match body tr with
    | (Return a, tr') => (Return a, tr')
    | (Throw e, tr') => handler e tr'
    end.

(** Run from an empty trace. *)
Definition run {T A : Type} (m : M T A) : completion A * list T := m [].

End Eff.

Declare Scope eff_scope.
Delimit Scope eff_scope with eff.
Notation "x <- c ;; k" := (Eff.bind c (fun x => k))
  (at level 61, c at next level, right associativity) : eff_scope.
Notation "c ;; k" := (Eff.bind c (fun _ => k))
  (at level 61, right associativity) : eff_scope.

(** ** The AI rules: retry with a template fallback *)

Module Recommendations.
Import Js.
Local Open Scope string_scope.
Local Open Scope Z_scope.

Record UserHealthData : Type := { primaryGoal : string }.

(** The value of [message]: a string of the table or, for a goal that
    names a member of [Object.prototype], that member. *)
Inductive message_value : Type :=
| Text (s : string)
| Inherited (name : string).

(** What [generateFallbackRecommendation] returns. *)
Record Fallback : Type := {
  type : string;
  message : message_value;
  confidence : number;
  source : string
}.

(** The names that every object literal inherits from [Object.prototype];
    the value of each is a function or an object, hence truthy. *)
Definition object_prototype_names : list string :=
  [ "constructor"; "hasOwnProperty"; "isPrototypeOf";
    "propertyIsEnumerable"; "toLocaleString"; "toString"; "valueOf";
    "__proto__"; "__defineGetter__"; "__defineSetter__";
    "__lookupGetter__"; "__lookupSetter__" ].

Definition inherited (key : string) : bool :=
  existsb (String.eqb key) object_prototype_names.

Definition general : string :=
  "Maintain consistency with your current routine"
  ++ " and focus on one small improvement.".

(** The own property [key] of an object literal with string values: the
    last entry of that name. *)
Fixpoint template (key : string) (entries : list (string * string))
  : option string :=
  match entries with
  | [] => None
  | (k, v) :: rest =>
      match template key rest with
      | Some v' => Some v'
      | None => if (k =? key)%string then Some v else None
      end
  end.

Section Fallback.
(** The entries of the literal [templates] that precede [general]; they
    are not in the part of the rules that is at hand. *)
Variable goal_templates : list (string * string).

Definition templates : list (string * string) :=
  goal_templates ++ [("general", general)].

(** [templates.general]. *)
Definition templates_general : string :=
  match template "general" templates with
  | Some g => g
  | None => EmptyString
  end.

(** [templates[userData.primaryGoal] || templates.general]: the own entry
    of that name when there is one, else the member inherited from
    [Object.prototype] when the name is one of its members, else
    [undefined]; a falsy value gives way to [templates.general]. *)
Definition generateFallbackRecommendation (userData : UserHealthData)
  : Fallback :=
  {| type := "fallback";
     message :=
       match template (primaryGoal userData) templates with
       | Some text =>
           if string_truthy text then Text text else Text templates_general
       | None =>
           if inherited (primaryGoal userData)
           then Inherited (primaryGoal userData)
           else Text templates_general
       end;
     confidence := 0.5%float;
     source := "template" |}.
End Fallback.

(** What the retrying function resolves to: a generated recommendation,
    the template one, or [undefined] when the loop ends without a [return]. *)
Inductive recommendation (R : Type) : Type :=
| Generated (r : R)
| Template (f : Fallback)
| Undefined.
Arguments Generated {R} r.
Arguments Template {R} f.
Arguments Undefined {R}.

(** What a run does besides returning. *)
Inductive event : Type :=
| Called (attempt : Z)
| ConsoleError (attempt : Z) (error : thrown)
| Slept (ms : Z).

Section Retry.
Variable R : Type.
Variable goal_templates : list (string * string).
(** The outcome of the [attempt]-th call of
    [generateFitnessRecommendation(userData)]. *)
Variable generateFitnessRecommendation : UserHealthData -> Z -> completion R.

Section Loop.
Variable userData : UserHealthData.
Variable maxRetries : Z.

(** The [for] loop from [attempt] on; [remaining] bounds its turns. *)
Fixpoint attempts (remaining : nat) (attempt : Z)
  : Eff.M event (recommendation R) :=
  match remaining with
  | O => Eff.ret Undefined
  | S remaining' =>
      if attempt <=? maxRetries then
        Eff.try_catch
          (_ <- Eff.emit (Called attempt) ;;
           r <- Eff.await (generateFitnessRecommendation userData attempt) ;;
           Eff.ret (Generated r))%eff
          (fun error =>
             _ <- Eff.emit (ConsoleError attempt error) ;;
             if attempt =? maxRetries then
               Eff.ret (Template (generateFallbackRecommendation
                                    goal_templates userData))
             else
               _ <- Eff.emit (Slept (1000 * attempt)) ;;
               attempts remaining' (attempt + 1))%eff
      else Eff.ret Undefined
  end.
End Loop.

(** [maxRetries] is taken to be an integer; the loop then runs at most
    [maxRetries] times. *)
Definition generateRecommendationWithRetry (userData : UserHealthData)
           (maxRetries : Z) : Eff.M event (recommendation R) :=
  attempts userData maxRetries (Z.to_nat maxRetries) 1.
End Retry.

(** The trace of [k] failed attempts from [attempt] on, each followed by
    its pause, given the errors. *)
Fixpoint failed_attempts (attempt : Z) (errors : list thrown) : list event :=
  match errors with
  | [] => []
  | e :: rest =>
      [Called attempt; ConsoleError attempt e; Slept (1000 * attempt)]
      ++ failed_attempts (attempt + 1) rest
  end.

(** The milliseconds slept in a trace, and the calls made. *)
Fixpoint slept (tr : list event) : Z :=
  match tr with
  | [] => 0
  | Slept ms :: rest => ms + slept rest
  | _ :: rest => slept rest
  end.

Fixpoint calls (tr : list event) : Z :=
  match tr with
  | [] => 0
  | Called _ :: rest => 1 + calls rest
  | _ :: rest => calls rest
  end.

End Recommendations.

(** ** The AI rules: logging of AI operations *)

Module AiLog.
Import Js.
Local Open Scope string_scope.
Local Open Scope Z_scope.

(** The row given to [insert]. *)
Record row : Type := {
  operation : string;
  input_size : Z;
  output_size : Z;
  success : bool;
  duration_ms : number;
  created_at : string
}.

(** What a run does besides returning. *)
Inductive event : Type :=
| Inserted (r : row)
| ConsoleError (label : string) (error : thrown).

(** What [JSON.stringify(x)] does with a value: it throws (a cycle, a
    BigInt), or gives [undefined] ([None]: for [undefined], a function, a
    symbol), or a text, held here as its UTF-8 bytes. *)
Definition stringified : Type := completion (option string).

(** What a byte of a UTF-8 text adds to the length of the same text as a
    JavaScript string, which counts UTF-16 code units: a byte that opens a
    character adds 1, or 2 when it opens a four-byte character (a code
    point above U+FFFF, a surrogate pair in UTF-16); a continuation byte
    ([10xxxxxx]) adds nothing. *)
Definition utf16_units (byte : ascii) : nat :=
  let n := nat_of_ascii byte in
  if (n <? 128)%nat then 1%nat
  else if (n <? 192)%nat then 0%nat
  else if (n <? 240)%nat then 1%nat
  else 2%nat.

(** [s.length] for a text held as its UTF-8 bytes. *)
Fixpoint utf16_length (s : string) : nat :=
  match s with
  | EmptyString => 0%nat
  | String byte rest => (utf16_units byte + utf16_length rest)%nat
  end.

(** [JSON.stringify(x).length]; the text [JSON.stringify] makes is
    well-formed Unicode (a lone surrogate comes out escaped). *)
Definition stringified_length (json : stringified) : completion Z :=
  match json with
  | Return (Some s) => Return (Z.of_nat (utf16_length s))
  | Return None => Throw (TypeError "length")
  | Throw e => Throw e
  end.

Section Log.
(** [supabase.from('ai_operation_logs').insert(row)] resolves with the
    [error] of the store ([None] for [null]) or rejects. *)
Variable insert : row -> completion (option thrown).
(** [new Date().toISOString()]. *)
Variable now_iso : string.

Definition logAIOperation (operation : string) (input output : stringified)
           (success : bool) (duration : number) : Eff.M event unit :=
  Eff.try_catch
    (input_size <- Eff.await (stringified_length input) ;;
     output_size <- Eff.await (stringified_length output) ;;
     let r := {| operation := operation;
                 input_size := input_size;
                 output_size := output_size;
                 success := success;
                 duration_ms := duration;
                 created_at := now_iso |} in
     _ <- Eff.emit (Inserted r) ;;
     error <- Eff.await (insert r) ;;
     match error with
     | Some e => Eff.emit (ConsoleError "Failed to log AI operation:" e)
     | None => Eff.ret tt
     end)%eff
    (fun error => Eff.emit (ConsoleError "Error logging AI operation:" error)).
End Log.

(** The inserts issued and the console errors written in a trace. *)
Fixpoint inserts (tr : list event) : list row :=
  match tr with
  | [] => []
  | Inserted r :: rest => r :: inserts rest
  | _ :: rest => inserts rest
  end.

Fixpoint console_errors (tr : list event) : list thrown :=
  match tr with
  | [] => []
  | ConsoleError _ e :: rest => e :: console_errors rest
  | _ :: rest => console_errors rest
  end.

End AiLog.

(** ** The AI rules: the weight-log API route *)

Module WeightRoute.
Import Js.
Local Open Scope string_scope.
Local Open Scope Z_scope.

Record User : Type := { id : string }.

(** An object as the sequence of its property definitions, a later one
    overwriting an earlier one of the same name (see [Json.lookup]). *)
Definition members : Type := list (string * Json.value).

(** [{ ...validatedData, user_id: id }]. *)
Definition with_user_id (validatedData : members) (id : string) : members :=
  (validatedData ++ [("user_id", Json.Str id)])%list.

(** The [{ data, error }] an insert resolves with. *)
Record insert_result : Type := {
  data : option Json.value;
  error : option thrown
}.

Inductive response_body : Type :=
| ErrorBody (error : string)
| DataBody (data : option Json.value).

(** [NextResponse.json(body, { status })]; the status is 200 when none is
    given. *)
Record response : Type := { status : Z; body : response_body }.

(** What a run does besides returning. *)
Inductive event : Type :=
| BodyRead
| Inserted (row : members).

Section Route.
Variable createClient : completion unit.
(** [supabase.auth.getUser()] resolves with [data.user], [None] for
    [null], or rejects. *)
Variable getUser : completion (option User).
Variable request_json : completion Json.value.
Variable WeightLogSchema_parse : Json.value -> completion members.
Variable insert : members -> completion insert_result.

Definition POST : Eff.M event response :=
  Eff.try_catch
    (_ <- Eff.await createClient ;;
     user <- Eff.await getUser ;;
     match user with
     | None => Eff.ret {| status := 401; body := ErrorBody "Unauthorized" |}
     | Some user =>
         _ <- Eff.emit BodyRead ;;
         body <- Eff.await request_json ;;
         validatedData <- Eff.await (WeightLogSchema_parse body) ;;
         let row := with_user_id validatedData (id user) in
         _ <- Eff.emit (Inserted row) ;;
         r <- Eff.await (insert row) ;;
         match error r with
         | Some e => Eff.throw e
         | None => Eff.ret {| status := 200; body := DataBody (data r) |}
         end
     end)%eff
    (fun _ => Eff.ret {| status := 500;
                         body := ErrorBody "Internal server error" |}).
End Route.

Fixpoint inserted (tr : list event) : list members :=
  match tr with
  | [] => []
  | Inserted row :: rest => row :: inserted rest
  | _ :: rest => inserted rest
  end.

End WeightRoute.

(** ** The AI rules: the weekly analysis job *)

Module WeeklyJob.
Import Js.
Local Open Scope string_scope.

Record User : Type := { id : string }.

Section Job.
Variables WeeklyData Analysis : Type.

(** What a run does besides returning: the calls that change something
    outside, in the order they are issued. *)
Inductive event : Type :=
| SaveReport (userId : string) (analysis : Analysis)
| SendEmail (userId : string) (analysis : Analysis).

Variable getActiveUsers : completion (list User).
Variable getWeeklyUserData : string -> completion WeeklyData.
Variable generateWeeklyAnalysis : WeeklyData -> completion Analysis.
Variable saveWeeklyReport : string -> Analysis -> completion unit.
Variable sendWeeklyProgressEmail : string -> Analysis -> completion unit.

(** The callback of the step [analyze-user-<id>]. *)
Definition analyze_user (user : User) : Eff.M event unit :=
  (weeklyData <- Eff.await (getWeeklyUserData (id user)) ;;
   analysis <- Eff.await (generateWeeklyAnalysis weeklyData) ;;
   _ <- Eff.emit (SaveReport (id user) analysis) ;;
   _ <- Eff.await (saveWeeklyReport (id user) analysis) ;;
   _ <- Eff.emit (SendEmail (id user) analysis) ;;
   Eff.await (sendWeeklyProgressEmail (id user) analysis))%eff.

(** [for (const user of users) { await step.run(..., callback) }], a step
    running its callback once and yielding its completion. *)
Fixpoint for_users (users : list User) : Eff.M event unit :=
  match users with
  | [] => Eff.ret tt
  | user :: rest => (_ <- analyze_user user ;; for_users rest)%eff
  end.

(** The handler of [analyzeWeeklyProgress]. *)
Definition analyzeWeeklyProgress : Eff.M event unit :=
  (users <- Eff.await getActiveUsers ;; for_users users)%eff.

(** A user's step goes through: every call of it resolves. *)
Definition user_succeeds (user : User) : Prop :=
  exists weeklyData analysis,
    getWeeklyUserData (id user) = Return weeklyData /\
    generateWeeklyAnalysis weeklyData = Return analysis /\
    saveWeeklyReport (id user) analysis = Return tt /\
    sendWeeklyProgressEmail (id user) analysis = Return tt.

(** The handler over any step executor: [step_run A id callback] is what
    [await step.run(id, callback)] does with a callback that yields an
    [A], be it running the callback once or running it again after a
    failure. *)
Section Executor.
Variable step_run : forall A : Type, string -> Eff.M event A -> Eff.M event A.

(** [await step.run(`analyze-user-${user.id}`, callback)]. *)
Definition user_step (user : User) : Eff.M event unit :=
  step_run unit ("analyze-user-" ++ id user) (analyze_user user).

Fixpoint for_user_steps (users : list User) : Eff.M event unit :=
  match users with
  | [] => Eff.ret tt
  | user :: rest => (_ <- user_step user ;; for_user_steps rest)%eff
  end.

Definition analyzeWeeklyProgress_under : Eff.M event unit :=
  (users <- step_run (list User) "get-active-users"
                     (Eff.await getActiveUsers) ;;
   for_user_steps users)%eff.
End Executor.
End Job.
Arguments SaveReport {Analysis} userId analysis.
Arguments SendEmail {Analysis} userId analysis.

(** The users whose email was issued in a trace, in order. *)
Fixpoint emailed {Analysis : Type} (tr : list (event Analysis))
  : list string :=
  match tr with
  | [] => []
  | SendEmail userId _ :: rest => userId :: emailed rest
  | SaveReport _ _ :: rest => emailed rest
  end.

(** Two executors: one that runs a callback once, and one that runs a
    failed callback again, up to [retries] more times. *)
Definition once {T : Type} (A : Type) (_ : string) (callback : Eff.M T A)
  : Eff.M T A :=
  callback.

Fixpoint again {T A : Type} (retries : nat) (callback : Eff.M T A)
  : Eff.M T A :=
  match retries with
  | O => callback
  | S retries' => Eff.try_catch callback (fun _ => again retries' callback)
  end.

Definition retrying {T : Type} (retries : nat) (A : Type) (_ : string)
           (callback : Eff.M T A) : Eff.M T A :=
  again retries callback.

End WeeklyJob.

(** ** The session middleware *)

Module Session.
Import Js.
Local Open Scope string_scope.

(** An element of [cookiesToSet]. *)
Record cookie : Type := { name : string; value : string; options : string }.

(** A cookie store keyed by name; [set] overwrites the entry of that name
    where it stands, or adds one at the end. *)
Fixpoint set {V : Type} (key : string) (v : V) (jar : list (string * V))
  : list (string * V) :=
  match jar with
  | [] => [(key, v)]
  | (k, v') :: rest =>
      if (k =? key)%string then (key, v) :: rest
      else (k, v') :: set key v rest
  end.

Fixpoint get {V : Type} (key : string) (jar : list (string * V)) : option V :=
  match jar with
  | [] => None
  | (k, v) :: rest => if (k =? key)%string then Some v else get key rest
  end.

(** [request.cookies]: name to value. *)
Definition RequestCookies : Type := list (string * string).
(** [response.cookies]: name to value and options. *)
Definition ResponseCookies : Type := list (string * (string * string)).

(** A response made by [NextResponse.next({ request })]: it passes on the
    request's headers as they are when it is made, and has its own cookies. *)
Record NextResponse : Type := {
  forwarded : RequestCookies;
  cookies : ResponseCookies
}.

Definition next (request : RequestCookies) : NextResponse :=
  {| forwarded := request; cookies := [] |}.

Definition response_set (r : NextResponse) (c : cookie) : NextResponse :=
  {| forwarded := forwarded r;
     cookies := set (name c) (value c, options c) (cookies r) |}.

(** The two variables the closures share. *)
Record state : Type := {
  request : RequestCookies;
  supabaseResponse : NextResponse
}.

(** The [setAll] given to the Supabase client. *)
Definition setAll (s : state) (cookiesToSet : list cookie) : state :=
  let request' :=
    fold_left (fun jar c => set (name c) (value c) jar) cookiesToSet
              (request s) in
  {| request := request';
     supabaseResponse := fold_left response_set cookiesToSet (next request') |}.

(** [updateSession]: while [supabase.auth.getUser()] is awaited the client
    calls [setAll] with the batches [batches], in this order, and then
    resolves or rejects ([refreshed]).  The result is paired with the
    request's cookies at the end. *)
Definition updateSession (request0 : RequestCookies)
           (batches : list (list cookie)) (refreshed : completion unit)
  : completion NextResponse * RequestCookies :=
  let s0 := {| request := request0; supabaseResponse := next request0 |} in
  let s := fold_left setAll batches s0 in
  (bind refreshed (fun _ => Return (supabaseResponse s)), request s).

(** The cookies a response gets from one batch. *)
Definition of_batch (cookiesToSet : list cookie) : ResponseCookies :=
  fold_left (fun jar c => set (name c) (value c, options c) jar)
            cookiesToSet [].

End Session.

(** ** More sample inputs *)

Module RuleSamples.
Import Js.
Local Open Scope string_scope.
Local Open Scope Z_scope.

Definition user : Recommendations.UserHealthData :=
  {| Recommendations.primaryGoal := "weight_loss" |}.

Definition table : list (string * string) :=
  [("weight_loss", "Swap one sugary drink for water today.")].

Definition timed_out : thrown := Foreign "Request timed out".

(** A generator that fails twice and then answers. *)
Definition flaky (_ : Recommendations.UserHealthData) (attempt : Z)
  : completion string :=
  if attempt <? 3 then Throw timed_out
  else Return "Add a 20 minute walk after lunch.".

(** A generator that is down. *)
Definition down (_ : Recommendations.UserHealthData) (_ : Z)
  : completion string :=
  Throw timed_out.

(** A first-stage analysis the model is sure of, and a validation that
    finds it unreasonable. *)
Definition sure : AiRules.Initial.t :=
  {| AiRules.Initial.foodItems :=
       [ {| AiRules.name := "pizza";
            AiRules.estimatedQuantity := "4 slices";
            AiRules.item_confidence := 0.9%float |} ];
     AiRules.Initial.totalCaloriesEstimate := 150%float;
     AiRules.Initial.confidence := 0.9%float |}.

Definition objection : AiRules.Validation :=
  {| AiRules.isReasonable := false;
     AiRules.adjustedCalories := 1100%float;
     AiRules.reasoning := "Four slices of pizza are far above 150 kcal." |}.

(** A validation that lets the first-stage figure stand. *)
Definition approval : AiRules.Validation :=
  {| AiRules.isReasonable := true;
     AiRules.adjustedCalories := 150%float;
     AiRules.reasoning := "Plausible for a small portion." |}.

(** What a provider rejects with when its quota is used up. *)
Definition quota_exceeded : thrown := Foreign "429 insufficient_quota".

(** Three active users; the analysis of the second one's week fails. *)
Definition active_users : list WeeklyJob.User :=
  [ {| WeeklyJob.id := "alice" |}; {| WeeklyJob.id := "bob" |};
    {| WeeklyJob.id := "carol" |} ].

Definition weekly_data (userId : string) : completion string :=
  Return userId.

Definition weekly_analysis (weeklyData : string) : completion string :=
  if (weeklyData =? "bob")%string then Throw timed_out
  else Return ("Week of " ++ weeklyData).

Definition delivered (_ : string) (_ : string) : completion unit := Return tt.

(** A mail service that turns down mail for bob. *)
Definition bounced_for_bob (userId : string) (_ : string) : completion unit :=
  if (userId =? "bob")%string then Throw (Foreign "550 mailbox unavailable")
  else Return tt.

Definition session_cookie : Session.cookie :=
  {| Session.name := "sb-access-token";
     Session.value := "eyJhbGciOi";
     Session.options := "Path=/; HttpOnly" |}.

Definition refresh_cookie : Session.cookie :=
  {| Session.name := "sb-refresh-token";
     Session.value := "v1.MR5m";
     Session.options := "Path=/; HttpOnly" |}.

Definition browser_cookies : Session.RequestCookies :=
  [("theme", "dark"); ("sb-access-token", "expired")].

Definition weight_entry : WeightRoute.members :=
  [("weight_kg", Json.Number 81.5%float); ("user_id", Json.Str "user-2")].

(** A store that keeps the row and gives it back. *)
Definition stored (row : WeightRoute.members)
  : completion WeightRoute.insert_result :=
  Return {| WeightRoute.data := Some (Json.Object row);
            WeightRoute.error := None |}.

End RuleSamples.

(* ================================================================== *)
(** * Properties *)

Module EcmaDateFacts.
Import EcmaDate.
Local Open Scope Z_scope.

Example epoch_is_1970_01_01 :
  (YearFromTime 0, MonthFromTime 0, DateFromTime 0) = (1970, 0, 1).
Proof. reflexivity. Qed.

Example leap_day_2024 :
  let t := MakeDate (MakeDay 2024 1 29) (MakeTime 12 0 0 0) in
  t = 1709208000000 /\
  (YearFromTime t, MonthFromTime t, DateFromTime t) = (2024, 1, 29).
Proof. vm_compute. split; reflexivity. Qed.

Example new_years_eve_1999 :
  let t := MakeDate (MakeDay 1999 11 31) (MakeTime 23 59 59 999) in
  t = 946684799999 /\
  (YearFromTime t, MonthFromTime t, DateFromTime t) = (1999, 11, 31) /\
  YearFromTime (t + 1) = 2000.
Proof. vm_compute. repeat split; reflexivity. Qed.

Ltac split_ifs :=
  repeat match goal with
         | |- context [if ?b then _ else _] =>
             lazymatch b with
             | context [if _ then _ else _] => fail
             | _ => destruct b eqn:?
             end
         end.

Ltac to_Z_props :=
  rewrite ?negb_true_iff, ?negb_false_iff, ?andb_true_iff, ?andb_false_iff,
    ?Z.eqb_eq, ?Z.eqb_neq, ?Z.ltb_lt, ?Z.ltb_ge, ?Z.leb_le, ?Z.leb_gt in *.

Lemma DaysInYear_cases y : DaysInYear y = 365 \/ DaysInYear y = 366.
Proof. unfold DaysInYear; split_ifs; auto. Qed.

Lemma DayFromYear_succ y : DayFromYear (y + 1) = DayFromYear y + DaysInYear y.
Proof.
  unfold DayFromYear, DaysInYear; split_ifs; to_Z_props;
    Z.div_mod_to_equations; lia.
Qed.

(** [YearFromTime t] is the year whose span of time values holds [t]. *)
Lemma YearFromTime_spec t :
  TimeFromYear (YearFromTime t) <= t < TimeFromYear (YearFromTime t + 1).
Proof.
  unfold YearFromTime, TimeFromYear, DayFromYear, Day, msPerDay.
  split_ifs; to_Z_props; Z.div_mod_to_equations; lia.
Qed.

Lemma DayFromYear_mono y y' : y <= y' -> DayFromYear y <= DayFromYear y'.
Proof.
  unfold DayFromYear; intros; Z.div_mod_to_equations; lia.
Qed.

(** No later year starts at or before [t]. *)
Lemma YearFromTime_largest t y : TimeFromYear y <= t -> y <= YearFromTime t.
Proof.
  intros Hy. destruct (YearFromTime_spec t) as [_ Hlt].
  destruct (Z_le_gt_dec y (YearFromTime t)) as [ Hle | Hgt ]; [ exact Hle | ].
  exfalso.
  assert (H := DayFromYear_mono (YearFromTime t + 1) y ltac:(lia)).
  unfold TimeFromYear, msPerDay in *. lia.
Qed.

(** From 1970 on, the year has four digits for the [Date] constructor. *)
Lemma YearFromTime_after_epoch t : 0 <= t -> 1970 <= YearFromTime t.
Proof.
  intros Ht.
  destruct (YearFromTime_spec t) as [_ Hlt].
  destruct (Z_lt_le_dec (YearFromTime t) 1970) as [Hy | Hy]; [ | exact Hy ].
  exfalso.
  assert (H := DayFromYear_mono (YearFromTime t + 1) 1970 ltac:(lia)).
  change (DayFromYear 1970) with 0 in H.
  unfold TimeFromYear, msPerDay in Hlt. lia.
Qed.

Lemma MakeFullYear_after_epoch t :
  0 <= t -> MakeFullYear (YearFromTime t) = YearFromTime t.
Proof.
  intros Ht. apply YearFromTime_after_epoch in Ht.
  unfold MakeFullYear.
  destruct (YearFromTime t <=? 99) eqn:E; to_Z_props; [ lia | ].
  now rewrite andb_false_r.
Qed.

(** The day within the year is a day of that year. *)
Lemma DayWithinYear_range t :
  0 <= DayWithinYear t < DaysInYear (YearFromTime t).
Proof.
  pose proof (YearFromTime_spec t) as [ Hlo Hhi ].
  rewrite <- (Z.add_simpl_l (DayFromYear (YearFromTime t))
                            (DaysInYear (YearFromTime t))).
  rewrite <- DayFromYear_succ.
  unfold DayWithinYear, TimeFromYear, Day, msPerDay in *.
  Z.div_mod_to_equations. lia.
Qed.

(** The day of the month is between 1 and 31. *)
Lemma DateFromTime_range t : 1 <= DateFromTime t <= 31.
Proof.
  pose proof (DayWithinYear_range t) as Hd.
  unfold DateFromTime, MonthFromTime, InLeapYear in *.
  destruct (DaysInYear_cases (YearFromTime t)) as [ E | E ]; rewrite E in *;
    cbn [Z.eqb Pos.eqb] in *; split_ifs; to_Z_props; cbn [monthStart]; lia.
Qed.

Lemma MonthFromTime_range t : 0 <= MonthFromTime t <= 11.
Proof. unfold MonthFromTime; split_ifs; lia. Qed.

(** Rebuilding the day number from the calendar fields of [t]. *)
Lemma MakeDay_fields t :
  MakeDay (YearFromTime t) (MonthFromTime t) (DateFromTime t) = Day t.
Proof.
  pose proof (MonthFromTime_range t) as Hm.
  unfold MakeDay.
  rewrite (Z.div_small (MonthFromTime t) 12), (Z.mod_small (MonthFromTime t) 12)
    by lia.
  rewrite Z.add_0_r.
  unfold DateFromTime, DayWithinYear, InLeapYear. lia.
Qed.

Lemma Day_TimeWithinDay t : t = Day t * msPerDay + TimeWithinDay t.
Proof.
  unfold Day, TimeWithinDay, msPerDay. Z.div_mod_to_equations. lia.
Qed.

Lemma TimeWithinDay_range t : 0 <= TimeWithinDay t < msPerDay.
Proof. unfold TimeWithinDay, msPerDay. Z.div_mod_to_equations. lia. Qed.

End EcmaDateFacts.

(** ** [JSON.parse] *)

Module JsonFacts.
Import Js Json.
Local Open Scope string_scope.

Example parse_object :
  JSON_parse
    (requote " { 'a' : [1, 2.5, -3e2, true, false, null, 'x\nA'], 'b': {} } ") =
  Return (Object [("a", Array [Number 1%float; Number 2.5%float;
                               Number (-300)%float; Bool true; Bool false;
                               Null;
                               Str (String (ascii_of_nat 120)
                                      (String (ascii_of_nat 10) "A"))]);
                  ("b", Object [])]).
Proof. vm_compute. reflexivity. Qed.

Example parse_rejects :
  map JSON_parse
      [EmptyString; "Sorry, I cannot analyze this image."; "01"; "[1,]";
       requote "{'a':1,}"; "tru"; "1."; ".5"; "1e"; requote "{'a' 1}";
       "[1 2]"; "{} {}"; "'a'"; "{a:1}"; requote "'\x'"; "NaN"] =
  repeat (Throw SyntaxError) 16.
Proof. vm_compute. reflexivity. Qed.

(** Decimal literals are rounded to the nearest binary64 value. *)
Example decimal_rounding :
  map (fun '(neg, m, e) => decimal_to_number neg m e)
      [(false, 7, -1); (false, 65, -2); (false, 95, 0); (false, 1, 23);
       (false, 17976931348623157, 292); (false, 5, -324); (false, 24, -325);
       (false, 9007199254740993, 0); (true, 1, -7); (false, 1, 400)]%Z =
  [0.7; 0.65; 95; 1e23; 1.7976931348623157e308; 5e-324; 2.4e-324;
   9007199254740993; -1e-7; infinity]%float.
Proof. vm_compute. reflexivity. Qed.

Lemma skip_ws_length s : length (skip_ws s) <= length s.
Proof.
  induction s as [ | c s IH ]; cbn; [ lia | ].
  destruct (is_ws c); cbn; lia.
Qed.

(** If the unread input starts with [c], it is shorter than the input. *)
Lemma skip_ws_cons s c r : skip_ws s = String c r -> length r < length s.
Proof.
  intros H. pose proof (skip_ws_length s) as L. rewrite H in L. cbn in L. lia.
Qed.

Lemma parse_chars_shrinks s : forall t r,
  parse_chars s = Parsed t r -> length r < length s.
Proof.
  induction s as [ s IH ] using (well_founded_induction
                                   (Wf_nat.well_founded_ltof _ length)).
  unfold Wf_nat.ltof in IH.
  intros t r H. destruct s as [ | c s ]; [ discriminate | ].
  cbn in H.
  repeat match type of H with
         | Parsed _ _ = Parsed _ _ => injection H as <- <-; cbn; lia
         | Malformed = Parsed _ _ => discriminate
         | OutOfFuel = Parsed _ _ => discriminate
         | context [parse_chars ?x] =>
             let E := fresh "E" in
             destruct (parse_chars x) as [ t' r' | | ] eqn:E;
             [ apply IH in E; [ | cbn; lia ];
               injection H as <- <-; cbn in *; lia
             | discriminate | discriminate ]
         | context [match ?x with _ => _ end] => destruct x
         end.
Qed.

Lemma parse_chars_fuel s : parse_chars s <> OutOfFuel.
Proof.
  induction s as [ s IH ] using (well_founded_induction
                                   (Wf_nat.well_founded_ltof _ length)).
  unfold Wf_nat.ltof in IH.
  destruct s as [ | c s ]; [ discriminate | ].
  cbn.
  repeat match goal with
         | |- Parsed _ _ <> _ => discriminate
         | |- Malformed <> _ => discriminate
         | |- context [parse_chars ?x] =>
             let E := fresh "E" in
             destruct (parse_chars x) as [ t' r' | | ] eqn:E;
             [ discriminate | discriminate
             | exfalso; revert E; apply IH; cbn; lia ]
         | |- context [match ?x with _ => _ end] => destruct x
         end.
Qed.

Lemma digits_length s : forall acc count m n r,
  digits s acc count = (m, n, r) ->
  length r <= length s /\ ((count < n)%Z -> length r < length s) /\ (count <= n)%Z.
Proof.
  induction s as [ | c s IH ]; intros acc count m n r H; cbn in H.
  - injection H as <- <- <-. cbn. lia.
  - destruct (digit c).
    + apply IH in H. cbn. lia.
    + injection H as <- <- <-. cbn. lia.
Qed.

Lemma parse_sign_length s neg r :
  parse_sign s = (neg, r) -> length r <= length s.
Proof.
  unfold parse_sign. intros H.
  destruct s as [ | c s ]; [ injection H as <- <-; cbn; lia | ].
  destruct (Ascii.eqb_spec c "-") as [ -> | Hc ].
  - injection H as <- <-. cbn. lia.
  - assert (E : (neg, r) = (false, String c s)).
    { rewrite <- H. destruct c as [ [ | ] [ | ] [ | ] [ | ] [ | ] [ | ] [ | ] [ | ] ];
        try reflexivity. now elim Hc. }
    injection E as -> ->. cbn. lia.
Qed.

Lemma parse_int_shrinks s m r :
  parse_int s = Some (m, r) -> length r < length s.
Proof.
  unfold parse_int. intros H.
  destruct s as [ | c s ]; [ discriminate | ].
  assert (Hd : forall d, digits s d 1%Z = (m, snd (fst (digits s d 1%Z)), r) ->
                         length r < length (String c s)).
  { intros d E. apply digits_length in E. cbn. lia. }
  destruct c as [ [ | ] [ | ] [ | ] [ | ] [ | ] [ | ] [ | ] [ | ] ];
    try discriminate;
    try (injection H as <- <-; cbn; lia);
    cbn in H;
    match type of H with
    | context [digits s ?d 1%Z] =>
        apply (Hd d); destruct (digits s d 1%Z) as [ [ ? ? ] ? ];
        injection H as <- <-; reflexivity
    end.
Qed.

Lemma parse_fraction_length s m m' n r :
  parse_fraction s m = Some (m', n, r) -> length r <= length s.
Proof.
  unfold parse_fraction. intros H.
  destruct s as [ | c s ]; [ injection H as <- <- <-; cbn; lia | ].
  assert (Hd : forall r0 n0, digits s m 0%Z = (m', n0, r0) ->
                             length r0 <= length (String c s)).
  { intros r0 n0 E. apply digits_length in E. cbn. lia. }
  destruct c as [ [ | ] [ | ] [ | ] [ | ] [ | ] [ | ] [ | ] [ | ] ];
    try (injection H as <- <- <-; cbn; lia).
  destruct (digits s m 0%Z) as [ [ m0 n0 ] r0 ] eqn:E.
  destruct (n0 =? 0)%Z; [ discriminate | ].
  injection H as <- <- <-. eapply Hd. reflexivity.
Qed.

Lemma parse_exponent_length s e r :
  parse_exponent s = Some (e, r) -> length r <= length s.
Proof.
  unfold parse_exponent. intros H.
  destruct s as [ | c s ]; [ injection H as <- <-; cbn; lia | ].
  destruct ((c =? "e")%char || (c =? "E")%char);
    [ | injection H as <- <-; cbn; lia ].
  assert (Hs : forall sg s1, (let '(e0, n, r2) := digits s1 0%Z 0%Z in
                              if (n =? 0)%Z then None
                              else Some ((sg * e0)%Z, r2)) = Some (e, r) ->
                             length r <= length s1).
  { intros sg s1 E. destruct (digits s1 0%Z 0%Z) as [ [ e0 n ] r2 ] eqn:D.
    apply digits_length in D. destruct (n =? 0)%Z; [ discriminate | ].
    injection E as <- <-. lia. }
  destruct s as [ | c' s' ]; [ apply Hs in H; cbn in *; lia | ].
  destruct c' as [ [ | ] [ | ] [ | ] [ | ] [ | ] [ | ] [ | ] [ | ] ];
    apply Hs in H; cbn in *; lia.
Qed.

Lemma parse_number_shrinks s n r :
  parse_number s = Parsed n r -> length r < length s.
Proof.
  unfold parse_number. intros H.
  destruct (parse_sign s) as [ neg s1 ] eqn:E1. apply parse_sign_length in E1.
  destruct (parse_int s1) as [ [ m s2 ] | ] eqn:E2; [ | discriminate ].
  apply parse_int_shrinks in E2.
  destruct (parse_fraction s2 m) as [ [ [ m' nfrac ] s3 ] | ] eqn:E3;
    [ | discriminate ].
  apply parse_fraction_length in E3.
  destruct (parse_exponent s3) as [ [ e s4 ] | ] eqn:E4; [ | discriminate ].
  apply parse_exponent_length in E4.
  injection H as <- <-. lia.
Qed.

Lemma parse_number_fuel s : parse_number s <> OutOfFuel.
Proof.
  unfold parse_number.
  destruct (parse_sign s) as [ neg s1 ].
  destruct (parse_int s1) as [ [ m s2 ] | ]; [ | discriminate ].
  destruct (parse_fraction s2 m) as [ [ [ m' nfrac ] s3 ] | ];
    [ | discriminate ].
  destruct (parse_exponent s3) as [ [ e s4 ] | ]; discriminate.
Qed.

Lemma strip_prefix_length word : forall s r,
  strip_prefix word s = Some r -> length r + length word = length s.
Proof.
  induction word as [ | w word IH ]; intros s r H; cbn in H.
  - injection H as <-. cbn. lia.
  - destruct s as [ | c s ]; [ discriminate | ].
    destruct (c =? w)%char; [ | discriminate ].
    apply IH in H. cbn. lia.
Qed.

Lemma after_length c s r : after c s = Some r -> length s = S (length r).
Proof.
  destruct s as [ | d s ]; cbn; [ discriminate | ].
  destruct (d =? c)%char; [ | discriminate ]. now intros [= <-].
Qed.

Ltac shrink_step :=
  match goal with
  | H : Parsed _ _ = Parsed _ _ |- _ => injection H as <- <-
  | H : Malformed = Parsed _ _ |- _ => discriminate H
  | H : OutOfFuel = Parsed _ _ |- _ => discriminate H
  | H : skip_ws _ = String _ _ |- _ => apply skip_ws_cons in H
  | H : after _ (skip_ws ?x) = Some _ |- _ =>
      apply after_length in H; pose proof (skip_ws_length x)
  | H : parse_chars _ = Parsed _ _ |- _ => apply parse_chars_shrinks in H
  | H : parse_number _ = Parsed _ _ |- _ => apply parse_number_shrinks in H
  | H : strip_prefix _ _ = Some _ |- _ => apply strip_prefix_length in H
  | H : context [literal _ _ _] |- _ => unfold literal in H
  | H : context [if ?b then _ else _] |- _ => destruct b
  | H : context [match ?x with _ => _ end] |- _ =>
      let E := fresh "E" in destruct x eqn:E
  end.

(** Every parsing function consumes input. *)
Lemma parse_shrinks fuel :
  (forall s v r, parse_value fuel s = Parsed v r -> length r < length s) /\
  (forall s acc v r,
      parse_elements fuel s acc = Parsed v r -> length r < length s) /\
  (forall s acc v r,
      parse_members fuel s acc = Parsed v r -> length r < length s).
Proof.
  induction fuel as [ | fuel (IHv & IHe & IHm) ];
    [ repeat split; intros; discriminate | ].
  repeat split.
  - intros s v r H. cbn [parse_value] in H.
    pose proof (skip_ws_length s).
    repeat (first [ match goal with
                    | H : parse_members fuel _ _ = Parsed _ _ |- _ =>
                        apply IHm in H
                    | H : parse_elements fuel _ _ = Parsed _ _ |- _ =>
                        apply IHe in H
                    end
                  | shrink_step ]);
      cbn [length] in *; lia.
  - intros s acc v r H. cbn [parse_elements] in H.
    destruct (parse_value fuel s) as [ v1 r1 | | ] eqn:E1; try discriminate.
    apply IHv in E1.
    repeat (first [ match goal with
                    | H : parse_elements fuel _ _ = Parsed _ _ |- _ =>
                        apply IHe in H
                    end
                  | shrink_step ]);
      cbn [length] in *; lia.
  - intros s acc v r H. cbn [parse_members] in H.
    pose proof (skip_ws_length s).
    repeat (first [ match goal with
                    | H : parse_members fuel _ _ = Parsed _ _ |- _ =>
                        apply IHm in H
                    | H : parse_value fuel _ = Parsed _ _ |- _ =>
                        apply IHv in H
                    end
                  | shrink_step ]);
      cbn [length] in *; lia.
Qed.

Lemma parse_value_shrinks fuel s v r :
  parse_value fuel s = Parsed v r -> length r < length s.
Proof. apply (parse_shrinks fuel). Qed.

Ltac fuel_step :=
  match goal with
  | |- Parsed _ _ <> OutOfFuel => discriminate
  | |- Malformed <> OutOfFuel => discriminate
  | |- literal _ _ _ <> OutOfFuel => unfold literal
  | |- context [match parse_chars ?x with _ => _ end] =>
      let E := fresh "E" in
      pose proof (parse_chars_fuel x);
      destruct (parse_chars x) eqn:E;
      [ apply parse_chars_shrinks in E | | congruence ]
  | |- context [match parse_number ?x with _ => _ end] =>
      pose proof (parse_number_fuel x); destruct (parse_number x);
      [ | | congruence ]
  | |- context [match skip_ws ?x with _ => _ end] =>
      let E := fresh "E" in
      destruct (skip_ws x) eqn:E; [ | apply skip_ws_cons in E ]
  | |- context [if ?b then _ else _] => destruct b
  | |- context [match ?x with _ => _ end] => destruct x
  end.

(** Two units of budget per character are never used up. *)
Lemma parse_fuel_enough fuel :
  (forall s, 2 * length s + 1 <= fuel -> parse_value fuel s <> OutOfFuel) /\
  (forall s acc,
      2 * length s + 2 <= fuel -> parse_elements fuel s acc <> OutOfFuel) /\
  (forall s acc,
      2 * length s + 2 <= fuel -> parse_members fuel s acc <> OutOfFuel).
Proof.
  induction fuel as [ | fuel (IHv & IHe & IHm) ];
    [ repeat split; intros; lia | ].
  repeat split.
  - intros s Hf. cbn [parse_value].
    destruct (skip_ws s) as [ | c r ] eqn:E; [ discriminate | ].
    apply skip_ws_cons in E.
    repeat first [ apply IHm; cbn [length] in *; lia
                 | apply IHe; cbn [length] in *; lia
                 | fuel_step ].
  - intros s acc Hf. cbn [parse_elements].
    pose proof (IHv s ltac:(lia)) as Hv.
    destruct (parse_value fuel s) as [ v r | | ] eqn:E;
      [ apply parse_value_shrinks in E | discriminate | congruence ].
    repeat first [ apply IHe; cbn [length] in *; lia | fuel_step ].
  - intros s acc Hf. cbn [parse_members].
    repeat first
      [ apply IHm; cbn [length] in *; lia
      | match goal with
        | |- context [match parse_value fuel ?x with _ => _ end] =>
            let E := fresh "E" in
            pose proof (IHv x ltac:(cbn [length] in *; lia));
            destruct (parse_value fuel x) eqn:E;
            [ apply parse_value_shrinks in E | | congruence ]
        end
      | fuel_step ].
Qed.

(** [JSON_parse] decides every text within its budget: a syntax error it
    reports is a syntax error of the text. *)
Lemma JSON_parse_total text :
  parse_value (parse_fuel text) text <> OutOfFuel.
Proof. apply (parse_fuel_enough (parse_fuel text)). unfold parse_fuel. lia. Qed.

End JsonFacts.

(** ** Numbers *)

Module JsFacts.
Import Js.

Lemma SFcompare_antisym x y :
  SFcompare y x = option_map CompOpp (SFcompare x y).
Proof.
  destruct x as [ sx | sx | | sx mx ex ], y as [ sy | sy | | sy my ey ]; cbn;
    try reflexivity;
    try (destruct sx; reflexivity); try (destruct sy; reflexivity);
    try (destruct sx, sy; reflexivity).
  destruct sx, sy; cbn; try reflexivity;
    rewrite (Z.compare_antisym ex ey); destruct (ex ?= ey)%Z; cbn;
    try reflexivity;
    change (Pos.compare_cont Eq ?a ?b) with (Pos.compare a b);
    rewrite (Pos.compare_antisym mx my); destruct (mx ?= my)%positive;
    reflexivity.
Qed.

(** [y <= x] rules out [x < y]. *)
Lemma ltb_false_of_leb (x y : number) :
  (y <=? x)%float = true -> (x <? y)%float = false.
Proof.
  rewrite leb_spec, ltb_spec. unfold SFleb, SFltb.
  rewrite (SFcompare_antisym (Prim2SF x) (Prim2SF y)).
  destruct (SFcompare (Prim2SF x) (Prim2SF y)) as [ [ | | ] | ]; cbn;
    congruence.
Qed.

Section NegativeZero.
Local Open Scope Z_scope.

(** The least exponent of binary64. *)
Lemma emin_binary64 : SpecFloat.emin prec emax = -1074.
Proof. reflexivity. Qed.

Lemma fexp_binary64 e : SpecFloat.fexp prec emax e = Z.max (e - 53) (-1074).
Proof. reflexivity. Qed.

Lemma digits2_pos_bounds m :
  2 ^ (Zpos (digits2_pos m) - 1) <= Zpos m < 2 ^ Zpos (digits2_pos m).
Proof.
  induction m as [ m IH | m IH | ]; cbn [digits2_pos].
  - rewrite Pos2Z.inj_succ.
    replace (Z.succ (Zpos (digits2_pos m)) - 1)
      with (Zpos (digits2_pos m) - 1 + 1) by lia.
    rewrite Z.pow_add_r, Z.pow_succ_r by lia. lia.
  - rewrite Pos2Z.inj_succ.
    replace (Z.succ (Zpos (digits2_pos m)) - 1)
      with (Zpos (digits2_pos m) - 1 + 1) by lia.
    rewrite Z.pow_add_r, Z.pow_succ_r by lia. lia.
  - cbn. lia.
Qed.

Lemma shr_1_m mrs : 0 <= shr_m mrs -> shr_m (shr_1 mrs) = shr_m mrs / 2.
Proof.
  destruct mrs as [ m r s ]. cbn [shr_m shr_1].
  destruct m as [ | [ p | p | ] | p ]; cbn [shr_m]; intros H;
    Z.div_mod_to_equations; lia.
Qed.

Lemma iter_shr_1_m p : forall mrs,
  0 <= shr_m mrs ->
  shr_m (iter_pos shr_1 p mrs) = shr_m mrs / 2 ^ Zpos p.
Proof.
  induction p as [ p IH | p IH | ]; intros mrs H; cbn [iter_pos].
  - assert (Hpow : 0 < 2 ^ Zpos p) by (apply Z.pow_pos_nonneg; lia).
    pose proof (shr_1_m mrs H) as E1.
    assert (H1 : 0 <= shr_m (shr_1 mrs)) by (rewrite E1; apply Z.div_pos; lia).
    pose proof (IH _ H1) as E2.
    assert (H2 : 0 <= shr_m (iter_pos shr_1 p (shr_1 mrs)))
      by (rewrite E2; apply Z.div_pos; lia).
    rewrite (IH _ H2), E2, E1, !Z.div_div by lia.
    f_equal.
    assert (E : Zpos p~1 = 1 + Zpos p + Zpos p) by lia.
    rewrite E, !Z.pow_add_r, Z.pow_1_r by lia. lia.
  - assert (Hpow : 0 < 2 ^ Zpos p) by (apply Z.pow_pos_nonneg; lia).
    pose proof (IH _ H) as E1.
    assert (H1 : 0 <= shr_m (iter_pos shr_1 p mrs))
      by (rewrite E1; apply Z.div_pos; lia).
    rewrite (IH _ H1), E1, Z.div_div by lia.
    f_equal.
    assert (E : Zpos p~0 = Zpos p + Zpos p) by lia.
    rewrite E, Z.pow_add_r by lia. lia.
  - apply shr_1_m; assumption.
Qed.

(** Rounding a positive mantissa whose exponent is at least the least
    exponent never yields zero: no underflow. *)
Lemma shr_fexp_positive m e l :
  -1074 <= e ->
  0 < shr_m (fst (shr_fexp prec emax (Zpos m) e l)) /\
  -1074 <= snd (shr_fexp prec emax (Zpos m) e l).
Proof.
  intros He. unfold shr_fexp, shr. rewrite fexp_binary64. cbn [Zdigits2].
  pose proof (digits2_pos_bounds m) as [ Hlo _ ].
  set (d := Zpos (digits2_pos m)) in *.
  destruct (Z.max (d + e - 53) (-1074) - e) as [ | n | n ] eqn:En; cbn [fst snd].
  - destruct l as [ | [ | | ] ]; cbn; lia.
  - split; [ | lia ].
    rewrite iter_shr_1_m by (destruct l as [ | [ | | ] ]; cbn; lia).
    replace (shr_m (shr_record_of_loc (Zpos m) l)) with (Zpos m)
      by (destruct l as [ | [ | | ] ]; reflexivity).
    assert (Hn : Zpos n <= d - 1) by lia.
    assert (2 ^ Zpos n <= 2 ^ (d - 1)) by (apply Z.pow_le_mono_r; lia).
    assert (0 < 2 ^ Zpos n) by (apply Z.pow_pos_nonneg; lia).
    apply Z.div_str_pos. lia.
  - destruct l as [ | [ | | ] ]; cbn; lia.
Qed.

Lemma round_nearest_even_positive m l : 0 < m -> 0 < round_nearest_even m l.
Proof.
  unfold round_nearest_even. intros H.
  destruct l as [ | [ | | ] ]; try destruct (Z.even m); lia.
Qed.

Lemma binary_round_aux_not_zero sx m e l s :
  -1074 <= e -> binary_round_aux prec emax sx (Zpos m) e l <> S754_zero s.
Proof.
  intros He. unfold binary_round_aux.
  pose proof (shr_fexp_positive m e l He) as [ H1 H2 ].
  destruct (shr_fexp prec emax (Zpos m) e l) as [ mrs' e' ]. cbn [fst snd] in *.
  pose proof (round_nearest_even_positive (shr_m mrs') (loc_of_shr_record mrs') H1)
    as Hr.
  destruct (round_nearest_even (shr_m mrs') (loc_of_shr_record mrs'))
    as [ | m' | m' ]; try lia.
  pose proof (shr_fexp_positive m' e' loc_Exact H2) as [ H3 _ ].
  destruct (shr_fexp prec emax (Zpos m') e' loc_Exact) as [ mrs'' e'' ].
  cbn [fst] in H3.
  destruct (shr_m mrs'') as [ | m'' | m'' ]; try lia.
  destruct (e'' <=? emax - prec); discriminate.
Qed.

Lemma binary_round_not_zero sx m e s :
  -1074 <= e -> binary_round prec emax sx m e <> S754_zero s.
Proof.
  intros He. unfold binary_round, shl_align.
  rewrite fexp_binary64.
  destruct (Z.max (Zpos (digits2_pos m) + e - 53) (-1074) - e) eqn:E;
    apply binary_round_aux_not_zero; lia.
Qed.

Lemma valid_exponent s m e :
  valid_binary (S754_finite s m e) = true -> -1074 <= e.
Proof.
  cbn. unfold bounded, canonical_mantissa. rewrite fexp_binary64.
  rewrite andb_true_iff, Z.eqb_eq. lia.
Qed.

(** A sum is [-0] only when both terms are. *)
Lemma SFadd_neg_zero X Y :
  valid_binary X = true -> valid_binary Y = true ->
  SF64add X Y = S754_zero true -> X = S754_zero true /\ Y = S754_zero true.
Proof.
  intros HX HY.
  destruct X as [ [ | ] | [ | ] | | sx mx ex ], Y as [ [ | ] | [ | ] | | sy my ey ];
    cbn; try discriminate; auto.
  apply valid_exponent in HX, HY.
  unfold binary_normalize.
  destruct (cond_Zopp sx _ + cond_Zopp sy _); try discriminate;
    intros H; exfalso; revert H; apply binary_round_not_zero; lia.
Qed.
End NegativeZero.

Section Zeros.
Local Open Scope float_scope.

Lemma Prim2SF_neg_zero x : Prim2SF x = S754_zero true <-> x = neg_zero.
Proof.
  split.
  - intros H. rewrite <- (SF2Prim_Prim2SF x), H. reflexivity.
  - intros ->. reflexivity.
Qed.

Lemma zero_not_neg_zero : 0 <> neg_zero.
Proof.
  intros E. apply Prim2SF_neg_zero in E. vm_compute in E. discriminate E.
Qed.

(** A sum that is [-0] has [-0] as its first term. *)
Lemma add_neg_zero x y : x + y = neg_zero -> x = neg_zero.
Proof.
  rewrite <- !Prim2SF_neg_zero, add_spec. intros H.
  apply SFadd_neg_zero in H; [ tauto | apply Prim2SF_valid .. ].
Qed.

(** Adding [-0] or [+0] to anything but [-0] makes no difference. *)
Lemma add_zero_sign x : x <> neg_zero -> x + neg_zero = x + 0.
Proof.
  intros Hx. apply Prim2SF_inj. rewrite !add_spec.
  change (Prim2SF neg_zero) with (S754_zero true).
  change (Prim2SF 0) with (S754_zero false).
  rewrite <- Prim2SF_neg_zero in Hx.
  destruct (Prim2SF x) as [ [ | ] | [ | ] | | s m e ]; try reflexivity.
  now elim Hx.
Qed.

Lemma is_zero_cases n : is_zero n = true -> n = 0 \/ n = neg_zero.
Proof.
  unfold is_zero. rewrite eqb_spec.
  change (Prim2SF zero) with (S754_zero false).
  intros H. rewrite <- (SF2Prim_Prim2SF n).
  destruct (Prim2SF n) as [ [ | ] | [ | ] | | [ | ] m e ]; try discriminate H;
    [ right | left ]; reflexivity.
Qed.
End Zeros.

End JsFacts.

(** ** The vision estimator *)

Module OpenAIVisionFacts.
Import Js Json OpenAIVision.
Local Open Scope string_scope.

Example apple_reply_parses :
  JSON_parse Samples.mismatched_reply = Return Samples.mismatched_analysis.
Proof. vm_compute. reflexivity. Qed.

(** C8, as stated, fails: loading the module without a key is not
    fatal, in production or outside it; it returns, with the client left
    null. *)
Lemma startup_without_key_not_fatal :
  (~ (exists e, initialize None (Some "production") = Throw e) /\
   exists st, initialize None (Some "production") = Return st /\
              openai st = None) /\
  (~ (exists e, initialize None None = Throw e) /\
   exists st, initialize None None = Return st /\ openai st = None).
Proof.
  split; split.
  - intros [e H]. discriminate H.
  - eexists. split; reflexivity.
  - intros [e H]. discriminate H.
  - eexists. split; reflexivity.
Qed.

(** C8, as the code has it: without a key (unset or empty) loading the
    module succeeds and leaves no client; it logs the warning and, when
    [NODE_ENV] is not 'production', the status line with both flags false,
    and nothing else; from then on every call of [analyzeImageWithOpenAI]
    throws the configuration error before reaching the provider, so none
    returns a result. *)
Theorem missing_key_fails_each_call
        (env_OPENAI_API_KEY env_NODE_ENV : option string) :
  opt_string_truthy env_OPENAI_API_KEY = false ->
  exists st,
    initialize env_OPENAI_API_KEY env_NODE_ENV = Return st /\
    openai st = None /\
    logged st =
      Line warn missing_key_warning
      :: (if not_production env_NODE_ENV then [Status false false] else []) /\
    getOpenAIClient (openai st) =
      Throw (Error "OPENAI_API_KEY environment variable is required") /\
    forall create imageBase64,
      analyzeImageWithOpenAI (openai st) create imageBase64 =
      Throw (Error "OPENAI_API_KEY environment variable is required").
Proof.
  intros H. unfold initialize.
  destruct env_OPENAI_API_KEY as [ [ | c key ] | ]; try discriminate H;
    destruct (not_production env_NODE_ENV);
    eexists; repeat split.
Qed.

(** With a key, loading the module makes the client with that key and
    logs the success line, followed outside production by the status line
    with both flags true. *)
Lemma startup_with_key key env_NODE_ENV :
  string_truthy key = true ->
  initialize (Some key) env_NODE_ENV =
  Return {| openai := Some {| apiKey := key; maxRetries := 3;
                              timeout := 60000 |};
            logged :=
              Line info "OpenAI client initialized successfully"
              :: (if not_production env_NODE_ENV
                  then [Status true true] else []) |}.
Proof.
  intros H. unfold initialize, opt_string_truthy. rewrite H.
  destruct (not_production env_NODE_ENV); reflexivity.
Qed.

Section Replies.
Variable client : OpenAI.
Variable create : OpenAI -> string -> completion ChatCompletion.
Variable imageBase64 : string.
Variable response : ChatCompletion.
Hypothesis resolved : create client imageBase64 = Return response.

(** The three ways of carrying no content. *)
Lemma first_content_absent :
  (choices response = [] \/
   (exists choice rest, choices response = choice :: rest /\
                        (message choice = None \/
                         exists m, message choice = Some m /\
                                   content m = None))) <->
  first_content response = None.
Proof.
  unfold first_content. split.
  - intros [ -> | (choice & rest & -> & [ -> | (m & -> & ->) ]) ];
      reflexivity.
  - destruct (choices response) as [ | choice rest ]; [ now left | ].
    intros H. right. exists choice, rest. split; [ reflexivity | ].
    destruct (message choice) as [ m | ]; [ right | now left ].
    exists m. now split.
Qed.

(** Without content, or with an empty one, the call throws before it
    parses anything. *)
Lemma falsy_content_throws :
  first_content response = None \/ first_content response = Some EmptyString ->
  analyzeImageWithOpenAI (Some client) create imageBase64 =
  Throw (Error "No response from OpenAI").
Proof.
  intros H. unfold analyzeImageWithOpenAI. cbn. rewrite resolved. cbn.
  destruct H as [ -> | -> ]; reflexivity.
Qed.

(** C10: a response whose first choice carries no content (an empty
    [choices] array, a choice without message, a message whose content is
    null) makes the call throw [Error('No response from OpenAI')]; nothing
    is returned. *)
Theorem no_content_throws :
  choices response = [] \/
  (exists choice rest,
      choices response = choice :: rest /\
      (message choice = None \/
       exists m, message choice = Some m /\ content m = None)) ->
  analyzeImageWithOpenAI (Some client) create imageBase64 =
  Throw (Error "No response from OpenAI").
Proof.
  intros H. apply falsy_content_throws. left.
  now apply first_content_absent.
Qed.

(** What the call does with a non-empty reply: the outcome of parsing
    decides. *)
Lemma analyze_reply content :
  first_content response = Some content -> content <> EmptyString ->
  analyzeImageWithOpenAI (Some client) create imageBase64 =
  match JSON_parse content with
  | Throw _ => Throw (Error "Invalid JSON response from OpenAI")
  | Return analysis =>
      bind (get analysis "totalCalories") (fun _ =>
      bind (get analysis "confidenceScore") (fun _ =>
      bind (get analysis "foodItems") (fun foodItems =>
      bind (read_length foodItems) (fun _ => Return analysis))))
  end.
Proof.
  intros Hc Hne. unfold analyzeImageWithOpenAI. cbn. rewrite resolved. cbn.
  rewrite Hc. destruct content as [ | c content ]; [ now elim Hne | ]. cbn.
  destruct (JSON_parse (String c content)) as [ analysis | e ]; cbn;
    [ | reflexivity ].
  destruct analysis; cbn; try reflexivity.
  destruct (lookup "foodItems" members) as [ [ ] | ]; reflexivity.
Qed.

(** C4, as the code has it: a non-empty reply that is not JSON makes
    the call throw the plain [Error('Invalid JSON response from
    OpenAI')]; a reply that is JSON is not held against the expected
    structure: an object with a [foodItems] member other than null is
    returned as parsed, whatever else it lacks. *)
Theorem unparseable_reply_throws content :
  first_content response = Some content -> content <> EmptyString ->
  (forall e, JSON_parse content = Throw e ->
             analyzeImageWithOpenAI (Some client) create imageBase64 =
             Throw (Error "Invalid JSON response from OpenAI")) /\
  (forall members items,
      JSON_parse content = Return (Object members) ->
      lookup "foodItems" members = Some items -> items <> Null ->
      analyzeImageWithOpenAI (Some client) create imageBase64 =
      Return (Object members)).
Proof.
  intros Hc Hne. rewrite (analyze_reply content Hc Hne). split.
  - intros e ->. reflexivity.
  - intros members items -> Hl Hn. cbn. rewrite Hl.
    destruct items; try reflexivity. now elim Hn.
Qed.
End Replies.

(** A reply that is JSON but has no [foodItems] ends in the engine's
    [TypeError], thrown by the logging of [analysis.foodItems.length]. *)
Example empty_object_reply_crashes :
  analyzeImageWithOpenAI (Some Samples.client)
    (Samples.replying (Some "{}")) Samples.image =
  Throw (TypeError "length").
Proof. vm_compute. reflexivity. Qed.

(** The reply [null] is JSON too; reading its first field throws. *)
Example null_reply_crashes :
  analyzeImageWithOpenAI (Some Samples.client)
    (Samples.replying (Some "null")) Samples.image =
  Throw (TypeError "totalCalories").
Proof. vm_compute. reflexivity. Qed.

(** C4, as stated, fails: a JSON reply that lacks seven of the eight
    required fields is returned, not rejected. *)
Lemma incomplete_reply_returned :
  exists analysis,
    JSON_parse Samples.incomplete_reply = Return analysis /\
    has_required_fields analysis = false /\
    analyzeImageWithOpenAI (Some Samples.client)
      (Samples.replying (Some Samples.incomplete_reply)) Samples.image =
    Return analysis /\
    forall e,
      analyzeImageWithOpenAI (Some Samples.client)
        (Samples.replying (Some Samples.incomplete_reply)) Samples.image <> Throw e.
Proof.
  exists (Object [("foodItems", Array [])]).
  repeat split; try (vm_compute; reflexivity).
  intros e H. vm_compute in H. discriminate H.
Qed.

(** C9: the totals of a reply are never held against its items: the
    sample reply, with [totalCalories] 500 over items that sum to 95, is
    parsed and returned as it is. *)
Theorem totals_not_checked (client : OpenAI) (imageBase64 : string) :
  JSON_parse Samples.mismatched_reply = Return Samples.mismatched_analysis /\
  has_required_fields Samples.mismatched_analysis = true /\
  number_field Samples.mismatched_analysis "totalCalories" = Some 500%float /\
  items_total Samples.mismatched_analysis "calories" = Some 95%float /\
  (500 =? 95)%float = false /\
  analyzeImageWithOpenAI (Some client)
    (Samples.replying (Some Samples.mismatched_reply)) imageBase64 =
  Return Samples.mismatched_analysis.
Proof.
  repeat split; vm_compute; reflexivity.
Qed.

End OpenAIVisionFacts.

(** ** The confidence gate and the two-stage analysis *)

Module AiRulesFacts.
Import Js JsFacts AiRules.
Local Open Scope float_scope.

(** C3: [requiresUserConfirmation] is true exactly when the confidence
    is below 0.7; from 0.7 upwards, and at 0.7 itself, it is false. *)
Theorem confirmation_gate (r : NutritionEstimate) :
  (requiresUserConfirmation (processNutritionAnalysis r) = true <->
   (confidence r <? 0.7) = true) /\
  ((0.7 <=? confidence r) = true ->
   requiresUserConfirmation (processNutritionAnalysis r) = false) /\
  (confidence r = 0.7 ->
   requiresUserConfirmation (processNutritionAnalysis r) = false) /\
  result (processNutritionAnalysis r) = r.
Proof.
  unfold processNutritionAnalysis.
  repeat split.
  - destruct (confidence r <? 0.7); cbn; congruence.
  - destruct (confidence r <? 0.7); cbn; congruence.
  - intros H. now rewrite (ltb_false_of_leb _ _ H).
  - intros ->. reflexivity.
  - destruct (confidence r <? 0.7); reflexivity.
Qed.

Section Pipeline.
Variable generateInitial : string -> completion Initial.t.
Variable generateValidation : Initial.t -> completion Validation.

(** C5, as the code has it: the two-stage analysis either returns a
    record, and then both model calls resolved, its [finalCalories] is the
    validator's [adjustedCalories], its [foodItems],
    [totalCaloriesEstimate] and [confidence] are those of the first stage
    and its [validationNotes] is the validator's [reasoning]; or it throws
    just what the failing call rejected with; nothing in between. *)
Theorem analyzeFoodImage_all_or_nothing (imageBase64 : string) :
  match analyzeFoodImage generateInitial generateValidation imageBase64 with
  | Return r =>
      exists initial validation,
        generateInitial imageBase64 = Return initial /\
        generateValidation initial = Return validation /\
        finalCalories r = adjustedCalories validation /\
        foodItems r = Initial.foodItems initial /\
        totalCaloriesEstimate r = Initial.totalCaloriesEstimate initial /\
        confidence r = Initial.confidence initial /\
        validationNotes r = reasoning validation
  | Throw e =>
      generateInitial imageBase64 = Throw e \/
      exists initial,
        generateInitial imageBase64 = Return initial /\
        generateValidation initial = Throw e
  end.
Proof.
  unfold analyzeFoodImage, bind.
  destruct (generateInitial imageBase64) as [ initial | e ]; [ | now left ].
  destruct (generateValidation initial) as [ validation | e ] eqn:Hv.
  - exists initial, validation. repeat split; assumption.
  - right. exists initial. split; [ reflexivity | assumption ].
Qed.
End Pipeline.

(** C5, as stated, fails.  The notes do not pass through from the first
    stage: over one and the same first-stage object, two validators give
    records that differ in their notes (and in nothing that comes from
    the first stage).  And what is raised is not one of a set of defined
    error kinds: a provider's rejection comes out as it is. *)
Lemma notes_come_from_validator :
  (exists r1 r2,
     analyzeFoodImage (fun _ => Return RuleSamples.sure)
                      (fun _ => Return RuleSamples.objection) Samples.image
     = Return r1 /\
     analyzeFoodImage (fun _ => Return RuleSamples.sure)
                      (fun _ => Return RuleSamples.approval) Samples.image
     = Return r2 /\
     foodItems r1 = foodItems r2 /\
     confidence r1 = confidence r2 /\
     validationNotes r1 <> validationNotes r2) /\
  analyzeFoodImage (fun _ => Return RuleSamples.sure)
                   (fun _ => Throw RuleSamples.quota_exceeded) Samples.image
  = Throw (Foreign "429 insufficient_quota").
Proof.
  split; [ | reflexivity ].
  do 2 eexists. split; [ reflexivity | ]. split; [ reflexivity | ].
  split; [ reflexivity | ]. split; [ reflexivity | ].
  cbn. discriminate.
Qed.

End AiRulesFacts.

(** ** The daily aggregator *)

Module NutritionJobFacts.
Import Js JsFacts EcmaDate EcmaDateFacts NutritionJob.
Local Open Scope Z_scope.

Section Boundaries.
Variable LocalTZA : Z.

(** [startOfDay] is local midnight of the day of [now]. *)
Lemma startOfDay_eq now :
  0 <= LocalTime LocalTZA now ->
  startOfDay LocalTZA now = UTC LocalTZA (Day (LocalTime LocalTZA now) * msPerDay).
Proof.
  intros H. unfold startOfDay, newDate, getFullYear, getMonth, getDate.
  rewrite MakeFullYear_after_epoch, MakeDay_fields by assumption.
  unfold MakeDate, MakeTime. f_equal. lia.
Qed.

(** [endOfDay] is the last millisecond of that day. *)
Lemma endOfDay_eq now :
  0 <= LocalTime LocalTZA now ->
  endOfDay LocalTZA now =
  UTC LocalTZA (Day (LocalTime LocalTZA now) * msPerDay + (msPerDay - 1)).
Proof.
  intros H. unfold endOfDay, newDate, getFullYear, getMonth, getDate.
  rewrite MakeFullYear_after_epoch, MakeDay_fields by assumption.
  unfold MakeDate, MakeTime, msPerHour, msPerMinute, msPerSecond, msPerDay.
  f_equal.
Qed.

(** The range filter of the query, in local time: the day of [now]
    without its last millisecond. *)
Lemma in_range_iff now t :
  0 <= LocalTime LocalTZA now ->
  (startOfDay LocalTZA now <=? t) && (t <? endOfDay LocalTZA now) = true <->
  Day (LocalTime LocalTZA t) = Day (LocalTime LocalTZA now) /\
  TimeWithinDay (LocalTime LocalTZA t) < msPerDay - 1.
Proof.
  intros H. rewrite startOfDay_eq, endOfDay_eq by assumption.
  rewrite andb_true_iff, Z.leb_le, Z.ltb_lt.
  pose proof (Day_TimeWithinDay (LocalTime LocalTZA t)) as Hd.
  pose proof (TimeWithinDay_range (LocalTime LocalTZA t)) as Hr.
  unfold UTC, LocalTime, msPerDay in *.
  split.
  - intros [H1 H2]. assert (Day (t + LocalTZA) = Day (now + LocalTZA)); [ | lia ].
    unfold Day, msPerDay in *. Z.div_mod_to_equations. lia.
  - intros [H1 H2]. rewrite <- H1. lia.
Qed.

(** Two clock readings on the same local day give the same bounds. *)
Lemma same_day_same_bounds now later :
  0 <= LocalTime LocalTZA now ->
  Day (LocalTime LocalTZA later) = Day (LocalTime LocalTZA now) ->
  startOfDay LocalTZA later = startOfDay LocalTZA now /\
  endOfDay LocalTZA later = endOfDay LocalTZA now.
Proof.
  intros H Hd.
  assert (0 <= LocalTime LocalTZA later).
  { unfold Day, msPerDay in Hd. Z.div_mod_to_equations. lia. }
  rewrite !startOfDay_eq, !endOfDay_eq, Hd by assumption. auto.
Qed.

(** What the step returns on a reachable store. *)
Lemma update_daily_summary_rows now logs uid :
  update_daily_summary LocalTZA now (Rows logs) uid =
  Return (dailyTotals
            (filter (fun log =>
                       (user_id log =? uid)%string
                       && (startOfDay LocalTZA now <=? created_at log)
                       && (created_at log <? endOfDay LocalTZA now)) logs)).
Proof. reflexivity. Qed.

(** A row of the user is fetched exactly when it was created on the
    local day of [now], its last millisecond excepted. *)
Lemma fetched_iff now logs uid log todayLogs :
  0 <= LocalTime LocalTZA now ->
  data (select_logs (Rows logs) uid (startOfDay LocalTZA now)
                    (endOfDay LocalTZA now)) = Some todayLogs ->
  In log todayLogs <->
  In log logs /\ user_id log = uid /\
  Day (LocalTime LocalTZA (created_at log)) = Day (LocalTime LocalTZA now) /\
  TimeWithinDay (LocalTime LocalTZA (created_at log)) < msPerDay - 1.
Proof.
  intros H Hd. cbn in Hd. injection Hd as <-.
  rewrite filter_In, <- andb_assoc, andb_true_iff, String.eqb_eq.
  rewrite in_range_iff by assumption. tauto.
Qed.

(** A row created at 00:00:00.000 of the next local day is not among
    today's rows. *)
Lemma next_midnight_left_out now logs uid log todayLogs :
  0 <= LocalTime LocalTZA now ->
  LocalTime LocalTZA (created_at log) =
    MakeDate (Day (LocalTime LocalTZA now) + 1) (MakeTime 0 0 0 0) ->
  data (select_logs (Rows logs) uid (startOfDay LocalTZA now)
                    (endOfDay LocalTZA now)) = Some todayLogs ->
  ~ In log todayLogs.
Proof.
  intros H Ht Hd Hin.
  apply (fetched_iff now logs uid log todayLogs H Hd) in Hin.
  destruct Hin as (_ & _ & Hday & _).
  rewrite Ht in Hday. unfold MakeDate, MakeTime, Day, msPerDay in Hday.
  Z.div_mod_to_equations. lia.
Qed.

(** The range test fails at 23:59:59.999 local time of the day of [now]. *)
Lemma last_millisecond_out_of_range now t :
  0 <= LocalTime LocalTZA now ->
  LocalTime LocalTZA t =
    MakeDate (Day (LocalTime LocalTZA now)) (MakeTime 23 59 59 999) ->
  (startOfDay LocalTZA now <=? t) && (t <? endOfDay LocalTZA now) = false.
Proof.
  intros H Ht. apply not_true_is_false. intros Hin.
  apply (in_range_iff now t H) in Hin. destruct Hin as [ _ Hlast ].
  rewrite Ht in Hlast.
  unfold MakeDate, MakeTime, TimeWithinDay, msPerDay, msPerHour,
    msPerMinute, msPerSecond in Hlast.
  Z.div_mod_to_equations. lia.
Qed.

(** C1 (where the code departs from the claim): a row created at exactly
    23:59:59.999 local time of the day of [now] is not fetched, and the
    totals of that day are what they would be without it. *)
Theorem last_millisecond_left_out now before after uid log :
  0 <= LocalTime LocalTZA now ->
  LocalTime LocalTZA (created_at log) =
    MakeDate (Day (LocalTime LocalTZA now)) (MakeTime 23 59 59 999) ->
  (forall todayLogs,
      data (select_logs (Rows (before ++ log :: after)) uid
                        (startOfDay LocalTZA now) (endOfDay LocalTZA now)) =
      Some todayLogs -> ~ In log todayLogs) /\
  update_daily_summary LocalTZA now (Rows (before ++ log :: after)) uid =
  update_daily_summary LocalTZA now (Rows (before ++ after)) uid.
Proof.
  intros H Ht.
  pose proof (last_millisecond_out_of_range now (created_at log) H Ht) as Hout.
  split.
  - intros todayLogs Hd Hin.
    apply (fetched_iff now _ uid log todayLogs H Hd) in Hin.
    destruct Hin as (_ & _ & Hday & Hlast).
    assert (Hin : (startOfDay LocalTZA now <=? created_at log)
                  && (created_at log <? endOfDay LocalTZA now) = true)
      by (apply in_range_iff; auto).
    congruence.
  - rewrite !update_daily_summary_rows.
    rewrite !filter_app. cbn [filter].
    rewrite <- andb_assoc, Hout, andb_false_r. reflexivity.
Qed.

(** C6, as the code has it: two runs of the step whose clock readings
    fall on the same local day, over a store that answers both with the
    same rows in the same order, return the same totals, and leave the
    store as it was. *)
Theorem same_day_rerun_same_totals uid later w :
  0 <= LocalTime LocalTZA (clock w) ->
  Day (LocalTime LocalTZA later) = Day (LocalTime LocalTZA (clock w)) ->
  let '(first, second, w') := run_twice LocalTZA uid later w in
  first = second /\ store w' = store w.
Proof.
  intros H Hd. unfold run_twice, run_update_daily_summary, tick. cbn.
  destruct (same_day_same_bounds (clock w) later H Hd) as [Hs He].
  unfold update_daily_summary. rewrite Hs, He. auto.
Qed.
End Boundaries.

(** The record-valued fold is five scalar folds side by side. *)
Lemma fold_add_log logs : forall acc,
  fold_left add_log logs acc =
  {| calories := fold_left (fun a l => (a + or_zero (total_calories l))%float)
                           logs (calories acc);
     protein := fold_left (fun a l => (a + or_zero (total_protein_g l))%float)
                          logs (protein acc);
     carbs := fold_left (fun a l => (a + or_zero (total_carbs_g l))%float)
                        logs (carbs acc);
     fat := fold_left (fun a l => (a + or_zero (total_fat_g l))%float)
                      logs (fat acc);
     fiber := fold_left (fun a l => (a + or_zero (total_fiber_g l))%float)
                        logs (fiber acc) |}.
Proof.
  induction logs as [ | log logs IH ]; intros acc.
  - now destruct acc.
  - cbn [fold_left]. rewrite IH. reflexivity.
Qed.

(** On an accumulator other than [-0], [x || 0] and the value of [x]
    add the same. *)
Lemma or_zero_add acc x :
  acc <> neg_zero -> json_number x = true ->
  (acc + or_zero x)%float = (acc + present_or_zero x)%float.
Proof.
  intros Hacc Hx. destruct x as [ n | ]; cbn in *; [ | reflexivity ].
  unfold number_truthy. apply negb_true_iff in Hx. rewrite Hx, orb_false_r.
  destruct (PrimFloat.is_zero n) eqn:Hz; cbn; [ | reflexivity ].
  destruct (is_zero_cases n Hz) as [ -> | -> ]; [ reflexivity | ].
  symmetry. now apply add_zero_sign.
Qed.

(** One column: the sum the code accumulates is the sum of the present
    values; the accumulator, which starts at [+0], never becomes [-0]. *)
Lemma sum_column_exact (column : nutrition_log -> option number) logs :
  forall acc,
    acc <> neg_zero ->
    forallb (fun log => json_number (column log)) logs = true ->
    fold_left (fun a l => (a + or_zero (column l))%float) logs acc =
    fold_left (fun a l => (a + present_or_zero (column l))%float) logs acc.
Proof.
  induction logs as [ | log logs IH ]; intros acc Hacc Hjson; cbn;
    [ reflexivity | ].
  cbn in Hjson. apply andb_true_iff in Hjson as [ Hlog Hrest ].
  rewrite (or_zero_add acc (column log) Hacc Hlog).
  apply IH; [ | exact Hrest ].
  intros E. apply add_neg_zero in E. contradiction.
Qed.

Lemma fetched_column logs :
  forallb fetched_as_json logs = true ->
  forallb (fun log => json_number (total_calories log)) logs = true /\
  forallb (fun log => json_number (total_protein_g log)) logs = true /\
  forallb (fun log => json_number (total_carbs_g log)) logs = true /\
  forallb (fun log => json_number (total_fat_g log)) logs = true /\
  forallb (fun log => json_number (total_fiber_g log)) logs = true.
Proof.
  induction logs as [ | log logs IH ]; cbn; [ auto | ].
  unfold fetched_as_json at 1. rewrite !andb_true_iff.
  intros [ ((((H1 & H2) & H3) & H4) & H5) Hrest ].
  destruct (IH Hrest) as (I1 & I2 & I3 & I4 & I5).
  rewrite H1, H2, H3, H4, H5. cbn. repeat split; assumption.
Qed.

(** The reduce over rows that came as JSON is, field by field, the sum of
    that column, a null or missing value adding 0. *)
Lemma dailyTotals_exact todayLogs :
  forallb fetched_as_json todayLogs = true ->
  dailyTotals todayLogs = field_sums todayLogs.
Proof.
  intros H. apply fetched_column in H as (H1 & H2 & H3 & H4 & H5).
  unfold dailyTotals. rewrite fold_add_log.
  unfold field_sums, sum_column. cbn.
  rewrite !sum_column_exact by (assumption || exact zero_not_neg_zero).
  reflexivity.
Qed.

(** C7: whenever the query of the step fetches the rows [todayLogs], the
    step returns, and what it returns is, field by field, the sum of that
    column over [todayLogs], a null or missing value adding 0. *)
Theorem daily_totals_are_field_sums LocalTZA now db uid todayLogs :
  data (select_logs db uid (startOfDay LocalTZA now) (endOfDay LocalTZA now))
  = Some todayLogs ->
  forallb fetched_as_json todayLogs = true ->
  update_daily_summary LocalTZA now db uid = Return (field_sums todayLogs).
Proof.
  intros Hd Hj. destruct db as [ logs | e ]; [ | discriminate Hd ].
  unfold update_daily_summary.
  change (error (select_logs (Rows logs) uid (startOfDay LocalTZA now)
                             (endOfDay LocalTZA now))) with (@None thrown).
  cbv iota. rewrite Hd. now rewrite dailyTotals_exact.
Qed.

Section Events.
Variable LocalTZA : Z.
Local Open Scope float_scope.

(** C2: on a reachable store, a run of the handler sends the
    'nutrition/low-confidence' event with the payload of the incoming
    event exactly when its [confidenceScore] is below 0.7, and nothing
    otherwise: 0.65 sends it, 0.70 does not. *)
Theorem low_confidence_event_iff now logs (data : event_data) :
  let sent := snd (updateNutritionData LocalTZA now (Rows logs) data) in
  let alert := {| name := "nutrition/low-confidence";
                  payload := {| logId := logId data;
                                userId := userId data;
                                confidenceScore := confidenceScore data |} |} in
  (sent = [alert] <-> (confidenceScore data <? 0.7) = true) /\
  (sent = [] <-> (confidenceScore data <? 0.7) = false) /\
  (forall lid uid,
      check_insights_trigger
        {| logId := lid; userId := uid; confidenceScore := 0.65 |} =
      [ {| name := "nutrition/low-confidence";
           payload := {| logId := lid; userId := uid;
                         confidenceScore := 0.65 |} |} ]) /\
  (forall lid uid,
      check_insights_trigger
        {| logId := lid; userId := uid; confidenceScore := 0.70 |} = []).
Proof.
  cbn. unfold check_insights_trigger.
  repeat split; try reflexivity;
    destruct (confidenceScore data <? 0.7); congruence.
Qed.
(** When the store fails, the first step throws what the query reported
    and the run ends there: no event is sent by that run. *)
Lemma failing_store_sends_nothing now fetchError (data : event_data) :
  updateNutritionData LocalTZA now (Failing fetchError) data =
  (Throw fetchError, []).
Proof. reflexivity. Qed.
End Events.

End NutritionJobFacts.

(** ** Worked instances *)

(** *** The daily aggregator, on 10 March 2024 (UTC) *)

Module AggregatorInstances.
Import Js EcmaDate NutritionJob NutritionJobFacts Samples.
Local Open Scope string_scope.
Local Open Scope Z_scope.

(** The step, run at noon over a store that holds only the snack logged
    at 23:59:59.999 of that day, reports an empty day. *)
Example last_millisecond_meal_not_counted :
  update_daily_summary 0 noon (Rows [late_snack]) "user-1" =
  Return zero_totals.
Proof. vm_compute. reflexivity. Qed.

(** One millisecond earlier the same meal is counted. *)
Example second_to_last_millisecond_meal_counted :
  update_daily_summary 0 noon
    (Rows [Samples.meal (Samples.march_10 23 59 59 998)]) "user-1" =
  Return {| calories := 500; protein := 30; carbs := 60; fat := 15;
            fiber := 0 |}%float.
Proof. vm_compute. reflexivity. Qed.

(** The same, five hours west of Greenwich. *)
Example last_millisecond_meal_not_counted_utc_minus_5 :
  let tza := -5 * msPerHour in
  update_daily_summary tza (UTC tza noon)
    (Rows [Samples.meal (UTC tza (Samples.march_10 23 59 59 999))])
    "user-1" =
  Return zero_totals.
Proof. vm_compute. reflexivity. Qed.

(** An instance: lunch, then the late
    snack, seen from noon. *)
Lemma last_millisecond_left_out_witness :
  0 <= LocalTime 0 noon /\
  LocalTime 0 (created_at late_snack) =
    MakeDate (Day (LocalTime 0 noon)) (MakeTime 23 59 59 999) /\
  (forall todayLogs,
      data (select_logs (Rows ([lunch] ++ late_snack :: [])) "user-1"
                        (startOfDay 0 noon) (endOfDay 0 noon)) =
      Some todayLogs -> ~ In late_snack todayLogs) /\
  update_daily_summary 0 noon (Rows ([lunch] ++ late_snack :: [])) "user-1" =
  update_daily_summary 0 noon (Rows ([lunch] ++ [])) "user-1".
Proof.
  assert (H1 : 0 <= LocalTime 0 noon) by (vm_compute; discriminate).
  assert (H2 : LocalTime 0 (created_at late_snack) =
               MakeDate (Day (LocalTime 0 noon)) (MakeTime 23 59 59 999))
    by (vm_compute; reflexivity).
  split; [ exact H1 | split; [ exact H2 | ] ].
  exact (last_millisecond_left_out 0 noon [lunch] [] "user-1" late_snack H1 H2).
Defined.

(** C6, as stated, fails: the event delivered at 23:00 and again at
    01:00 the next day, over the same stored rows, gives 500 kcal the
    first time and 0 the second. *)
Lemma redelivery_after_midnight_differs :
  exists first second w',
    run_twice 0 "user-1" after_midnight evening = (first, second, w') /\
    store w' = store evening /\
    first = Return {| calories := 500; protein := 30; carbs := 60;
                      fat := 15; fiber := 0 |}%float /\
    second = Return zero_totals /\
    first <> second.
Proof.
  do 3 eexists. split; [ vm_compute; reflexivity | ].
  repeat split.
  intros H.
  apply (f_equal (fun c => match c with
                           | Return t => PrimFloat.is_zero (calories t)
                           | Throw _ => false
                           end)) in H.
  vm_compute in H. discriminate H.
Qed.

(** An instance: 09:00 and 21:00 of the
    same day. *)
Lemma same_day_rerun_same_totals_witness :
  0 <= LocalTime 0 (clock morning) /\
  Day (LocalTime 0 nine_pm) = Day (LocalTime 0 (clock morning)) /\
  let '(first, second, w') := run_twice 0 "user-1" nine_pm morning in
  first = second /\ store w' = store morning.
Proof.
  assert (H1 : 0 <= LocalTime 0 (clock morning)) by (vm_compute; discriminate).
  assert (H2 : Day (LocalTime 0 nine_pm) =
               Day (LocalTime 0 (clock morning))) by (vm_compute; reflexivity).
  split; [ exact H1 | split; [ exact H2 | ] ].
  exact (same_day_rerun_same_totals 0 "user-1" nine_pm
           morning H1 H2).
Defined.

(** An instance: the step at noon over a store with two meals of the
    day, each with a null column, and a breakfast of somebody else. *)
Lemma daily_totals_are_field_sums_witness :
  data (select_logs (Rows [lunch; MoreSamples.strangers_breakfast; MoreSamples.dinner])
                    "user-1" (startOfDay 0 noon) (endOfDay 0 noon))
  = Some [lunch; MoreSamples.dinner] /\
  forallb fetched_as_json [lunch; MoreSamples.dinner] = true /\
  update_daily_summary 0 noon
    (Rows [lunch; MoreSamples.strangers_breakfast; MoreSamples.dinner]) "user-1"
  = Return (field_sums [lunch; MoreSamples.dinner]).
Proof.
  assert (H1 : data (select_logs
                       (Rows [lunch; MoreSamples.strangers_breakfast;
                              MoreSamples.dinner])
                       "user-1" (startOfDay 0 noon) (endOfDay 0 noon))
               = Some [lunch; MoreSamples.dinner]) by (vm_compute; reflexivity).
  assert (H2 : forallb fetched_as_json [lunch; MoreSamples.dinner] = true)
    by (vm_compute; reflexivity).
  split; [ exact H1 | split; [ exact H2 | ] ].
  exact (daily_totals_are_field_sums 0 noon _ "user-1" [lunch; MoreSamples.dinner]
           H1 H2).
Defined.

(** The same instance, evaluated: 500 + 250.5 kcal. *)
Example two_meals_summed :
  match update_daily_summary 0 noon
          (Rows [lunch; MoreSamples.strangers_breakfast; MoreSamples.dinner]) "user-1"
  with
  | Return totals =>
      (calories totals =? calories (field_sums [lunch; MoreSamples.dinner]))%float
      = true /\
      (calories totals =? 750.5)%float = true /\
      (carbs totals =? 60)%float = true /\
      (fiber totals =? 4)%float = true
  | Throw _ => False
  end.
Proof. vm_compute. repeat split. Qed.

(** The query has no [order]: the same rows in another table order are
    summed in that order, and the binary64 sums can differ in the last
    place (0.1 + 0.2 + 0.3 against 0.3 + 0.2 + 0.1). *)
Example table_order_matters :
  update_daily_summary 0 noon
    (Rows [MoreSamples.tenth; MoreSamples.fifth; MoreSamples.three_tenths])
    "user-1"
  <> update_daily_summary 0 noon
       (Rows [MoreSamples.three_tenths; MoreSamples.fifth; MoreSamples.tenth])
       "user-1".
Proof.
  intros H.
  apply (f_equal (fun c => match c with
                           | Return totals =>
                               (calories totals =? 0.6)%float
                           | Throw _ => false
                           end)) in H.
  vm_compute in H. discriminate H.
Qed.

(** With a [NaN] in a column the two part ways: the code adds 0 for it. *)
Example nan_counts_as_zero :
  dailyTotals [ {| id := "log-2"; user_id := "user-1"; created_at := noon;
                   total_calories := Some nan; total_protein_g := None;
                   total_carbs_g := None; total_fat_g := None;
                   total_fiber_g := None |} ] = zero_totals.
Proof. vm_compute. reflexivity. Qed.

End AggregatorInstances.

(** *** The confidence gate *)

Module GateInstances.

(** An instance: confidence exactly 0.7, and 0.65. *)
Lemma confirmation_gate_witness :
  (0.7 <=? AiRules.confidence (Samples.estimate 0.7%float))%float = true /\
  AiRules.confidence (Samples.estimate 0.7%float) = 0.7%float /\
  AiRules.requiresUserConfirmation
    (AiRules.processNutritionAnalysis (Samples.estimate 0.7%float)) = false /\
  AiRules.requiresUserConfirmation
    (AiRules.processNutritionAnalysis (Samples.estimate 0.65%float)) = true.
Proof.
  assert (H : (0.7 <=? AiRules.confidence (Samples.estimate 0.7%float))%float = true)
    by reflexivity.
  split; [ exact H | split; [ reflexivity | split ] ].
  - exact (proj1 (proj2 (AiRulesFacts.confirmation_gate (Samples.estimate 0.7%float))) H).
  - apply (proj1 (AiRulesFacts.confirmation_gate (Samples.estimate 0.65%float))).
    reflexivity.
Defined.

End GateInstances.

(** *** The vision estimator *)

Module EstimatorInstances.
Import Js Json OpenAIVision OpenAIVisionFacts Samples.
Local Open Scope string_scope.

(** An instance: the key unset, in development. *)
Lemma missing_key_fails_each_call_witness :
  opt_string_truthy None = false /\
  exists st,
    initialize None (Some "development") = Return st /\
    openai st = None /\
    logged st =
      Line warn missing_key_warning
      :: (if not_production (Some "development")
          then [Status false false] else []) /\
    getOpenAIClient (openai st) =
      Throw (Error "OPENAI_API_KEY environment variable is required") /\
    forall create imageBase64,
      analyzeImageWithOpenAI (openai st) create imageBase64 =
      Throw (Error "OPENAI_API_KEY environment variable is required").
Proof.
  split; [ reflexivity | ].
  exact (missing_key_fails_each_call None (Some "development") eq_refl).
Defined.

(** The lines of a start without a key, in development and in
    production. *)
Example startup_lines_without_key :
  initialize None (Some "development")
  = Return {| openai := None;
              logged := [ Line warn missing_key_warning;
                          Status false false ] |} /\
  initialize (Some EmptyString) (Some "production")
  = Return {| openai := None;
              logged := [ Line warn missing_key_warning ] |}.
Proof. split; reflexivity. Qed.

(** An instance: a completion without choices. *)
Lemma no_content_throws_witness :
  (fun _ _ => Return no_choice) client image = Return no_choice /\
  (choices no_choice = [] \/
   (exists choice rest,
       choices no_choice = choice :: rest /\
       (message choice = None \/
        exists m, message choice = Some m /\ content m = None))) /\
  analyzeImageWithOpenAI (Some client)
    (fun _ _ => Return no_choice) image =
  Throw (Error "No response from OpenAI").
Proof.
  split; [ reflexivity | split; [ left; reflexivity | ] ].
  exact (no_content_throws client (fun _ _ => Return no_choice) image
           no_choice eq_refl (or_introl eq_refl)).
Defined.

(** The same with a choice whose message has null content. *)
Example null_content_throws :
  analyzeImageWithOpenAI (Some client) (Samples.replying None) image =
  Throw (Error "No response from OpenAI").
Proof. reflexivity. Qed.

(** An instance: a reply in prose. *)
Lemma unparseable_reply_throws_witness :
  Samples.replying (Some apology) client image = Return apologetic /\
  first_content apologetic = Some apology /\
  apology <> EmptyString /\
  JSON_parse apology = Throw SyntaxError /\
  analyzeImageWithOpenAI (Some client)
    (Samples.replying (Some apology)) image =
  Throw (Error "Invalid JSON response from OpenAI").
Proof.
  assert (Hne : apology <> EmptyString) by discriminate.
  assert (Hp : JSON_parse apology = Throw SyntaxError)
    by (vm_compute; reflexivity).
  split; [ reflexivity | split; [ reflexivity | ] ].
  split; [ exact Hne | split; [ exact Hp | ] ].
  exact (proj1 (unparseable_reply_throws client
                  (Samples.replying (Some apology)) image apologetic eq_refl
                  apology eq_refl Hne) SyntaxError Hp).
Defined.
End EstimatorInstances.

(** ** The vision estimator: every outcome *)

Module EstimatorOutcomes.
Import Js Json OpenAIVision OpenAIVisionFacts ReplyShape.
Local Open Scope string_scope.

Lemma parse_sign_other c r :
  (c =? "-")%char = false -> parse_sign (String c r) = (false, String c r).
Proof.
  destruct c as [ [ | ] [ | ] [ | ] [ | ] [ | ] [ | ] [ | ] [ | ] ];
    cbn; intros H; try reflexivity; discriminate H.
Qed.

Lemma parse_int_other c r : digit c = None -> parse_int (String c r) = None.
Proof.
  destruct c as [ [ | ] [ | ] [ | ] [ | ] [ | ] [ | ] [ | ] [ | ] ];
    cbn; intros H; try reflexivity; discriminate H.
Qed.

(** A text whose first character after white space cannot begin a JSON
    value is not JSON. *)
Lemma bad_start_not_json content c rest :
  skip_ws content = String c rest -> starts_json_value c = false ->
  JSON_parse content = Throw SyntaxError.
Proof.
  unfold starts_json_value. intros Hs Hc.
  repeat (apply orb_false_iff in Hc; destruct Hc as [ Hc ? ]).
  unfold JSON_parse, parse_fuel.
  replace (2 * String.length content + 2) with (S (2 * String.length content + 1))
    by lia.
  cbn [parse_value]. rewrite Hs.
  repeat match goal with H : (_ =? _)%char = false |- _ => rewrite H; clear H end.
  unfold parse_number. rewrite parse_sign_other by assumption.
  rewrite parse_int_other; [ reflexivity | ].
  destruct (digit c); [ discriminate | reflexivity ].
Qed.

Section Outcomes.
Variable openai : option OpenAI.
Variable create : OpenAI -> string -> completion ChatCompletion.
Variable imageBase64 : string.

(** The call returns in one case only: a client exists, the provider
    resolved, the reply is non-empty JSON for an object, and the object has a
    [foodItems] member other than null.  What it returns is that object. *)
Theorem returns_iff (v : value) :
  analyzeImageWithOpenAI openai create imageBase64 = Return v <->
  exists client response content members items,
    openai = Some client /\
    create client imageBase64 = Return response /\
    first_content response = Some content /\
    content <> EmptyString /\
    JSON_parse content = Return v /\
    v = Object members /\
    lookup "foodItems" members = Some items /\
    items <> Null.
Proof.
  split.
  - destruct openai as [ client | ] eqn:Ho; [ | discriminate ].
    destruct (create client imageBase64) as [ response | e ] eqn:Hr;
      [ | unfold analyzeImageWithOpenAI; cbn; rewrite Hr; discriminate ].
    destruct (first_content response) as [ content | ] eqn:Hc;
      [ | unfold analyzeImageWithOpenAI; cbn; rewrite Hr; cbn; rewrite Hc;
          discriminate ].
    destruct content as [ | c content ];
      [ unfold analyzeImageWithOpenAI; cbn; rewrite Hr; cbn; rewrite Hc;
        discriminate | ].
    rewrite (analyze_reply client create imageBase64 response Hr _ Hc)
      by discriminate.
    destruct (JSON_parse (String c content)) as [ a | e ] eqn:Hp;
      [ | discriminate ].
    destruct a as [ | | | | | members ]; cbn; try discriminate.
    destruct (lookup "foodItems" members) as [ items | ] eqn:Hl;
      [ | discriminate ].
    destruct items; cbn; try discriminate; intros [= <-];
      exists client, response, (String c content), members;
      eexists; repeat split; eauto; discriminate.
  - intros (client & response & content & members & items &
            -> & Hr & Hc & Hne & Hp & -> & Hl & Hn).
    rewrite (analyze_reply client create imageBase64 response Hr _ Hc Hne), Hp.
    cbn. rewrite Hl. destruct items; try reflexivity. now elim Hn.
Qed.

(** What the call can throw: the configuration error, whatever the
    provider rejected with, one of its own two messages, or the engine's
    [TypeError] from the logging of a reply that is JSON but no object with
    [foodItems].  The [SyntaxError] of [JSON.parse] never escapes as such. *)
Theorem thrown_kinds (e : thrown) :
  analyzeImageWithOpenAI openai create imageBase64 = Throw e ->
  (openai = None /\
   e = Error "OPENAI_API_KEY environment variable is required") \/
  (exists client, openai = Some client /\
                  create client imageBase64 = Throw e) \/
  e = Error "No response from OpenAI" \/
  e = Error "Invalid JSON response from OpenAI" \/
  e = TypeError "totalCalories" \/
  e = TypeError "length".
Proof.
  destruct openai as [ client | ] eqn:Ho;
    [ | intros [= <-]; left; split; reflexivity ].
  destruct (create client imageBase64) as [ response | e' ] eqn:Hr.
  2:{ unfold analyzeImageWithOpenAI. cbn. rewrite Hr. cbn. intros [= <-].
      right. left. exists client. split; [ reflexivity | assumption ]. }
  destruct (first_content response) as [ content | ] eqn:Hc.
  2:{ unfold analyzeImageWithOpenAI. cbn. rewrite Hr. cbn. rewrite Hc.
      intros [= <-]. tauto. }
  destruct content as [ | c content ].
  { unfold analyzeImageWithOpenAI. cbn. rewrite Hr. cbn. rewrite Hc.
    intros [= <-]. tauto. }
  rewrite (analyze_reply client create imageBase64 response Hr _ Hc)
    by discriminate.
  destruct (JSON_parse (String c content)) as [ a | e' ];
    [ | intros [= <-]; tauto ].
  destruct a as [ | | | | | members ]; cbn; try (intros [= <-]; tauto).
  destruct (lookup "foodItems" members) as [ [ ] | ]; cbn;
    try discriminate; intros [= <-]; tauto.
Qed.
End Outcomes.

Section BadStart.
Variable client : OpenAI.
Variable create : OpenAI -> string -> completion ChatCompletion.
Variable imageBase64 : string.
Variable response : ChatCompletion.
Hypothesis resolved : create client imageBase64 = Return response.

(** A reply that opens (after white space) with anything but the start
    of a JSON value, a Markdown fence or a sentence for instance, is turned
    down with [Error('Invalid JSON response from OpenAI')]: nothing is
    stripped or repaired. *)
Theorem non_json_start_rejected content c rest :
  first_content response = Some content ->
  skip_ws content = String c rest ->
  starts_json_value c = false ->
  analyzeImageWithOpenAI (Some client) create imageBase64 =
  Throw (Error "Invalid JSON response from OpenAI").
Proof.
  intros Hc Hs Hb.
  assert (Hne : content <> EmptyString) by (intros ->; discriminate Hs).
  rewrite (analyze_reply client create imageBase64 response resolved _ Hc Hne).
  now rewrite (bad_start_not_json content c rest Hs Hb).
Qed.
End BadStart.

(** An instance: nothing configured, so the configuration error. *)
Lemma thrown_kinds_witness :
  analyzeImageWithOpenAI None (Samples.replying None) Samples.image =
    Throw (Error "OPENAI_API_KEY environment variable is required") /\
  ((@None OpenAI = None /\
    Error "OPENAI_API_KEY environment variable is required" =
    Error "OPENAI_API_KEY environment variable is required") \/
   (exists client, None = Some client /\
                   Samples.replying None client Samples.image =
                   Throw (Error "OPENAI_API_KEY environment variable is required")) \/
   Error "OPENAI_API_KEY environment variable is required" =
     Error "No response from OpenAI" \/
   Error "OPENAI_API_KEY environment variable is required" =
     Error "Invalid JSON response from OpenAI" \/
   Error "OPENAI_API_KEY environment variable is required" =
     TypeError "totalCalories" \/
   Error "OPENAI_API_KEY environment variable is required" =
     TypeError "length").
Proof.
  split; [ reflexivity | ].
  exact (thrown_kinds None (Samples.replying None) Samples.image _ eq_refl).
Defined.

(** An instance: the fenced reply. *)
Lemma non_json_start_rejected_witness :
  Samples.replying (Some fenced_reply) Samples.client Samples.image =
    Return {| choices :=
                [ {| message := Some {| content := Some fenced_reply |} |} ] |} /\
  skip_ws fenced_reply =
    String "`" (String "`" (String "`"
      ("json" ++ Json.requote "{'foodItems':[]}" ++ "```"))) /\
  starts_json_value "`" = false /\
  analyzeImageWithOpenAI (Some Samples.client)
    (Samples.replying (Some fenced_reply)) Samples.image =
  Throw (Error "Invalid JSON response from OpenAI").
Proof.
  split; [ reflexivity | split; [ reflexivity | split; [ reflexivity | ] ] ].
  exact (non_json_start_rejected Samples.client
           (Samples.replying (Some fenced_reply)) Samples.image _ eq_refl
           fenced_reply "`"%char _ eq_refl eq_refl eq_refl).
Defined.

End EstimatorOutcomes.

(** ** The daily aggregator: whose rows, which day *)

Module AggregatorScope.
Import Js EcmaDate EcmaDateFacts NutritionJob NutritionJobFacts.
Local Open Scope string_scope.
Local Open Scope Z_scope.

Lemma filter_twice {A : Type} (f g : A -> bool) (l : list A) :
  filter (fun x => f x && g x) (filter f l) = filter (fun x => f x && g x) l.
Proof.
  induction l as [ | x l IH ]; cbn; [ reflexivity | ].
  destruct (f x) eqn:Hf; cbn; [ rewrite Hf; cbn | ]; now rewrite IH.
Qed.

Section Scope.
Variable LocalTZA : Z.

(** The step sees a store only through the rows of the event's user: two
    stores that hold the same rows for that user give the same totals,
    whatever else they hold. *)
Theorem other_users_rows_ignored now logs logs' uid :
  filter (fun log => (user_id log =? uid)%string) logs =
  filter (fun log => (user_id log =? uid)%string) logs' ->
  update_daily_summary LocalTZA now (Rows logs) uid =
  update_daily_summary LocalTZA now (Rows logs') uid.
Proof.
  intros H. rewrite !update_daily_summary_rows. do 2 f_equal.
  set (own := fun log => (user_id log =? uid)%string).
  set (today := fun log => (startOfDay LocalTZA now <=? created_at log)
                           && (created_at log <? endOfDay LocalTZA now)).
  assert (E : forall l,
             filter (fun log => (user_id log =? uid)%string
                                && (startOfDay LocalTZA now <=? created_at log)
                                && (created_at log <? endOfDay LocalTZA now)) l =
             filter (fun log => own log && today log) (filter own l)).
  { intros l. rewrite filter_twice. apply filter_ext. intros log.
    unfold own, today. now rewrite andb_assoc. }
  rewrite !E. fold own in H. now rewrite H.
Qed.

(** The window is built around the clock: it opens at local midnight of
    the current day, is one millisecond short of 24 hours, and holds the
    instant of the run. *)
Theorem clock_within_window now :
  0 <= LocalTime LocalTZA now ->
  startOfDay LocalTZA now <= now <= endOfDay LocalTZA now /\
  endOfDay LocalTZA now - startOfDay LocalTZA now = msPerDay - 1 /\
  Day (LocalTime LocalTZA (startOfDay LocalTZA now)) =
    Day (LocalTime LocalTZA now) /\
  TimeWithinDay (LocalTime LocalTZA (startOfDay LocalTZA now)) = 0.
Proof.
  intros H. rewrite startOfDay_eq, endOfDay_eq by assumption.
  pose proof (Day_TimeWithinDay (LocalTime LocalTZA now)) as Hd.
  pose proof (TimeWithinDay_range (LocalTime LocalTZA now)) as Hr.
  unfold UTC, LocalTime in *.
  replace (Day (now + LocalTZA) * msPerDay - LocalTZA + LocalTZA)
    with (Day (now + LocalTZA) * msPerDay) by lia.
  unfold Day, TimeWithinDay, msPerDay in *.
  repeat split; try lia.
  - rewrite Z.div_mul by lia. reflexivity.
  - apply Z.mod_mul. lia.
Qed.

(** The lower bound is inclusive: a row of the user created at
    00:00:00.000 local time of the current day is fetched. *)
Theorem first_millisecond_fetched now logs uid log todayLogs :
  0 <= LocalTime LocalTZA now ->
  In log logs -> user_id log = uid ->
  LocalTime LocalTZA (created_at log) =
    MakeDate (Day (LocalTime LocalTZA now)) (MakeTime 0 0 0 0) ->
  data (select_logs (Rows logs) uid (startOfDay LocalTZA now)
                    (endOfDay LocalTZA now)) = Some todayLogs ->
  In log todayLogs.
Proof.
  intros H Hin Hu Ht Hd.
  apply (fetched_iff LocalTZA now logs uid log todayLogs H Hd).
  rewrite Ht. change (MakeTime 0 0 0 0) with 0.
  unfold MakeDate, TimeWithinDay. rewrite Z.add_0_r.
  repeat split; try assumption.
  - unfold Day at 1. unfold msPerDay. now rewrite Z.div_mul by lia.
  - unfold msPerDay. rewrite Z.mod_mul by lia. lia.
Qed.

(** No row is counted on two days: the runs that fetch it all read
    clocks of one and the same local day, the day the row was created. *)
Theorem counted_on_one_day_only now now' logs logs' uid log today today' :
  0 <= LocalTime LocalTZA now -> 0 <= LocalTime LocalTZA now' ->
  data (select_logs (Rows logs) uid (startOfDay LocalTZA now)
                    (endOfDay LocalTZA now)) = Some today ->
  data (select_logs (Rows logs') uid (startOfDay LocalTZA now')
                    (endOfDay LocalTZA now')) = Some today' ->
  In log today -> In log today' ->
  Day (LocalTime LocalTZA now) = Day (LocalTime LocalTZA now') /\
  Day (LocalTime LocalTZA now) = Day (LocalTime LocalTZA (created_at log)).
Proof.
  intros H H' Hd Hd' Hin Hin'.
  apply (fetched_iff LocalTZA now logs uid log today H Hd) in Hin.
  apply (fetched_iff LocalTZA now' logs' uid log today' H' Hd') in Hin'.
  destruct Hin as (_ & _ & E & _), Hin' as (_ & _ & E' & _).
  split; congruence.
Qed.
End Scope.

(** An instance: the stranger's breakfast makes no difference to user-1. *)
Lemma other_users_rows_ignored_witness :
  filter (fun log => (user_id log =? "user-1")%string)
         [MoreSamples.strangers_breakfast; Samples.lunch] =
  filter (fun log => (user_id log =? "user-1")%string) [Samples.lunch] /\
  update_daily_summary 0 Samples.noon
    (Rows [MoreSamples.strangers_breakfast; Samples.lunch]) "user-1" =
  update_daily_summary 0 Samples.noon (Rows [Samples.lunch]) "user-1".
Proof.
  assert (H : filter (fun log => (user_id log =? "user-1")%string)
                     [MoreSamples.strangers_breakfast; Samples.lunch] =
              filter (fun log => (user_id log =? "user-1")%string)
                     [Samples.lunch]) by reflexivity.
  split; [ exact H | ].
  exact (other_users_rows_ignored 0 Samples.noon _ _ "user-1" H).
Defined.

(** An instance: noon of 10 March, UTC. *)
Lemma clock_within_window_witness :
  0 <= LocalTime 0 Samples.noon /\
  startOfDay 0 Samples.noon <= Samples.noon <= endOfDay 0 Samples.noon /\
  endOfDay 0 Samples.noon - startOfDay 0 Samples.noon = msPerDay - 1 /\
  Day (LocalTime 0 (startOfDay 0 Samples.noon)) =
    Day (LocalTime 0 Samples.noon) /\
  TimeWithinDay (LocalTime 0 (startOfDay 0 Samples.noon)) = 0.
Proof.
  assert (H : 0 <= LocalTime 0 Samples.noon) by (vm_compute; discriminate).
  split; [ exact H | ].
  exact (clock_within_window 0 Samples.noon H).
Defined.

(** An instance: the midnight snack, seen from noon. *)
Lemma first_millisecond_fetched_witness :
  0 <= LocalTime 0 Samples.noon /\
  In MoreSamples.midnight_snack [MoreSamples.midnight_snack; Samples.lunch] /\
  user_id MoreSamples.midnight_snack = "user-1" /\
  LocalTime 0 (created_at MoreSamples.midnight_snack) =
    MakeDate (Day (LocalTime 0 Samples.noon)) (MakeTime 0 0 0 0) /\
  data (select_logs (Rows [MoreSamples.midnight_snack; Samples.lunch]) "user-1"
                    (startOfDay 0 Samples.noon) (endOfDay 0 Samples.noon)) =
    Some [MoreSamples.midnight_snack; Samples.lunch] /\
  In MoreSamples.midnight_snack [MoreSamples.midnight_snack; Samples.lunch].
Proof.
  assert (H : 0 <= LocalTime 0 Samples.noon) by (vm_compute; discriminate).
  assert (Hin : In MoreSamples.midnight_snack
                   [MoreSamples.midnight_snack; Samples.lunch])
    by (left; reflexivity).
  assert (Ht : LocalTime 0 (created_at MoreSamples.midnight_snack) =
               MakeDate (Day (LocalTime 0 Samples.noon)) (MakeTime 0 0 0 0))
    by (vm_compute; reflexivity).
  assert (Hd : data (select_logs
                       (Rows [MoreSamples.midnight_snack; Samples.lunch])
                       "user-1" (startOfDay 0 Samples.noon)
                       (endOfDay 0 Samples.noon)) =
               Some [MoreSamples.midnight_snack; Samples.lunch])
    by (vm_compute; reflexivity).
  split; [ exact H | split; [ exact Hin | split; [ reflexivity | ] ] ].
  split; [ exact Ht | split; [ exact Hd | ] ].
  exact (first_millisecond_fetched 0 Samples.noon _ "user-1" _ _ H Hin eq_refl
           Ht Hd).
Defined.

(** An instance: lunch, fetched at noon and again at nine in the evening. *)
Lemma counted_on_one_day_only_witness :
  0 <= LocalTime 0 Samples.noon /\ 0 <= LocalTime 0 Samples.nine_pm /\
  data (select_logs (Rows [Samples.lunch]) "user-1"
                    (startOfDay 0 Samples.noon) (endOfDay 0 Samples.noon)) =
    Some [Samples.lunch] /\
  data (select_logs (Rows [Samples.lunch]) "user-1"
                    (startOfDay 0 Samples.nine_pm)
                    (endOfDay 0 Samples.nine_pm)) = Some [Samples.lunch] /\
  In Samples.lunch [Samples.lunch] /\
  Day (LocalTime 0 Samples.noon) = Day (LocalTime 0 Samples.nine_pm) /\
  Day (LocalTime 0 Samples.noon) =
    Day (LocalTime 0 (created_at Samples.lunch)).
Proof.
  assert (H : 0 <= LocalTime 0 Samples.noon) by (vm_compute; discriminate).
  assert (H' : 0 <= LocalTime 0 Samples.nine_pm) by (vm_compute; discriminate).
  assert (Hd : data (select_logs (Rows [Samples.lunch]) "user-1"
                       (startOfDay 0 Samples.noon) (endOfDay 0 Samples.noon)) =
               Some [Samples.lunch]) by (vm_compute; reflexivity).
  assert (Hd' : data (select_logs (Rows [Samples.lunch]) "user-1"
                        (startOfDay 0 Samples.nine_pm)
                        (endOfDay 0 Samples.nine_pm)) = Some [Samples.lunch])
    by (vm_compute; reflexivity).
  assert (Hin : In Samples.lunch [Samples.lunch]) by (left; reflexivity).
  split; [ exact H | split; [ exact H' | split; [ exact Hd | ] ] ].
  split; [ exact Hd' | split; [ exact Hin | ] ].
  exact (counted_on_one_day_only 0 _ _ _ _ "user-1" _ _ _ H H' Hd Hd' Hin Hin).
Defined.

End AggregatorScope.

(** ** The date logged with the daily summary *)

Module IsoDateFacts.
Import EcmaDate EcmaDateFacts IsoDate NutritionJob NutritionJobFacts.
Local Open Scope string_scope.
Local Open Scope Z_scope.

Example iso_of_sample_instant :
  toISOString (Samples.march_10 23 59 59 999) = "2024-03-10T23:59:59.999Z" /\
  toISOString 0 = "1970-01-01T00:00:00.000Z" /\
  toISOString (-1) = "1969-12-31T23:59:59.999Z" /\
  toISOString (TimeFromYear 10000) = "+010000-01-01T00:00:00.000Z".
Proof. vm_compute. repeat split; reflexivity. Qed.

Lemma digit_char_not_T k :
  0 <= k <= 9 -> (digit_char k =? "T")%char = false.
Proof.
  intros H.
  assert (E : k = 0 \/ k = 1 \/ k = 2 \/ k = 3 \/ k = 4 \/ k = 5 \/ k = 6 \/
              k = 7 \/ k = 8 \/ k = 9) by lia.
  repeat destruct E as [ -> | E ]; try subst k; reflexivity.
Qed.

Lemma before_T_pad w : forall n tail,
  before_T (pad w n tail) = pad w n (before_T tail).
Proof.
  induction w as [ | w IH ]; intros n tail; cbn [pad]; [ reflexivity | ].
  rewrite IH. cbn [before_T].
  rewrite digit_char_not_T; [ reflexivity | ].
  Z.div_mod_to_equations. lia.
Qed.

(** The text before the ['T'] is the UTC calendar date. *)
Lemma before_T_toISOString t :
  0 <= YearFromTime t <= 9999 ->
  before_T (toISOString t) =
  date_text (YearFromTime t) (MonthFromTime t) (DateFromTime t).
Proof.
  intros Hy. unfold toISOString, year_text, date_text.
  replace ((0 <=? YearFromTime t) && (YearFromTime t <=? 9999)) with true
    by (symmetry; apply andb_true_iff; split; apply Z.leb_le; lia).
  rewrite before_T_pad. cbn [before_T]. cbn [Ascii.eqb Bool.eqb].
  rewrite before_T_pad. cbn [before_T]. cbn [Ascii.eqb Bool.eqb].
  rewrite before_T_pad. reflexivity.
Qed.

(** The year is decided by the bracket of year starts around [t]. *)
Lemma YearFromTime_unique t y :
  TimeFromYear y <= t < TimeFromYear (y + 1) -> YearFromTime t = y.
Proof.
  intros [ Hlo Hhi ].
  pose proof (YearFromTime_largest t y Hlo) as H1.
  destruct (YearFromTime_spec t) as [ Hlo' _ ].
  destruct (Z_le_gt_dec (YearFromTime t) y) as [ Hle | Hgt ]; [ lia | ].
  exfalso.
  assert (H := DayFromYear_mono (y + 1) (YearFromTime t) ltac:(lia)).
  unfold TimeFromYear, msPerDay in *. lia.
Qed.

(** The calendar fields of a time value are those of its day. *)
Lemma fields_of_day t t' :
  Day t = Day t' ->
  YearFromTime t = YearFromTime t' /\
  MonthFromTime t = MonthFromTime t' /\
  DateFromTime t = DateFromTime t'.
Proof.
  intros Hd.
  assert (Hy : YearFromTime t = YearFromTime t').
  { apply YearFromTime_unique.
    destruct (YearFromTime_spec t') as [ Hlo Hhi ].
    unfold TimeFromYear, Day, msPerDay in *.
    Z.div_mod_to_equations. lia. }
  unfold DateFromTime, MonthFromTime, InLeapYear, DayWithinYear.
  rewrite Hy, Hd. auto.
Qed.

Section Logged.
Variable LocalTZA : Z.

(** The instants whose UTC day is the local day of [now], or the day
    before, lie in four-digit years when [now] does. *)
Lemma four_digit_year now t :
  0 <= LocalTime LocalTZA now < TimeFromYear 9999 ->
  Day (LocalTime LocalTZA now) - 1 <= Day t <= Day (LocalTime LocalTZA now) ->
  0 <= YearFromTime t <= 9999.
Proof.
  intros [ Hlo Hhi ] Hd.
  assert (H1 : TimeFromYear 1969 <= t).
  { change (TimeFromYear 1969) with (- 31536000000).
    unfold Day, msPerDay in *. Z.div_mod_to_equations. lia. }
  assert (H2 : t < TimeFromYear 10000).
  { change (TimeFromYear 9999) with 253370764800000 in Hhi.
    change (TimeFromYear 10000) with 253402300800000.
    unfold Day, msPerDay in *. Z.div_mod_to_equations. lia. }
  pose proof (YearFromTime_largest t 1969 H1) as Hy.
  destruct (YearFromTime_spec t) as [ Hs _ ].
  destruct (Z_le_gt_dec 10000 (YearFromTime t)) as [ Hge | ]; [ | lia ].
  exfalso.
  assert (Hm := DayFromYear_mono 10000 (YearFromTime t) Hge).
  unfold TimeFromYear, msPerDay in *. lia.
Qed.

(** At or west of Greenwich (offset in (-24h, 0]) the date logged with
    the summary is the local date of the run. *)
Theorem logged_date_west now :
  0 <= LocalTime LocalTZA now < TimeFromYear 9999 ->
  - msPerDay < LocalTZA <= 0 ->
  summary_date LocalTZA now =
  date_text (getFullYear LocalTZA now) (getMonth LocalTZA now)
            (getDate LocalTZA now).
Proof.
  intros Hn Hz. unfold summary_date.
  rewrite startOfDay_eq by lia.
  assert (Hd : Day (UTC LocalTZA (Day (LocalTime LocalTZA now) * msPerDay)) =
               Day (LocalTime LocalTZA now)).
  { unfold UTC. generalize (Day (LocalTime LocalTZA now)). intros d.
    unfold Day, msPerDay in *. Z.div_mod_to_equations. lia. }
  rewrite before_T_toISOString
    by (apply (four_digit_year now); [ assumption | lia ]).
  destruct (fields_of_day _ _ Hd) as (-> & -> & ->). reflexivity.
Qed.

(** East of Greenwich (offset in (0, 24h]) it is the date of the day
    before: local midnight is still yesterday in UTC. *)
Theorem logged_date_east now :
  0 <= LocalTime LocalTZA now < TimeFromYear 9999 ->
  0 < LocalTZA <= msPerDay ->
  summary_date LocalTZA now =
  date_text (YearFromTime (LocalTime LocalTZA now - msPerDay))
            (MonthFromTime (LocalTime LocalTZA now - msPerDay))
            (DateFromTime (LocalTime LocalTZA now - msPerDay)).
Proof.
  intros Hn Hz. unfold summary_date.
  rewrite startOfDay_eq by lia.
  assert (Hd : Day (UTC LocalTZA (Day (LocalTime LocalTZA now) * msPerDay)) =
               Day (LocalTime LocalTZA now - msPerDay)).
  { unfold UTC. generalize (LocalTime LocalTZA now). intros l.
    unfold Day, msPerDay in *. Z.div_mod_to_equations. lia. }
  assert (Hd' : Day (LocalTime LocalTZA now - msPerDay) =
                Day (LocalTime LocalTZA now) - 1).
  { generalize (LocalTime LocalTZA now). intros l.
    unfold Day, msPerDay. Z.div_mod_to_equations. lia. }
  rewrite before_T_toISOString
    by (apply (four_digit_year now); [ assumption | lia ]).
  destruct (fields_of_day _ _ Hd) as (-> & -> & ->). reflexivity.
Qed.
End Logged.

(** An instance: New York in winter, five hours west; noon local time on
    10 March 2024 is logged as 2024-03-10. *)
Lemma logged_date_west_witness :
  0 <= LocalTime (-5 * msPerHour) (UTC (-5 * msPerHour) Samples.noon)
    < TimeFromYear 9999 /\
  - msPerDay < -5 * msPerHour <= 0 /\
  summary_date (-5 * msPerHour) (UTC (-5 * msPerHour) Samples.noon) =
    "2024-03-10" /\
  date_text (getFullYear (-5 * msPerHour) (UTC (-5 * msPerHour) Samples.noon))
            (getMonth (-5 * msPerHour) (UTC (-5 * msPerHour) Samples.noon))
            (getDate (-5 * msPerHour) (UTC (-5 * msPerHour) Samples.noon)) =
    "2024-03-10".
Proof.
  assert (H1 : 0 <= LocalTime (-5 * msPerHour) (UTC (-5 * msPerHour) Samples.noon)
               < TimeFromYear 9999) by (vm_compute; split; congruence).
  assert (H2 : - msPerDay < -5 * msPerHour <= 0)
    by (vm_compute; split; congruence).
  split; [ exact H1 | split; [ exact H2 | ] ].
  split; [ | vm_compute; reflexivity ].
  rewrite (logged_date_west (-5 * msPerHour)
             (UTC (-5 * msPerHour) Samples.noon) H1 H2).
  vm_compute. reflexivity.
Defined.

(** An instance: Berlin in winter, one hour east; noon local time on
    10 March 2024 is logged as 2024-03-09. *)
Lemma logged_date_east_witness :
  0 <= LocalTime msPerHour (UTC msPerHour Samples.noon) < TimeFromYear 9999 /\
  0 < msPerHour <= msPerDay /\
  summary_date msPerHour (UTC msPerHour Samples.noon) = "2024-03-09" /\
  date_text (getFullYear msPerHour (UTC msPerHour Samples.noon))
            (getMonth msPerHour (UTC msPerHour Samples.noon))
            (getDate msPerHour (UTC msPerHour Samples.noon)) = "2024-03-10".
Proof.
  assert (H1 : 0 <= LocalTime msPerHour (UTC msPerHour Samples.noon)
               < TimeFromYear 9999) by (vm_compute; split; congruence).
  assert (H2 : 0 < msPerHour <= msPerDay) by (vm_compute; split; congruence).
  split; [ exact H1 | split; [ exact H2 | ] ].
  split; [ | vm_compute; reflexivity ].
  rewrite (logged_date_east msPerHour (UTC msPerHour Samples.noon) H1 H2).
  vm_compute. reflexivity.
Defined.

End IsoDateFacts.

(** ** Retry with a template fallback *)

Module RecommendationsFacts.
Import Js Recommendations.
Local Open Scope string_scope.
Local Open Scope list_scope.
Local Open Scope Z_scope.

Lemma template_app_general entries key :
  template key (entries ++ [("general", general)]) =
  if ("general" =? key)%string then Some general else template key entries.
Proof.
  induction entries as [ | [ k v ] entries IH ]; cbn [app template].
  - destruct ("general" =? key)%string; reflexivity.
  - rewrite IH. destruct ("general" =? key)%string; reflexivity.
Qed.

Lemma slept_app tr tr' : slept (tr ++ tr') = slept tr + slept tr'.
Proof.
  induction tr as [ | [ a | a e | ms ] tr IH ]; cbn [app slept]; lia.
Qed.

Lemma calls_app tr tr' : calls (tr ++ tr') = calls tr + calls tr'.
Proof.
  induction tr as [ | [ a | a e | ms ] tr IH ]; cbn [app calls]; lia.
Qed.

Lemma slept_failed_attempts errors : forall attempt,
  2 * slept (failed_attempts attempt errors) =
  1000 * Z.of_nat (List.length errors)
  * (2 * attempt + Z.of_nat (List.length errors) - 1).
Proof.
  induction errors as [ | e errors IH ]; intros attempt;
    cbn [failed_attempts List.length app slept]; [ lia | ].
  specialize (IH (attempt + 1)). nia.
Qed.

Lemma calls_failed_attempts errors : forall attempt,
  calls (failed_attempts attempt errors) = Z.of_nat (List.length errors).
Proof.
  induction errors as [ | e errors IH ]; intros attempt;
    cbn [failed_attempts List.length app calls]; [ reflexivity | ].
  rewrite IH. lia.
Qed.

Section Retry.
Variable R : Type.
Variable goal_templates : list (string * string).
Variable generate : UserHealthData -> Z -> completion R.
Variable userData : UserHealthData.
Variable maxRetries : Z.

(** A failed attempt that is not the last one leaves its three marks and
    hands over to the next. *)
Lemma attempts_fail remaining attempt e tr :
  attempt < maxRetries -> generate userData attempt = Throw e ->
  attempts R goal_templates generate userData maxRetries (S remaining) attempt tr =
  attempts R goal_templates generate userData maxRetries remaining (attempt + 1)
           (tr ++ [Called attempt; ConsoleError attempt e;
                   Slept (1000 * attempt)]).
Proof.
  intros Hlt Hf. cbn [Recommendations.attempts].
  replace (attempt <=? maxRetries) with true by (symmetry; apply Z.leb_le; lia).
  unfold Eff.try_catch, Eff.bind, Eff.emit, Eff.await. rewrite Hf.
  replace (attempt =? maxRetries) with false by (symmetry; apply Z.eqb_neq; lia).
  rewrite <- !app_assoc. reflexivity.
Qed.

(** A run of failures, none of them on the last permitted attempt. *)
Lemma attempts_failures errors : forall remaining attempt tr,
  (forall i e, nth_error errors i = Some e ->
               generate userData (attempt + Z.of_nat i) = Throw e) ->
  attempt + Z.of_nat (List.length errors) <= maxRetries ->
  attempts R goal_templates generate userData maxRetries (List.length errors + remaining) attempt tr =
  attempts R goal_templates generate userData maxRetries remaining (attempt + Z.of_nat (List.length errors))
           (tr ++ failed_attempts attempt errors).
Proof.
  induction errors as [ | e errors IH ]; intros remaining attempt tr Hf Hle.
  - cbn [List.length failed_attempts plus]. now rewrite Z.add_0_r, app_nil_r.
  - cbn [List.length plus] in *.
    rewrite (attempts_fail _ attempt e);
      [ | lia | rewrite <- (Z.add_0_r attempt); exact (Hf 0%nat e eq_refl) ].
    rewrite IH.
    + replace (attempt + Z.of_nat (S (List.length errors)))
        with (attempt + 1 + Z.of_nat (List.length errors)) by lia.
      cbn [failed_attempts]. rewrite <- app_assoc. reflexivity.
    + intros i e' Hi. replace (attempt + 1 + Z.of_nat i)
        with (attempt + Z.of_nat (S i)) by lia. now apply Hf.
    + lia.
Qed.

(** The first attempt that succeeds decides: after [k] failures (with
    [k < maxRetries]) the call of attempt [k + 1] returns [r]; the function
    resolves to [r], has called the generator [k + 1] times and has slept
    1000 ms after the first failure, 2000 after the second, and so on, 500
    k (k + 1) ms in all. *)
Theorem first_success_returned errors r :
  (forall i e, nth_error errors i = Some e ->
               generate userData (1 + Z.of_nat i) = Throw e) ->
  1 + Z.of_nat (List.length errors) <= maxRetries ->
  generate userData (1 + Z.of_nat (List.length errors)) = Return r ->
  Eff.run (generateRecommendationWithRetry R goal_templates generate
                                           userData maxRetries)
  = (Return (Generated r),
     failed_attempts 1 errors ++ [Called (1 + Z.of_nat (List.length errors))])
  /\ calls (failed_attempts 1 errors
            ++ [Called (1 + Z.of_nat (List.length errors))])
     = 1 + Z.of_nat (List.length errors)
  /\ slept (failed_attempts 1 errors
            ++ [Called (1 + Z.of_nat (List.length errors))])
     = 500 * Z.of_nat (List.length errors)
       * (Z.of_nat (List.length errors) + 1).
Proof.
  intros Hf Hle Hr. split; [ | split ].
  - unfold Eff.run, generateRecommendationWithRetry.
    replace (Z.to_nat maxRetries)
      with (List.length errors
            + S (Z.to_nat (maxRetries - Z.of_nat (List.length errors) - 1)))%nat
      by lia.
    rewrite attempts_failures by (assumption || lia).
    cbn [Recommendations.attempts app].
    replace (1 + Z.of_nat (List.length errors) <=? maxRetries) with true
      by (symmetry; apply Z.leb_le; lia).
    unfold Eff.try_catch, Eff.bind, Eff.emit, Eff.await, Eff.ret.
    rewrite Hr. reflexivity.
  - rewrite calls_app, calls_failed_attempts. cbn [calls]. lia.
  - rewrite slept_app. cbn [slept]. rewrite Z.add_0_r.
    pose proof (slept_failed_attempts errors 1) as Hs. nia.
Qed.

(** When every permitted attempt fails, the function does not throw: it
    resolves to the template recommendation, after [maxRetries] calls and
    no pause after the last; it has slept 500 maxRetries (maxRetries - 1) ms. *)
Theorem all_failed_falls_back errors e :
  (forall i e', nth_error errors i = Some e' ->
                generate userData (1 + Z.of_nat i) = Throw e') ->
  1 + Z.of_nat (List.length errors) = maxRetries ->
  generate userData maxRetries = Throw e ->
  Eff.run (generateRecommendationWithRetry R goal_templates generate
                                           userData maxRetries)
  = (Return (Template (generateFallbackRecommendation goal_templates
                                                      userData)),
     failed_attempts 1 errors
     ++ [Called maxRetries; ConsoleError maxRetries e])
  /\ calls (failed_attempts 1 errors
            ++ [Called maxRetries; ConsoleError maxRetries e]) = maxRetries
  /\ slept (failed_attempts 1 errors
            ++ [Called maxRetries; ConsoleError maxRetries e])
     = 500 * maxRetries * (maxRetries - 1).
Proof.
  intros Hf Hle Hr. split; [ | split ].
  - unfold Eff.run, generateRecommendationWithRetry.
    replace (Z.to_nat maxRetries) with (List.length errors + 1)%nat by lia.
    rewrite attempts_failures by (assumption || lia).
    cbn [Recommendations.attempts app].
    rewrite Hle, Z.leb_refl, Z.eqb_refl.
    unfold Eff.try_catch, Eff.bind, Eff.emit, Eff.await, Eff.ret.
    rewrite Hr. rewrite <- app_assoc. reflexivity.
  - rewrite calls_app, calls_failed_attempts. cbn [calls]. lia.
  - rewrite slept_app. cbn [slept]. rewrite Z.add_0_r.
    pose proof (slept_failed_attempts errors 1) as Hs. nia.
Qed.

(** The loop from any turn on: it returns, and what it adds to the trace
    is bounded by the turns that are left. *)
Lemma attempts_bounded remaining : forall attempt tr,
  1 <= attempt ->
  attempt + Z.of_nat remaining = maxRetries + 1 ->
  exists v tr',
    attempts R goal_templates generate userData maxRetries remaining attempt tr
    = (Return v, tr ++ tr') /\
    (v = Undefined -> remaining = 0%nat) /\
    0 <= calls tr' <= Z.of_nat remaining /\
    0 <= slept tr' /\
    (remaining = 0%nat -> slept tr' = 0) /\
    (remaining <> 0%nat ->
     2 * slept tr' <=
     1000 * (maxRetries * (maxRetries - 1) - attempt * (attempt - 1))).
Proof.
  induction remaining as [ | remaining IH ]; intros attempt tr Ha Hm.
  - exists Undefined, []. cbn [Recommendations.attempts Eff.ret calls slept].
    rewrite app_nil_r. repeat split; lia.
  - cbn [Recommendations.attempts].
    replace (attempt <=? maxRetries) with true
      by (symmetry; apply Z.leb_le; lia).
    unfold Eff.try_catch, Eff.bind, Eff.emit, Eff.await, Eff.ret.
    destruct (generate userData attempt) as [ r | e ].
    + exists (Generated r), [Called attempt]. cbn [calls slept].
      repeat split; try lia; try discriminate; try (intros _; nia).
    + destruct (attempt =? maxRetries) eqn:E.
      * apply Z.eqb_eq in E.
        eexists (Template _), [Called attempt; ConsoleError attempt e].
        rewrite <- app_assoc. cbn [calls slept app].
        repeat split; try lia; try discriminate; try (intros _; nia).
      * apply Z.eqb_neq in E.
        destruct (IH (attempt + 1)
                     (((tr ++ [Called attempt]) ++ [ConsoleError attempt e])
                        ++ [Slept (1000 * attempt)]) ltac:(lia) ltac:(lia))
          as (v & tr' & Heq & Hu & Hc & Hs0 & _ & Hs).
        exists v, ([Called attempt; ConsoleError attempt e;
                    Slept (1000 * attempt)] ++ tr').
        rewrite Heq. rewrite <- !app_assoc. cbn [app calls slept].
        assert (Hr : remaining <> 0%nat) by lia. specialize (Hs Hr).
        repeat split; try lia; try (intros _; nia).
        intros Hv. specialize (Hu Hv). lia.
Qed.

(** Whatever the generator does, the function never rejects: it resolves,
    after at most [maxRetries] calls of the generator and at most
    500 maxRetries (maxRetries - 1) ms of pauses; and it resolves to
    [undefined] exactly when [maxRetries] is below 1. *)
Theorem retry_never_rejects :
  exists v trace,
    Eff.run (generateRecommendationWithRetry R goal_templates generate
                                             userData maxRetries)
    = (Return v, trace) /\
    (v = Undefined <-> maxRetries <= 0) /\
    0 <= calls trace <= Z.max 0 maxRetries /\
    0 <= slept trace <= 500 * (maxRetries * (maxRetries - 1)).
Proof.
  unfold Eff.run, generateRecommendationWithRetry.
  destruct (Z.leb_spec maxRetries 0) as [ Hle | Hgt ].
  - replace (Z.to_nat maxRetries) with 0%nat by lia.
    exists Undefined, []. cbn [Recommendations.attempts Eff.ret calls slept].
    repeat split; try lia; try nia.
  - destruct (attempts_bounded (Z.to_nat maxRetries) 1 [] ltac:(lia) ltac:(lia))
      as (v & tr' & Heq & Hu & Hc & Hs0 & _ & Hs).
    exists v, tr'. rewrite Heq. cbn [app].
    assert (Hr : Z.to_nat maxRetries <> 0%nat) by lia. specialize (Hs Hr).
    repeat split; try lia; try nia.
    intros Hv. specialize (Hu Hv). lia.
Qed.
End Retry.

(** The message of the template recommendation, case by case: for the
    goal 'general', the general advice; for another goal with a non-empty
    entry in the table, that entry (the last of that name); for a goal
    whose entry is the empty string, the general advice; for a goal
    without entry, the member of [Object.prototype] of that name when
    there is one, and the general advice otherwise.  So the message is
    never the empty string.  Confidence is 0.5, source 'template', type
    'fallback'. *)
Theorem fallback_message_never_empty goal_templates userData :
  message (generateFallbackRecommendation goal_templates userData)
  = (if ("general" =? primaryGoal userData)%string then Text general
     else match template (primaryGoal userData) goal_templates with
          | Some (String c s) => Text (String c s)
          | Some EmptyString => Text general
          | None =>
              if inherited (primaryGoal userData)
              then Inherited (primaryGoal userData)
              else Text general
          end) /\
  message (generateFallbackRecommendation goal_templates userData)
  <> Text EmptyString /\
  confidence (generateFallbackRecommendation goal_templates userData)
  = 0.5%float /\
  source (generateFallbackRecommendation goal_templates userData)
  = "template" /\
  type (generateFallbackRecommendation goal_templates userData) = "fallback".
Proof.
  unfold generateFallbackRecommendation, templates_general, templates.
  cbn [message confidence source type].
  rewrite !template_app_general, String.eqb_refl.
  assert (Ht : string_truthy general = true) by reflexivity.
  assert (Hg : Text general <> Text EmptyString) by (vm_compute; discriminate).
  split; [ | split; [ | repeat split ] ].
  - destruct ("general" =? primaryGoal userData)%string.
    + now rewrite Ht.
    + destruct (template (primaryGoal userData) goal_templates)
        as [ [ | c s ] | ]; reflexivity.
  - destruct ("general" =? primaryGoal userData)%string.
    + now rewrite Ht.
    + destruct (template (primaryGoal userData) goal_templates)
        as [ [ | c s ] | ]; cbn [string_truthy].
      * exact Hg.
      * discriminate.
      * destruct (inherited (primaryGoal userData));
          [ discriminate | exact Hg ].
Qed.


(** An instance: two timeouts, then an answer, with three attempts allowed. *)
Lemma first_success_returned_witness :
  (forall i e, nth_error [RuleSamples.timed_out; RuleSamples.timed_out] i
               = Some e ->
               RuleSamples.flaky RuleSamples.user (1 + Z.of_nat i) = Throw e) /\
  1 + 2 <= 3 /\
  RuleSamples.flaky RuleSamples.user (1 + 2)
  = Return "Add a 20 minute walk after lunch." /\
  Eff.run (generateRecommendationWithRetry string RuleSamples.table
             RuleSamples.flaky RuleSamples.user 3)
  = (Return (Generated "Add a 20 minute walk after lunch."),
     [ Called 1; ConsoleError 1 RuleSamples.timed_out; Slept 1000;
       Called 2; ConsoleError 2 RuleSamples.timed_out; Slept 2000;
       Called 3 ]).
Proof.
  assert (H : forall i e,
             nth_error [RuleSamples.timed_out; RuleSamples.timed_out] i
             = Some e ->
             RuleSamples.flaky RuleSamples.user (1 + Z.of_nat i) = Throw e).
  { intros [ | [ | [ | i ] ] ] e E; cbn in E; inversion E; reflexivity. }
  split; [ exact H | ]. split; [ lia | ]. split; [ reflexivity | ].
  exact (proj1 (first_success_returned string RuleSamples.table
                  RuleSamples.flaky RuleSamples.user 3
                  [RuleSamples.timed_out; RuleSamples.timed_out]
                  "Add a 20 minute walk after lunch."
                  H ltac:(cbn; lia) eq_refl)).
Defined.

(** An instance: the generator is down, with three attempts allowed. *)
Lemma all_failed_falls_back_witness :
  (forall i e, nth_error [RuleSamples.timed_out; RuleSamples.timed_out] i
               = Some e ->
               RuleSamples.down RuleSamples.user (1 + Z.of_nat i) = Throw e) /\
  1 + 2 = 3 /\
  RuleSamples.down RuleSamples.user 3 = Throw RuleSamples.timed_out /\
  Eff.run (generateRecommendationWithRetry string RuleSamples.table
             RuleSamples.down RuleSamples.user 3)
  = (Return (Template
               {| type := "fallback";
                  message := Text "Swap one sugary drink for water today.";
                  confidence := 0.5%float;
                  source := "template" |}),
     [ Called 1; ConsoleError 1 RuleSamples.timed_out; Slept 1000;
       Called 2; ConsoleError 2 RuleSamples.timed_out; Slept 2000;
       Called 3; ConsoleError 3 RuleSamples.timed_out ]).
Proof.
  assert (H : forall i e,
             nth_error [RuleSamples.timed_out; RuleSamples.timed_out] i
             = Some e ->
             RuleSamples.down RuleSamples.user (1 + Z.of_nat i) = Throw e).
  { intros [ | [ | [ | i ] ] ] e E; cbn in E; inversion E; reflexivity. }
  split; [ exact H | ]. split; [ lia | ]. split; [ reflexivity | ].
  exact (proj1 (all_failed_falls_back string RuleSamples.table
                  RuleSamples.down RuleSamples.user 3
                  [RuleSamples.timed_out; RuleSamples.timed_out]
                  RuleSamples.timed_out
                  H ltac:(cbn; lia) eq_refl)).
Defined.

(** The entry of the goal is used when there is one. *)
Example fallback_for_goal_weight_loss :
  message (generateFallbackRecommendation RuleSamples.table RuleSamples.user)
  = Text "Swap one sugary drink for water today.".
Proof. reflexivity. Qed.

(** A goal named like a member of [Object.prototype] gets that member,
    not a text. *)
Example fallback_for_goal_toString :
  message (generateFallbackRecommendation RuleSamples.table
             {| primaryGoal := "toString" |})
  = Inherited "toString".
Proof. reflexivity. Qed.

End RecommendationsFacts.
(** ** Logging of AI operations *)

Module AiLogFacts.
Import Js AiLog.
Local Open Scope string_scope.
Local Open Scope Z_scope.

(** A text of ASCII characters has as many code units as bytes. *)
Lemma utf16_length_ascii s :
  Forall (fun byte => (nat_of_ascii byte < 128)%nat) (list_ascii_of_string s) ->
  utf16_length s = String.length s.
Proof.
  induction s as [ | byte rest IH ]; cbn [list_ascii_of_string]; intros H.
  - reflexivity.
  - inversion H as [ | ? ? Hb Hr ]; subst.
    cbn [utf16_length String.length]. rewrite (IH Hr).
    unfold utf16_units. apply Nat.ltb_lt in Hb. now rewrite Hb.
Qed.

(** The JSON text of the string 'e acute' (bytes C3 A9 between quotes)
    has length 3, and that of a character above U+FFFF (bytes F0 9F 8D 8E)
    has length 4. *)
Example utf16_length_samples :
  utf16_length (String "034" (String "195" (String "169"
                 (String "034" EmptyString)))) = 3%nat /\
  utf16_length (String "034" (String "240" (String "159" (String "141"
                 (String "142" (String "034" EmptyString)))))) = 4%nat.
Proof. split; reflexivity. Qed.

Section Log.
Variable insert : row -> completion (option thrown).
Variable now_iso : string.

(** Logging never rejects, whatever is logged and whatever the store does:
    failures end on the console.  The store is written to at most once,
    and only when both values have a JSON text, with the lengths of the
    two texts, in UTF-16 code units, as sizes; nothing is written for a
    value without a JSON text ([undefined], a function, a cycle).  The
    console stays silent exactly when the row was inserted without an
    error. *)
Theorem logging_never_rejects operation input output success duration :
  exists trace,
    Eff.run (logAIOperation insert now_iso operation input output
                            success duration) = (Return tt, trace) /\
    inserts trace =
      match input, output with
      | Return (Some i), Return (Some o) =>
          [ {| operation := operation;
               input_size := Z.of_nat (utf16_length i);
               output_size := Z.of_nat (utf16_length o);
               success := success;
               duration_ms := duration;
               created_at := now_iso |} ]
      | _, _ => []
      end /\
    (List.length (console_errors trace) <= 1)%nat /\
    (console_errors trace = [] <->
     exists r, inserts trace = [r] /\ insert r = Return None).
Proof.
  unfold logAIOperation, Eff.run, Eff.try_catch, Eff.bind, Eff.emit,
    Eff.await, Eff.ret.
  destruct input as [ [ i | ] | ei ]; cbn [stringified_length];
    [ destruct output as [ [ o | ] | eo ]; cbn [stringified_length] | | ].
  1: { set (r0 := {| operation := operation;
                     input_size := Z.of_nat (utf16_length i) |}).
       destruct (insert r0) as [ [ e | ] | e ] eqn:E;
         eexists; (split; [ reflexivity | ]);
         cbn [app inserts console_errors List.length];
         (split; [ reflexivity | ]); (split; [ lia | ]).
       - split; [ discriminate | ].
         intros (r & Hr & Hi).
         apply (f_equal (fun l => hd r0 l)) in Hr. cbn [hd] in Hr.
         rewrite <- Hr, E in Hi. discriminate Hi.
       - split; [ | reflexivity ].
         intros _. exists r0. split; [ reflexivity | exact E ].
       - split; [ discriminate | ].
         intros (r & Hr & Hi).
         apply (f_equal (fun l => hd r0 l)) in Hr. cbn [hd] in Hr.
         rewrite <- Hr, E in Hi. discriminate Hi. }
  all: eexists; (split; [ reflexivity | ]);
    cbn [app inserts console_errors List.length];
    (split; [ reflexivity | ]); (split; [ lia | ]);
    (split; [ discriminate | intros (r & Hr & _); discriminate Hr ]).
Qed.
End Log.

End AiLogFacts.

(** ** The weight-log API route *)

Module WeightRouteFacts.
Import Js WeightRoute.
Local Open Scope string_scope.
Local Open Scope Z_scope.

Lemma lookup_app_last key k v (ms : members) :
  Json.lookup key (ms ++ [(k, v)]) =
  if (k =? key)%string then Some v else Json.lookup key ms.
Proof.
  induction ms as [ | [ k' v' ] ms IH ]; cbn [app Json.lookup].
  - destruct (k =? key)%string; reflexivity.
  - rewrite IH. destruct (k =? key)%string; reflexivity.
Qed.

(** The row that is inserted is in the name of the given user, whatever
    the validated data say about [user_id]; its other fields are those of
    the validated data. *)
Lemma with_user_id_fields validatedData uid :
  Json.lookup "user_id" (with_user_id validatedData uid)
  = Some (Json.Str uid) /\
  forall key, key <> "user_id" ->
    Json.lookup key (with_user_id validatedData uid)
    = Json.lookup key validatedData.
Proof.
  unfold with_user_id. split.
  - now rewrite lookup_app_last, String.eqb_refl.
  - intros key Hk. rewrite lookup_app_last.
    destruct (String.eqb_spec "user_id" key) as [ E | _ ];
      [ now elim Hk | reflexivity ].
Qed.

Section Route.
Variable createClient : completion unit.
Variable getUser : completion (option User).
Variable request_json : completion Json.value.
Variable WeightLogSchema_parse : Json.value -> completion members.
Variable insert : members -> completion insert_result.

(** The route as a table: what it answers and what it has done, by the
    outcome of each call in turn. *)
Lemma POST_cases :
  Eff.run (POST createClient getUser request_json WeightLogSchema_parse insert)
  = match createClient with
    | Throw _ =>
        (Return {| status := 500; body := ErrorBody "Internal server error" |},
         [])
    | Return _ =>
        match getUser with
        | Throw _ =>
            (Return {| status := 500;
                       body := ErrorBody "Internal server error" |}, [])
        | Return None =>
            (Return {| status := 401; body := ErrorBody "Unauthorized" |}, [])
        | Return (Some user) =>
            match request_json with
            | Throw _ =>
                (Return {| status := 500;
                           body := ErrorBody "Internal server error" |},
                 [BodyRead])
            | Return b =>
                match WeightLogSchema_parse b with
                | Throw _ =>
                    (Return {| status := 500;
                               body := ErrorBody "Internal server error" |},
                     [BodyRead])
                | Return v =>
                    match insert (with_user_id v (id user)) with
                    | Return {| data := d; error := None |} =>
                        (Return {| status := 200; body := DataBody d |},
                         [BodyRead; Inserted (with_user_id v (id user))])
                    | _ =>
                        (Return {| status := 500;
                                   body := ErrorBody "Internal server error" |},
                         [BodyRead; Inserted (with_user_id v (id user))])
                    end
                end
            end
        end
    end.
Proof.
  unfold POST, Eff.run, Eff.try_catch, Eff.bind, Eff.emit, Eff.await,
    Eff.ret, Eff.throw.
  destruct createClient as [ [] | e0 ]; [ | reflexivity ].
  destruct getUser as [ [ user | ] | e1 ]; [ | reflexivity | reflexivity ].
  cbn [app].
  destruct request_json as [ b | e2 ]; [ | reflexivity ].
  destruct (WeightLogSchema_parse b) as [ v | e3 ]; [ | reflexivity ].
  destruct (insert (with_user_id v (id user))) as [ [ d [ e | ] ] | e4 ];
    reflexivity.
Qed.

(** The route always answers, with 200, 401 or 500, and never rejects.
    It answers 401 exactly when there is no authenticated user, and has
    then neither read the body nor written anything; it answers 200 exactly
    when every call went through and the store reported no error, with the
    stored row as data.  It writes at most one row. *)
Theorem route_always_answers :
  exists resp trace,
    Eff.run (POST createClient getUser request_json WeightLogSchema_parse
                  insert) = (Return resp, trace) /\
    (status resp = 200 \/ status resp = 401 \/ status resp = 500) /\
    (status resp = 401 <->
     (exists u, createClient = Return u) /\ getUser = Return None) /\
    (status resp = 401 -> trace = []) /\
    (status resp = 200 <->
     exists u0 user b v d,
       createClient = Return u0 /\ getUser = Return (Some user) /\
       request_json = Return b /\ WeightLogSchema_parse b = Return v /\
       insert (with_user_id v (id user))
       = Return {| data := d; error := None |} /\
       body resp = DataBody d) /\
    (List.length (inserted trace) <= 1)%nat.
Proof.
  rewrite POST_cases.
  destruct createClient as [ u0 | e0 ].
  2: { do 2 eexists. split; [ reflexivity | ]. cbn.
       repeat split; try lia; try discriminate; auto.
       - intros ((u & Hu) & _). discriminate Hu.
       - intros (? & ? & ? & ? & ? & H & _). discriminate H. }
  destruct getUser as [ [ user | ] | e1 ].
  3: { do 2 eexists. split; [ reflexivity | ]. cbn.
       repeat split; try lia; try discriminate; auto.
       - intros (_ & H). discriminate H.
       - intros (? & ? & ? & ? & ? & _ & H & _). discriminate H. }
  2: { do 2 eexists. split; [ reflexivity | ]. cbn.
       repeat split; try lia; try discriminate; eauto.
       intros (? & ? & ? & ? & ? & _ & H & _). discriminate H. }
  destruct request_json as [ b | e2 ].
  2: { do 2 eexists. split; [ reflexivity | ]. cbn.
       repeat split; try lia; try discriminate; auto.
       - intros (_ & H). discriminate H.
       - intros (? & ? & ? & ? & ? & _ & _ & H & _). discriminate H. }
  destruct (WeightLogSchema_parse b) as [ v | e3 ] eqn:Ev.
  2: { do 2 eexists. split; [ reflexivity | ]. cbn.
       repeat split; try lia; try discriminate; auto.
       - intros (_ & H). discriminate H.
       - intros (? & ? & b' & ? & ? & _ & _ & Hb & H & _).
         apply (f_equal (fun c => match c with Return x => x | Throw _ => b end))
           in Hb. cbn in Hb. subst b'. rewrite Ev in H. discriminate H. }
  destruct (insert (with_user_id v (id user))) as [ [ d [ e | ] ] | e4 ] eqn:Ei.
  - do 2 eexists. split; [ reflexivity | ]. cbn.
    repeat split; try lia; try discriminate; auto.
    + intros (_ & H). discriminate H.
    + intros (? & user' & b' & v' & ? & _ & Hu & Hb & Hv & H & _).
      apply (f_equal (fun c => match c with
                               | Return (Some x) => x | _ => user end))
        in Hu. cbn in Hu. subst user'.
      apply (f_equal (fun c => match c with Return x => x | Throw _ => b end))
        in Hb. cbn in Hb. subst b'. rewrite Ev in Hv.
      apply (f_equal (fun c => match c with Return x => x | Throw _ => v end))
        in Hv. cbn in Hv. subst v'. rewrite Ei in H.
      apply (f_equal (fun c => match c with
                               | Return r => match error r with
                                             | Some _ => true | None => false
                                             end
                               | Throw _ => false end)) in H.
      cbn in H. discriminate H.
  - do 2 eexists. split; [ reflexivity | ]. cbn.
    repeat split; try lia; try discriminate; auto.
    + intros (_ & H). discriminate H.
    + intros _. exists u0, user, b, v, d. repeat split; assumption.
  - do 2 eexists. split; [ reflexivity | ]. cbn.
    repeat split; try lia; try discriminate; auto.
    + intros (_ & H). discriminate H.
    + intros (? & user' & b' & v' & ? & _ & Hu & Hb & Hv & H & _).
      apply (f_equal (fun c => match c with
                               | Return (Some x) => x | _ => user end))
        in Hu. cbn in Hu. subst user'.
      apply (f_equal (fun c => match c with Return x => x | Throw _ => b end))
        in Hb. cbn in Hb. subst b'. rewrite Ev in Hv.
      apply (f_equal (fun c => match c with Return x => x | Throw _ => v end))
        in Hv. cbn in Hv. subst v'. rewrite Ei in H. discriminate H.
Qed.

(** Every row the route writes is in the name of the authenticated user:
    its [user_id] is that user's id even when the request's data carry
    another one, and its other fields are the validated ones. *)
Theorem rows_carry_authenticated_user row :
  In row (inserted (snd (Eff.run (POST createClient getUser request_json
                                       WeightLogSchema_parse insert)))) ->
  exists user b v,
    getUser = Return (Some user) /\ request_json = Return b /\
    WeightLogSchema_parse b = Return v /\
    Json.lookup "user_id" row = Some (Json.Str (id user)) /\
    forall key, key <> "user_id" -> Json.lookup key row = Json.lookup key v.
Proof.
  rewrite POST_cases.
  destruct createClient as [ u0 | e0 ]; [ | intros [] ].
  destruct getUser as [ [ user | ] | e1 ]; [ | intros [] | intros [] ].
  destruct request_json as [ b | e2 ]; [ | intros [] ].
  destruct (WeightLogSchema_parse b) as [ v | e3 ] eqn:Ev; [ | intros [] ].
  intros Hin.
  assert (Hrow : row = with_user_id v (id user)).
  { destruct (insert (with_user_id v (id user))) as [ [ d [ e | ] ] | e4 ];
      cbn in Hin; destruct Hin as [ H | [] ]; now symmetry. }
  subst row. exists user, b, v.
  destruct (with_user_id_fields v (id user)) as [ H1 H2 ].
  repeat split; assumption.
Qed.
End Route.

(** An instance: the request's data name user-2, the session is user-1's;
    the row is written for user-1. *)
Lemma rows_carry_authenticated_user_witness :
  In (with_user_id RuleSamples.weight_entry "user-1")
     (inserted (snd (Eff.run (POST (Return tt)
                                   (Return (Some {| id := "user-1" |}))
                                   (Return Json.Null)
                                   (fun _ => Return RuleSamples.weight_entry)
                                   RuleSamples.stored)))) /\
  exists user b v,
    Return (Some {| id := "user-1" |}) = Return (Some user) /\
    Return Json.Null = Return b /\
    Return RuleSamples.weight_entry = Return v /\
    Json.lookup "user_id" (with_user_id RuleSamples.weight_entry "user-1")
    = Some (Json.Str (id user)) /\
    forall key, key <> "user_id" ->
      Json.lookup key (with_user_id RuleSamples.weight_entry "user-1")
      = Json.lookup key v.
Proof.
  assert (H : In (with_user_id RuleSamples.weight_entry "user-1")
     (inserted (snd (Eff.run (POST (Return tt)
                                   (Return (Some {| id := "user-1" |}))
                                   (Return Json.Null)
                                   (fun _ => Return RuleSamples.weight_entry)
                                   RuleSamples.stored)))))
    by (left; reflexivity).
  split; [ exact H | ].
  exact (rows_carry_authenticated_user
           (Return tt) (Return (Some {| id := "user-1" |})) (Return Json.Null)
           (fun _ => Return RuleSamples.weight_entry) RuleSamples.stored
           (with_user_id RuleSamples.weight_entry "user-1") H).
Defined.

(** The same instance, evaluated: the stored row names user-1. *)
Example row_for_the_session_user :
  Eff.run (POST (Return tt) (Return (Some {| id := "user-1" |}))
                (Return Json.Null)
                (fun _ => Return RuleSamples.weight_entry)
                RuleSamples.stored)
  = (Return {| status := 200;
               body := DataBody
                         (Some (Json.Object
                                  [ ("weight_kg", Json.Number 81.5%float);
                                    ("user_id", Json.Str "user-2");
                                    ("user_id", Json.Str "user-1") ])) |},
     [ BodyRead;
       Inserted [ ("weight_kg", Json.Number 81.5%float);
                  ("user_id", Json.Str "user-2");
                  ("user_id", Json.Str "user-1") ] ]).
Proof. reflexivity. Qed.

End WeightRouteFacts.
(** ** The weekly analysis job *)

Module WeeklyJobFacts.
Import Js WeeklyJob.
Local Open Scope string_scope.

Lemma emailed_app {Analysis : Type} (tr tr' : list (event Analysis)) :
  emailed (tr ++ tr') = (emailed tr ++ emailed tr')%list.
Proof.
  induction tr as [ | [ u a | u a ] tr IH ]; cbn [app emailed];
    [ reflexivity | exact IH | now rewrite IH ].
Qed.

Section Job.
Variables WeeklyData Analysis : Type.
Variable getActiveUsers : completion (list User).
Variable getWeeklyUserData : string -> completion WeeklyData.
Variable generateWeeklyAnalysis : WeeklyData -> completion Analysis.
Variable saveWeeklyReport : string -> Analysis -> completion unit.
Variable sendWeeklyProgressEmail : string -> Analysis -> completion unit.

(** One user's step: what it adds to the trace, and when it goes through. *)
Lemma analyze_user_cases user tr :
  exists c t,
    analyze_user WeeklyData Analysis getWeeklyUserData generateWeeklyAnalysis
                 saveWeeklyReport sendWeeklyProgressEmail user tr
    = (c, (tr ++ t)%list) /\
    (c = Return tt <->
     user_succeeds WeeklyData Analysis getWeeklyUserData
                   generateWeeklyAnalysis saveWeeklyReport
                   sendWeeklyProgressEmail user) /\
    (c = Return tt -> emailed t = [id user]) /\
    (emailed t = [] \/ emailed t = [id user]) /\
    (forall userId analysis, In (SendEmail userId analysis) t ->
       t = [SaveReport userId analysis; SendEmail userId analysis] /\
       saveWeeklyReport userId analysis = Return tt /\
       exists weeklyData,
         getWeeklyUserData userId = Return weeklyData /\
         generateWeeklyAnalysis weeklyData = Return analysis).
Proof.
  unfold analyze_user, user_succeeds, Eff.bind, Eff.emit, Eff.await, Eff.ret.
  destruct (getWeeklyUserData (id user)) as [ d | e ] eqn:Ed.
  2: { exists (Throw e), []. rewrite app_nil_r.
       split; [ reflexivity | ].
       split; [ split; [ discriminate | ] | ].
       - intros (d & a & H & _). discriminate H.
       - split; [ discriminate | ]. split; [ now left | intros ? ? [] ]. }
  destruct (generateWeeklyAnalysis d) as [ a | e ] eqn:Ea.
  2: { exists (Throw e), []. rewrite app_nil_r.
       split; [ reflexivity | ].
       split; [ split; [ discriminate | ] | ].
       - intros (d' & a & Hd & H & _).
         assert (d' = d) by congruence. subst d'.
         rewrite Ea in H. discriminate H.
       - split; [ discriminate | ]. split; [ now left | intros ? ? [] ]. }
  destruct (saveWeeklyReport (id user) a) as [ [] | e ] eqn:Es.
  2: { exists (Throw e), [SaveReport (id user) a].
       split; [ reflexivity | ].
       split; [ split; [ discriminate | ] | ].
       - intros (d' & a' & Hd & Ha & H & _).
         assert (d' = d) by congruence. subst d'.
         assert (a' = a) by congruence. subst a'.
         rewrite Es in H. discriminate H.
       - split; [ discriminate | ]. split; [ now left | ].
         intros ? ? [ H | [] ]; discriminate H. }
  exists (sendWeeklyProgressEmail (id user) a),
         [SaveReport (id user) a; SendEmail (id user) a].
  rewrite <- app_assoc. cbn [app emailed].
  split; [ reflexivity | ].
  split; [ | split; [ reflexivity | split; [ now right | ] ] ].
  - split.
    + intros H. exists d, a. repeat split; assumption.
    + intros (d' & a' & Hd & Ha & _ & H).
      assert (d' = d) by congruence. subst d'.
      assert (a' = a) by congruence. subst a'. exact H.
  - intros userId analysis [ H | [ H | [] ] ]; [ discriminate H | ].
    assert (userId = id user) by congruence.
    assert (analysis = a) by congruence. subst userId analysis.
    split; [ reflexivity | ]. split; [ exact Es | ].
    exists d. split; assumption.
Qed.

(** When the step of every user goes through, each gets one email, in the
    order of the list. *)
Lemma for_users_all_succeed users : forall tr,
  Forall (user_succeeds WeeklyData Analysis getWeeklyUserData
                        generateWeeklyAnalysis saveWeeklyReport
                        sendWeeklyProgressEmail) users ->
  exists t,
    for_users WeeklyData Analysis getWeeklyUserData generateWeeklyAnalysis
              saveWeeklyReport sendWeeklyProgressEmail users tr
    = (Return tt, (tr ++ t)%list) /\
    emailed t = map id users.
Proof.
  induction users as [ | user users IH ]; intros tr Hall.
  - exists []. now rewrite app_nil_r.
  - inversion Hall as [ | ? ? Hu Hrest ]; subst.
    destruct (analyze_user_cases user tr) as (c & t & Hc & Hiff & Hem & _).
    apply Hiff in Hu. subst c. specialize (Hem eq_refl).
    destruct (IH (tr ++ t)%list Hrest) as (t' & Ht' & Hem').
    exists (t ++ t')%list. cbn [for_users]. unfold Eff.bind at 1.
    rewrite Hc, Ht', app_assoc. split; [ reflexivity | ].
    rewrite emailed_app, Hem, Hem'. reflexivity.
Qed.

(** The loop from any trace on: an email is only issued right after the
    report of the same user and analysis was saved. *)
Lemma for_users_emails users : forall tr,
  exists c t,
    for_users WeeklyData Analysis getWeeklyUserData generateWeeklyAnalysis
              saveWeeklyReport sendWeeklyProgressEmail users tr
    = (c, (tr ++ t)%list) /\
    forall userId analysis, In (SendEmail userId analysis) t ->
      saveWeeklyReport userId analysis = Return tt /\
      (exists weeklyData,
         getWeeklyUserData userId = Return weeklyData /\
         generateWeeklyAnalysis weeklyData = Return analysis) /\
      exists before after,
        t = (before ++ SaveReport userId analysis
                    :: SendEmail userId analysis :: after)%list.
Proof.
  induction users as [ | user users IH ]; intros tr.
  - exists (Return tt), []. rewrite app_nil_r.
    split; [ reflexivity | intros ? ? [] ].
  - destruct (analyze_user_cases user tr) as (c & t & Hc & _ & _ & _ & Hin).
    cbn [for_users]. unfold Eff.bind at 1. rewrite Hc.
    destruct c as [ [] | e ].
    + destruct (IH (tr ++ t)%list) as (c' & t' & Hc' & Hin').
      exists c', (t ++ t')%list. rewrite Hc', app_assoc.
      split; [ reflexivity | ].
      intros userId analysis H. apply in_app_or in H.
      destruct H as [ H | H ].
      * destruct (Hin _ _ H) as (Ht & Hs & Hd).
        split; [ exact Hs | split; [ exact Hd | ] ].
        exists [], t'. rewrite Ht. reflexivity.
      * destruct (Hin' _ _ H) as (Hs & Hd & before & after & Ht).
        split; [ exact Hs | split; [ exact Hd | ] ].
        exists (t ++ before)%list, after. rewrite Ht, app_assoc. reflexivity.
    + exists (Throw e), t. split; [ reflexivity | ].
      intros userId analysis H.
      destruct (Hin _ _ H) as (Ht & Hs & Hd).
      split; [ exact Hs | split; [ exact Hd | ] ].
      exists [], []. exact Ht.
Qed.

(** No progress email without a saved report: whenever a run issues the
    email of a user, the weekly data of that user were read, the analysis
    was generated from them, the report with this analysis was saved and
    the save had resolved, right before the email. *)
Theorem email_only_after_saved_report userId analysis :
  In (SendEmail userId analysis)
     (snd (Eff.run (analyzeWeeklyProgress WeeklyData Analysis getActiveUsers
                      getWeeklyUserData generateWeeklyAnalysis
                      saveWeeklyReport sendWeeklyProgressEmail))) ->
  saveWeeklyReport userId analysis = Return tt /\
  (exists weeklyData,
     getWeeklyUserData userId = Return weeklyData /\
     generateWeeklyAnalysis weeklyData = Return analysis) /\
  exists before after,
    snd (Eff.run (analyzeWeeklyProgress WeeklyData Analysis getActiveUsers
                    getWeeklyUserData generateWeeklyAnalysis
                    saveWeeklyReport sendWeeklyProgressEmail))
    = (before ++ SaveReport userId analysis
              :: SendEmail userId analysis :: after)%list.
Proof.
  unfold analyzeWeeklyProgress, Eff.run, Eff.bind, Eff.await.
  destruct getActiveUsers as [ users | e ]; [ | intros [] ].
  destruct (for_users_emails users []) as (c & t & Hc & Hin).
  rewrite Hc. cbn [snd app]. apply Hin.
Qed.

(** With every callback run once: when the steps of the users before
    [user] go through and the step of [user] does not, the run rejects;
    the users before have their email and [user] has at most the email
    whose sending failed. *)
Lemma emails_up_to_first_failure done user rest :
  getActiveUsers = Return (done ++ user :: rest)%list ->
  Forall (user_succeeds WeeklyData Analysis getWeeklyUserData
                        generateWeeklyAnalysis saveWeeklyReport
                        sendWeeklyProgressEmail) done ->
  ~ user_succeeds WeeklyData Analysis getWeeklyUserData generateWeeklyAnalysis
                  saveWeeklyReport sendWeeklyProgressEmail user ->
  exists e trace,
    Eff.run (analyzeWeeklyProgress WeeklyData Analysis getActiveUsers
               getWeeklyUserData generateWeeklyAnalysis saveWeeklyReport
               sendWeeklyProgressEmail) = (Throw e, trace) /\
    (emailed trace = map id done \/
     emailed trace = (map id done ++ [id user])%list).
Proof.
  intros Hu Hdone Hfail.
  unfold analyzeWeeklyProgress, Eff.run, Eff.bind, Eff.await. rewrite Hu.
  assert (Hloop : forall l tr,
             Forall (user_succeeds WeeklyData Analysis getWeeklyUserData
                       generateWeeklyAnalysis saveWeeklyReport
                       sendWeeklyProgressEmail) l ->
             exists e t,
               for_users WeeklyData Analysis getWeeklyUserData
                         generateWeeklyAnalysis saveWeeklyReport
                         sendWeeklyProgressEmail (l ++ user :: rest)%list tr
               = (Throw e, (tr ++ t)%list) /\
               (emailed t = map id l \/
                emailed t = (map id l ++ [id user])%list)).
  { induction l as [ | u l IH ]; intros tr Hall.
    - destruct (analyze_user_cases user tr) as (c & t & Hc & Hiff & _ & Hem & _).
      cbn [app for_users]. unfold Eff.bind at 1. rewrite Hc.
      destruct c as [ [] | e ].
      + elim Hfail. now apply Hiff.
      + exists e, t. split; [ reflexivity | exact Hem ].
    - inversion Hall as [ | ? ? Hsu Hrest ]; subst.
      destruct (analyze_user_cases u tr) as (c & t & Hc & Hiff & Hem & _).
      apply Hiff in Hsu. subst c. specialize (Hem eq_refl).
      destruct (IH (tr ++ t)%list Hrest) as (e & t' & Ht' & Hem').
      exists e, (t ++ t')%list. cbn [app for_users]. unfold Eff.bind at 1.
      rewrite Hc, Ht', app_assoc. split; [ reflexivity | ].
      rewrite emailed_app, Hem. cbn [map app].
      destruct Hem' as [ H | H ]; rewrite H; [ now left | now right ]. }
  destruct (Hloop done [] Hdone) as (e & t & Ht & Hem).
  exists e, t. rewrite Ht. split; [ reflexivity | exact Hem ].
Qed.


(** The executor that runs each callback once gives the handler as
    modelled above. *)
Lemma analyzeWeeklyProgress_once tr :
  analyzeWeeklyProgress_under WeeklyData Analysis getActiveUsers
    getWeeklyUserData generateWeeklyAnalysis saveWeeklyReport
    sendWeeklyProgressEmail (@once (event Analysis)) tr
  = analyzeWeeklyProgress WeeklyData Analysis getActiveUsers
      getWeeklyUserData generateWeeklyAnalysis saveWeeklyReport
      sendWeeklyProgressEmail tr.
Proof.
  unfold analyzeWeeklyProgress_under, analyzeWeeklyProgress, once, Eff.bind,
    Eff.await.
  destruct getActiveUsers as [ users | e ]; [ | reflexivity ].
  generalize tr. clear tr.
  induction users as [ | user users IH ]; intros tr; [ reflexivity | ].
  cbn [for_user_steps for_users]. unfold user_step, once, Eff.bind.
  destruct (analyze_user WeeklyData Analysis getWeeklyUserData
                         generateWeeklyAnalysis saveWeeklyReport
                         sendWeeklyProgressEmail user tr)
    as [ [ [] | e ] tr' ]; [ apply IH | reflexivity ].
Qed.

End Job.

(** An instance: the run over alice, bob and carol, the analysis of bob's
    week failing. *)
Lemma email_only_after_saved_report_witness :
  In (SendEmail "alice" "Week of alice")
     (snd (Eff.run (analyzeWeeklyProgress string string
                      (Return RuleSamples.active_users)
                      RuleSamples.weekly_data RuleSamples.weekly_analysis
                      RuleSamples.delivered RuleSamples.delivered))) /\
  RuleSamples.delivered "alice" "Week of alice" = Return tt /\
  (exists weeklyData,
     RuleSamples.weekly_data "alice" = Return weeklyData /\
     RuleSamples.weekly_analysis weeklyData = Return "Week of alice") /\
  exists before after,
    snd (Eff.run (analyzeWeeklyProgress string string
                    (Return RuleSamples.active_users)
                    RuleSamples.weekly_data RuleSamples.weekly_analysis
                    RuleSamples.delivered RuleSamples.delivered))
    = (before ++ SaveReport "alice" "Week of alice"
              :: SendEmail "alice" "Week of alice" :: after)%list.
Proof.
  assert (H : In (SendEmail "alice" "Week of alice")
     (snd (Eff.run (analyzeWeeklyProgress string string
                      (Return RuleSamples.active_users)
                      RuleSamples.weekly_data RuleSamples.weekly_analysis
                      RuleSamples.delivered RuleSamples.delivered))))
    by (right; left; reflexivity).
  split; [ exact H | ].
  exact (email_only_after_saved_report string string
           (Return RuleSamples.active_users)
           RuleSamples.weekly_data RuleSamples.weekly_analysis
           RuleSamples.delivered RuleSamples.delivered
           "alice" "Week of alice" H).
Defined.


(** Under an executor that runs a failed callback twice more, with a mail
    service that turns down bob's mail: bob's report is saved and his
    email tried three times, and carol still gets nothing. *)
Example weekly_run_with_retries :
  Eff.run (analyzeWeeklyProgress_under string string
             (Return RuleSamples.active_users)
             RuleSamples.weekly_data (fun weeklyData => Return weeklyData)
             RuleSamples.delivered RuleSamples.bounced_for_bob
             (@retrying (event string) 2))
  = (Throw (Foreign "550 mailbox unavailable"),
     [ SaveReport "alice" "alice"; SendEmail "alice" "alice";
       SaveReport "bob" "bob"; SendEmail "bob" "bob";
       SaveReport "bob" "bob"; SendEmail "bob" "bob";
       SaveReport "bob" "bob"; SendEmail "bob" "bob" ]).
Proof. reflexivity. Qed.

(** The same run, evaluated: carol gets nothing. *)
Example weekly_run_with_a_failure :
  Eff.run (analyzeWeeklyProgress string string
             (Return RuleSamples.active_users)
             RuleSamples.weekly_data RuleSamples.weekly_analysis
             RuleSamples.delivered RuleSamples.delivered)
  = (Throw RuleSamples.timed_out,
     [ SaveReport "alice" "Week of alice";
       SendEmail "alice" "Week of alice" ]).
Proof. reflexivity. Qed.

End WeeklyJobFacts.
(** ** The session middleware *)

Module SessionFacts.
Import Js Session.
Local Open Scope string_scope.

Lemma get_set_same {V : Type} key (v : V) jar :
  get key (set key v jar) = Some v.
Proof.
  induction jar as [ | [ k v' ] jar IH ]; cbn [set get].
  - now rewrite String.eqb_refl.
  - destruct (k =? key)%string eqn:E; cbn [get].
    + now rewrite String.eqb_refl.
    + now rewrite E.
Qed.

Lemma get_set_other {V : Type} key key' (v : V) jar :
  key <> key' -> get key' (set key v jar) = get key' jar.
Proof.
  intros Hne. induction jar as [ | [ k v' ] jar IH ]; cbn [set get].
  - destruct (String.eqb_spec key key'); [ contradiction | reflexivity ].
  - destruct (String.eqb_spec k key) as [ -> | Hk ]; cbn [get].
    + destruct (String.eqb_spec key key'); [ contradiction | reflexivity ].
    + now rewrite IH.
Qed.

(** Setting cookies on a response leaves what it forwards alone. *)
Lemma fold_response_set cookiesToSet : forall r,
  fold_left response_set cookiesToSet r
  = {| forwarded := forwarded r;
       cookies := fold_left (fun jar c => set (name c) (value c, options c) jar)
                            cookiesToSet (cookies r) |}.
Proof.
  induction cookiesToSet as [ | c l IH ]; intros r; cbn [fold_left].
  - now destruct r.
  - rewrite IH. reflexivity.
Qed.

Lemma setAll_response s cookiesToSet :
  supabaseResponse (setAll s cookiesToSet)
  = {| forwarded := request (setAll s cookiesToSet);
       cookies := of_batch cookiesToSet |}.
Proof.
  unfold setAll. cbn [supabaseResponse request].
  now rewrite fold_response_set.
Qed.

Lemma fold_setAll_response batches : forall s,
  forwarded (supabaseResponse s) = request s ->
  forwarded (supabaseResponse (fold_left setAll batches s))
  = request (fold_left setAll batches s) /\
  cookies (supabaseResponse (fold_left setAll batches s))
  = match batches with
    | [] => cookies (supabaseResponse s)
    | _ :: _ => of_batch (last batches [])
    end.
Proof.
  induction batches as [ | b batches IH ]; intros s Hs; cbn [fold_left].
  - split; [ exact Hs | reflexivity ].
  - destruct (IH (setAll s b)) as [ H1 H2 ].
    { now rewrite setAll_response. }
    split; [ exact H1 | ]. rewrite H2.
    destruct batches as [ | b' batches' ]; [ | reflexivity ].
    now rewrite setAll_response.
Qed.

(** The response that is returned passes on the request's cookies as they
    are at the end, and sets the cookies of the last batch only: what an
    earlier call of [setAll] put on the response is gone unless the last
    batch repeats it, and without any call the response sets no cookie. *)
Theorem response_carries_last_batch request0 batches :
  exists response,
    updateSession request0 batches (Return tt)
    = (Return response, forwarded response) /\
    cookies response = of_batch (last batches []).
Proof.
  unfold updateSession. cbn [bind].
  destruct (fold_setAll_response batches
              {| request := request0; supabaseResponse := next request0 |}
              eq_refl) as [ H1 H2 ].
  eexists. split; [ now rewrite <- H1 | ].
  rewrite H2. now destruct batches.
Qed.

(** Simultaneous updates keep a response's cookies among the request's. *)
Lemma set_both_agree cookiesToSet :
  forall (jr : ResponseCookies) (jq : RequestCookies),
  (forall n v o, get n jr = Some (v, o) -> get n jq = Some v) ->
  forall n v o,
    get n (fold_left (fun jar c => set (name c) (value c, options c) jar)
                     cookiesToSet jr) = Some (v, o) ->
    get n (fold_left (fun jar c => set (name c) (value c) jar)
                     cookiesToSet jq) = Some v.
Proof.
  induction cookiesToSet as [ | c l IH ]; intros jr jq Hinv; cbn [fold_left].
  - exact Hinv.
  - apply IH. intros n v o.
    destruct (String.eqb_spec (name c) n) as [ <- | Hne ].
    + rewrite !get_set_same. intros H.
      apply (f_equal (fun x => match x with Some p => fst p | None => v end)) in H.
      cbn in H. now rewrite H.
    + rewrite !get_set_other by assumption. apply Hinv.
Qed.

(** Every cookie the returned response sets is a cookie of the request
    with the same value: the two are kept in step. *)
Theorem response_cookies_in_request request0 batches refreshed response
        n v o :
  fst (updateSession request0 batches refreshed) = Return response ->
  get n (cookies response) = Some (v, o) ->
  get n (snd (updateSession request0 batches refreshed)) = Some v.
Proof.
  unfold updateSession. cbn [fst snd].
  destruct refreshed as [ [] | e ]; cbn [bind]; [ | discriminate ].
  intros H.
  apply (f_equal (fun c => match c with
                           | Return r => r | Throw _ => response end)) in H.
  subst response.
  destruct (fold_setAll_response batches
              {| request := request0; supabaseResponse := next request0 |}
              eq_refl) as [ _ H2 ].
  rewrite H2. destruct batches as [ | b batches ]; [ discriminate | ].
  destruct (@exists_last _ (b :: batches) ltac:(discriminate))
    as (init & final & E).
  rewrite E, last_last, fold_left_app. cbn [fold_left].
  unfold setAll at 1. cbn [Session.request]. unfold of_batch.
  apply set_both_agree. discriminate.
Qed.

Lemma fold_setAll_untouched n batches : forall s,
  (forall b c, In b batches -> In c b -> name c <> n) ->
  get n (request (fold_left setAll batches s)) = get n (request s).
Proof.
  induction batches as [ | b batches IH ]; intros s Hn; cbn [fold_left].
  - reflexivity.
  - rewrite IH by (intros b' c Hb Hc; apply (Hn b' c); [ now right | exact Hc ]).
    unfold setAll. cbn [request].
    assert (Hb : forall c, In c b -> name c <> n)
      by (intros c Hc; apply (Hn b c); [ now left | exact Hc ]).
    clear IH Hn. generalize (request s).
    induction b as [ | c b IHb ]; intros jar; cbn [fold_left].
    + reflexivity.
    + rewrite IHb by (intros c' Hc'; apply Hb; now right).
      apply get_set_other. apply Hb. now left.
Qed.

(** A request cookie that no batch names stays as it was. *)
Theorem untouched_cookies_kept request0 batches refreshed n :
  (forall b c, In b batches -> In c b -> name c <> n) ->
  get n (snd (updateSession request0 batches refreshed)) = get n request0.
Proof.
  intros Hn. unfold updateSession. cbn [snd].
  now rewrite fold_setAll_untouched.
Qed.

(** An instance: the client first sets the access token, then, in a second
    call, the refresh token. *)
Lemma response_cookies_in_request_witness :
  fst (updateSession RuleSamples.browser_cookies
         [ [RuleSamples.session_cookie]; [RuleSamples.refresh_cookie] ]
         (Return tt))
  = Return {| forwarded := [ ("theme", "dark");
                             ("sb-access-token", "eyJhbGciOi");
                             ("sb-refresh-token", "v1.MR5m") ];
              cookies := [ ("sb-refresh-token",
                            ("v1.MR5m", "Path=/; HttpOnly")) ] |} /\
  get "sb-refresh-token"
      [ ("sb-refresh-token", ("v1.MR5m", "Path=/; HttpOnly")) ]
  = Some ("v1.MR5m", "Path=/; HttpOnly") /\
  get "sb-refresh-token"
      (snd (updateSession RuleSamples.browser_cookies
              [ [RuleSamples.session_cookie]; [RuleSamples.refresh_cookie] ]
              (Return tt)))
  = Some "v1.MR5m".
Proof.
  split; [ reflexivity | ]. split; [ reflexivity | ].
  exact (response_cookies_in_request RuleSamples.browser_cookies
           [ [RuleSamples.session_cookie]; [RuleSamples.refresh_cookie] ]
           (Return tt) _ "sb-refresh-token" "v1.MR5m" "Path=/; HttpOnly"
           eq_refl eq_refl).
Defined.

Lemma untouched_cookies_kept_witness :
  (forall b c,
     In b [ [RuleSamples.session_cookie]; [RuleSamples.refresh_cookie] ] ->
     In c b -> name c <> "theme") /\
  get "theme"
      (snd (updateSession RuleSamples.browser_cookies
              [ [RuleSamples.session_cookie]; [RuleSamples.refresh_cookie] ]
              (Return tt)))
  = get "theme" RuleSamples.browser_cookies.
Proof.
  assert (H : forall b c,
             In b [ [RuleSamples.session_cookie];
                    [RuleSamples.refresh_cookie] ] ->
             In c b -> name c <> "theme").
  { intros b c [ <- | [ <- | [] ] ] [ <- | [] ]; discriminate. }
  split; [ exact H | ].
  exact (untouched_cookies_kept RuleSamples.browser_cookies
           [ [RuleSamples.session_cookie]; [RuleSamples.refresh_cookie] ]
           (Return tt) "theme" H).
Defined.

(** Two calls of [setAll]: the access token of the first is in the
    request but not among the cookies the response sets. *)
Example earlier_batch_not_on_response :
  updateSession RuleSamples.browser_cookies
    [ [RuleSamples.session_cookie]; [RuleSamples.refresh_cookie] ] (Return tt)
  = (Return {| forwarded := [ ("theme", "dark");
                              ("sb-access-token", "eyJhbGciOi");
                              ("sb-refresh-token", "v1.MR5m") ];
               cookies := [ ("sb-refresh-token",
                             ("v1.MR5m", "Path=/; HttpOnly")) ] |},
     [ ("theme", "dark"); ("sb-access-token", "eyJhbGciOi");
       ("sb-refresh-token", "v1.MR5m") ]).
Proof. reflexivity. Qed.

End SessionFacts.

(** ** The two-stage estimate and its review, composed *)

Module ReviewFacts.
Import Js AiRules.
Local Open Scope string_scope.

Section Pipeline.
Variable generateInitial : string -> completion Initial.t.
Variable generateValidation : Initial.t -> completion Validation.

(** The review of a two-stage estimate looks at the first stage only:
    whether the user is asked to confirm depends on the first model's
    confidence, not on the validator, whose verdict [isReasonable] is
    dropped and whose adjusted calories are taken over as they are. *)
Theorem review_ignores_validation imageBase64 initial validation :
  generateInitial imageBase64 = Return initial ->
  generateValidation initial = Return validation ->
  exists estimate,
    analyzeFoodImage generateInitial generateValidation imageBase64
    = Return estimate /\
    result (processNutritionAnalysis estimate) = estimate /\
    requiresUserConfirmation (processNutritionAnalysis estimate)
    = (Initial.confidence initial <? 0.7)%float /\
    finalCalories estimate = adjustedCalories validation.
Proof.
  intros Hi Hv. unfold analyzeFoodImage, bind. rewrite Hi, Hv.
  eexists. split; [ reflexivity | ].
  unfold processNutritionAnalysis. cbn [confidence finalCalories].
  destruct (Initial.confidence initial <? 0.7)%float; repeat split.
Qed.
End Pipeline.

(** An instance: the validator finds 150 kcal for four slices of pizza
    unreasonable and puts 1100; the first model was sure (0.9), so no
    confirmation is asked for. *)
Lemma review_ignores_validation_witness :
  exists estimate,
    analyzeFoodImage (fun _ => Return RuleSamples.sure)
                     (fun _ => Return RuleSamples.objection) Samples.image
    = Return estimate /\
    result (processNutritionAnalysis estimate) = estimate /\
    requiresUserConfirmation (processNutritionAnalysis estimate)
    = (Initial.confidence RuleSamples.sure <? 0.7)%float /\
    finalCalories estimate = adjustedCalories RuleSamples.objection.
Proof.
  exact (review_ignores_validation (fun _ => Return RuleSamples.sure)
           (fun _ => Return RuleSamples.objection) Samples.image
           RuleSamples.sure RuleSamples.objection eq_refl eq_refl).
Defined.

Example unreasonable_estimate_passes :
  isReasonable RuleSamples.objection = false /\
  match analyzeFoodImage (fun _ => Return RuleSamples.sure)
                         (fun _ => Return RuleSamples.objection) Samples.image
  with
  | Return estimate =>
      requiresUserConfirmation (processNutritionAnalysis estimate) = false /\
      message (processNutritionAnalysis estimate)
      = "Nutrition estimate looks good!"
  | Throw _ => False
  end.
Proof. vm_compute. repeat split. Qed.

End ReviewFacts.
